(** * xml_processor: the Building Record extractor and the batch aggregator

    A shallow embedding of [parse_building_record_xml] and
    [process_uploaded_files] of [xml_processor.py], and the properties of
    the two functions.

    Conventions of the embedding.

    - A Python [str] is a [string] that holds its UTF-8 encoding, one
      byte for each character of the Rocq string; a Rocq string that is no
      UTF-8 stands for no Python text.  [str.isdigit], [int] and
      [str.title] work on the code points, with the character tables of
      Unicode 14.0 (CPython 3.11), and [int] has the limit of 4300 digits
      that the interpreter sets by default.
    - A record is a Python [dict], which keeps its keys in insertion order:
      an association list, with [dict_set] for [record[k] = v].
    - An exception is a value of [exn]; code that may raise returns an
      [outcome].  [st.error(...)] appends a [diagnostic] to a log.
    - The XML parser, the archive reader and the UTF-8 decoder are library
      code: they are parameters of the functions that call them. *)

From Stdlib Require Import String Ascii List ZArith NArith Bool Lia.
From Stdlib Require Import DecimalString.
Import ListNotations.
Local Open Scope string_scope.
Local Open Scope list_scope.
Set Warnings "-register-all".

(** ** Python values, exceptions and strings *)

Module Py.

(** The values a record holds: [None], a [str] or an [int]. *)
Inductive value : Type :=
| VNone
| VStr (s : string)
| VInt (n : Z).

(** The exceptions (all subclasses of [Exception]); each carries the text
    that [str(e)] gives. *)
Inductive exn : Type :=
| ParseError (msg : string)          (* xml.etree.ElementTree.ParseError *)
| AttributeError (msg : string)
| ValueError (msg : string)
| UnicodeDecodeError (msg : string)
| BadZipFile (msg : string)
| OtherError (kind msg : string).    (* any other subclass of Exception *)

Definition is_ParseError (e : exn) : bool :=
  match e with ParseError _ => true | _ => false end.

Inductive outcome (A : Type) : Type :=
| Return (a : A)
| Raise (e : exn).
Arguments Return {A} a.
Arguments Raise {A} e.

Definition bind {A B} (m : outcome A) (f : A -> outcome B) : outcome B :=
  match m with
  | Return a => f a
  | Raise e => Raise e
  end.

(** A loop that builds a list and is left by the first exception. *)
Fixpoint mapM {A B} (f : A -> outcome B) (l : list A) : outcome (list B) :=
  match l with
  | [] => Return []
  | x :: l' =>
      bind (f x) (fun y => bind (mapM f l') (fun ys => Return (y :: ys)))
  end.

(** [bool(s)] for a [str]. *)
Definition truthy (s : string) : bool := negb (s =? "").

Fixpoint all_chars (p : ascii -> bool) (s : string) : bool :=
  match s with
  | EmptyString => true
  | String c s' => p c && all_chars p s'
  end.

(** The bytes '0' .. '9'. *)
Definition is_decimal_char (c : ascii) : bool :=
  let n := N_of_ascii c in ((48 <=? n) && (n <=? 57))%N.

(** *** Code points and UTF-8 *)

Local Open Scope N_scope.

(** A byte [10xxxxxx], which continues a code point. *)
Definition is_continuation (b : ascii) : bool :=
  let n := N_of_ascii b in (128 <=? n) && (n <? 192).

(** The six low bits of a continuation byte. *)
Definition continuation_bits (b : ascii) : N := N_of_ascii b - 128.

(** One more code point [c] in front of the decoded rest, when [c] is in
    the range [lo .. hi] of its length and is no surrogate. *)
Definition decoded (lo hi c : N) (rest : option (list N)) : option (list N) :=
  if (lo <=? c) && (c <=? hi) && negb ((55296 <=? c) && (c <=? 57343))
  then option_map (cons c) rest
  else None.

(** The code points of a text; [None] for bytes that are no UTF-8. *)
Fixpoint utf8_decode (s : string) : option (list N) :=
  match s with
  | EmptyString => Some []
  | String b0 s1 =>
      let n0 := N_of_ascii b0 in
      if n0 <? 128 then decoded 0 127 n0 (utf8_decode s1)
      else if n0 <? 192 then None
      else if n0 <? 224 then
        match s1 with
        | String b1 s2 =>
            if is_continuation b1
            then decoded 128 2047
                   ((n0 - 192) * 64 + continuation_bits b1)
                   (utf8_decode s2)
            else None
        | _ => None
        end
      else if n0 <? 240 then
        match s1 with
        | String b1 (String b2 s3) =>
            if is_continuation b1 && is_continuation b2
            then decoded 2048 65535
                   ((n0 - 224) * 4096 + continuation_bits b1 * 64
                    + continuation_bits b2)
                   (utf8_decode s3)
            else None
        | _ => None
        end
      else if n0 <? 248 then
        match s1 with
        | String b1 (String b2 (String b3 s4)) =>
            if is_continuation b1 && is_continuation b2 && is_continuation b3
            then decoded 65536 1114111
                   ((n0 - 240) * 262144 + continuation_bits b1 * 4096
                    + continuation_bits b2 * 64 + continuation_bits b3)
                   (utf8_decode s4)
            else None
        | _ => None
        end
      else None
  end.

Definition continuation_byte (n : N) : ascii := ascii_of_N (128 + n mod 64).

(** The bytes of one code point. *)
Definition utf8_encode_code_point (c : N) : string :=
  if c <? 128 then String (ascii_of_N c) EmptyString
  else if c <? 2048 then
    String (ascii_of_N (192 + c / 64))
      (String (continuation_byte c) EmptyString)
  else if c <? 65536 then
    String (ascii_of_N (224 + c / 4096))
      (String (continuation_byte (c / 64))
         (String (continuation_byte c) EmptyString))
  else
    String (ascii_of_N (240 + c / 262144))
      (String (continuation_byte (c / 4096))
         (String (continuation_byte (c / 64))
            (String (continuation_byte c) EmptyString))).

Fixpoint utf8_encode (cps : list N) : string :=
  match cps with
  | [] => EmptyString
  | c :: cps' => (utf8_encode_code_point c ++ utf8_encode cps')%string
  end.

(** [len(s)]: the code points of a text are as many as the bytes of its
    UTF-8 form that are no continuation bytes. *)
Fixpoint str_len (s : string) : nat :=
  match s with
  | EmptyString => O
  | String b s' => if is_continuation b then str_len s' else S (str_len s')
  end.

(** The first [n] code points of a text. *)
Fixpoint str_prefix (n : nat) (s : string) : string :=
  match s with
  | EmptyString => EmptyString
  | String b s' =>
      if is_continuation b then String b (str_prefix n s')
      else match n with
           | O => EmptyString
           | S n' => String b (str_prefix n' s')
           end
  end.

(** *** The character database

    The tables of Unicode 14.0, the version of CPython 3.11, for the
    properties and mappings that [str.isdigit], [int] and [str.title]
    use. *)

(** The code points that [str.isdigit] accepts (numeric type Digit or
    Decimal), as ranges with both ends included. *)
Definition digit_ranges : list (N * N) :=
  [ (48, 57); (178, 179); (185, 185); (1632, 1641); (1776, 1785); (1984, 1993);
    (2406, 2415); (2534, 2543); (2662, 2671); (2790, 2799); (2918, 2927);
    (3046, 3055); (3174, 3183); (3302, 3311); (3430, 3439); (3558, 3567);
    (3664, 3673); (3792, 3801); (3872, 3881); (4160, 4169); (4240, 4249);
    (4969, 4977); (6112, 6121); (6160, 6169); (6470, 6479); (6608, 6618);
    (6784, 6793); (6800, 6809); (6992, 7001); (7088, 7097); (7232, 7241);
    (7248, 7257); (8304, 8304); (8308, 8313); (8320, 8329); (9312, 9320);
    (9332, 9340); (9352, 9360); (9450, 9450); (9461, 9469); (9471, 9471);
    (10102, 10110); (10112, 10120); (10122, 10130); (42528, 42537);
    (43216, 43225); (43264, 43273); (43472, 43481); (43504, 43513);
    (43600, 43609); (44016, 44025); (65296, 65305); (66720, 66729);
    (68160, 68163); (68912, 68921); (69216, 69224); (69714, 69722);
    (69734, 69743); (69872, 69881); (69942, 69951); (70096, 70105);
    (70384, 70393); (70736, 70745); (70864, 70873); (71248, 71257);
    (71360, 71369); (71472, 71481); (71904, 71913); (72016, 72025);
    (72784, 72793); (73040, 73049); (73120, 73129); (92768, 92777);
    (92864, 92873); (93008, 93017); (120782, 120831); (123200, 123209);
    (123632, 123641); (125264, 125273); (127232, 127242); (130032, 130041) ].

(** The code points with a decimal value (general category Nd); each
    range starts at a zero and runs in tens. *)
Definition decimal_ranges : list (N * N) :=
  [ (48, 57); (1632, 1641); (1776, 1785); (1984, 1993); (2406, 2415);
    (2534, 2543); (2662, 2671); (2790, 2799); (2918, 2927); (3046, 3055);
    (3174, 3183); (3302, 3311); (3430, 3439); (3558, 3567); (3664, 3673);
    (3792, 3801); (3872, 3881); (4160, 4169); (4240, 4249); (6112, 6121);
    (6160, 6169); (6470, 6479); (6608, 6617); (6784, 6793); (6800, 6809);
    (6992, 7001); (7088, 7097); (7232, 7241); (7248, 7257); (42528, 42537);
    (43216, 43225); (43264, 43273); (43472, 43481); (43504, 43513);
    (43600, 43609); (44016, 44025); (65296, 65305); (66720, 66729);
    (68912, 68921); (69734, 69743); (69872, 69881); (69942, 69951);
    (70096, 70105); (70384, 70393); (70736, 70745); (70864, 70873);
    (71248, 71257); (71360, 71369); (71472, 71481); (71904, 71913);
    (72016, 72025); (72784, 72793); (73040, 73049); (73120, 73129);
    (92768, 92777); (92864, 92873); (93008, 93017); (120782, 120831);
    (123200, 123209); (123632, 123641); (125264, 125273); (130032, 130041) ].

(** The cased code points. *)
Definition cased_ranges : list (N * N) :=
  [ (65, 90); (97, 122); (170, 170); (181, 181); (186, 186); (192, 214);
    (216, 246); (248, 442); (444, 447); (452, 659); (661, 696); (704, 705);
    (736, 740); (837, 837); (880, 883); (886, 887); (890, 893); (895, 895);
    (902, 902); (904, 906); (908, 908); (910, 929); (931, 1013); (1015, 1153);
    (1162, 1327); (1329, 1366); (1376, 1416); (4256, 4293); (4295, 4295);
    (4301, 4301); (4304, 4346); (4349, 4351); (5024, 5109); (5112, 5117);
    (7296, 7304); (7312, 7354); (7357, 7359); (7424, 7615); (7680, 7957);
    (7960, 7965); (7968, 8005); (8008, 8013); (8016, 8023); (8025, 8025);
    (8027, 8027); (8029, 8029); (8031, 8061); (8064, 8116); (8118, 8124);
    (8126, 8126); (8130, 8132); (8134, 8140); (8144, 8147); (8150, 8155);
    (8160, 8172); (8178, 8180); (8182, 8188); (8305, 8305); (8319, 8319);
    (8336, 8348); (8450, 8450); (8455, 8455); (8458, 8467); (8469, 8469);
    (8473, 8477); (8484, 8484); (8486, 8486); (8488, 8488); (8490, 8493);
    (8495, 8500); (8505, 8505); (8508, 8511); (8517, 8521); (8526, 8526);
    (8544, 8575); (8579, 8580); (9398, 9449); (11264, 11492); (11499, 11502);
    (11506, 11507); (11520, 11557); (11559, 11559); (11565, 11565);
    (42560, 42605); (42624, 42653); (42786, 42887); (42891, 42894);
    (42896, 42954); (42960, 42961); (42963, 42963); (42965, 42969);
    (42997, 42998); (43000, 43002); (43824, 43866); (43868, 43880);
    (43888, 43967); (64256, 64262); (64275, 64279); (65313, 65338);
    (65345, 65370); (66560, 66639); (66736, 66771); (66776, 66811);
    (66928, 66938); (66940, 66954); (66956, 66962); (66964, 66965);
    (66967, 66977); (66979, 66993); (66995, 67001); (67003, 67004);
    (67456, 67456); (67459, 67461); (67463, 67504); (67506, 67514);
    (68736, 68786); (68800, 68850); (71840, 71903); (93760, 93823);
    (119808, 119892); (119894, 119964); (119966, 119967); (119970, 119970);
    (119973, 119974); (119977, 119980); (119982, 119993); (119995, 119995);
    (119997, 120003); (120005, 120069); (120071, 120074); (120077, 120084);
    (120086, 120092); (120094, 120121); (120123, 120126); (120128, 120132);
    (120134, 120134); (120138, 120144); (120146, 120485); (120488, 120512);
    (120514, 120538); (120540, 120570); (120572, 120596); (120598, 120628);
    (120630, 120654); (120656, 120686); (120688, 120712); (120714, 120744);
    (120746, 120770); (120772, 120779); (122624, 122633); (122635, 122654);
    (125184, 125251); (127280, 127305); (127312, 127337); (127344, 127369) ].

(** The case-ignorable code points. *)
Definition case_ignorable_ranges : list (N * N) :=
  [ (39, 39); (46, 46); (58, 58); (94, 94); (96, 96); (168, 168); (173, 173);
    (175, 175); (180, 180); (183, 184); (688, 879); (884, 885); (890, 890);
    (900, 901); (903, 903); (1155, 1161); (1369, 1369); (1375, 1375);
    (1425, 1469); (1471, 1471); (1473, 1474); (1476, 1477); (1479, 1479);
    (1524, 1524); (1536, 1541); (1552, 1562); (1564, 1564); (1600, 1600);
    (1611, 1631); (1648, 1648); (1750, 1757); (1759, 1768); (1770, 1773);
    (1807, 1807); (1809, 1809); (1840, 1866); (1958, 1968); (2027, 2037);
    (2042, 2042); (2045, 2045); (2070, 2093); (2137, 2139); (2184, 2184);
    (2192, 2193); (2200, 2207); (2249, 2306); (2362, 2362); (2364, 2364);
    (2369, 2376); (2381, 2381); (2385, 2391); (2402, 2403); (2417, 2417);
    (2433, 2433); (2492, 2492); (2497, 2500); (2509, 2509); (2530, 2531);
    (2558, 2558); (2561, 2562); (2620, 2620); (2625, 2626); (2631, 2632);
    (2635, 2637); (2641, 2641); (2672, 2673); (2677, 2677); (2689, 2690);
    (2748, 2748); (2753, 2757); (2759, 2760); (2765, 2765); (2786, 2787);
    (2810, 2815); (2817, 2817); (2876, 2876); (2879, 2879); (2881, 2884);
    (2893, 2893); (2901, 2902); (2914, 2915); (2946, 2946); (3008, 3008);
    (3021, 3021); (3072, 3072); (3076, 3076); (3132, 3132); (3134, 3136);
    (3142, 3144); (3146, 3149); (3157, 3158); (3170, 3171); (3201, 3201);
    (3260, 3260); (3263, 3263); (3270, 3270); (3276, 3277); (3298, 3299);
    (3328, 3329); (3387, 3388); (3393, 3396); (3405, 3405); (3426, 3427);
    (3457, 3457); (3530, 3530); (3538, 3540); (3542, 3542); (3633, 3633);
    (3636, 3642); (3654, 3662); (3761, 3761); (3764, 3772); (3782, 3782);
    (3784, 3789); (3864, 3865); (3893, 3893); (3895, 3895); (3897, 3897);
    (3953, 3966); (3968, 3972); (3974, 3975); (3981, 3991); (3993, 4028);
    (4038, 4038); (4141, 4144); (4146, 4151); (4153, 4154); (4157, 4158);
    (4184, 4185); (4190, 4192); (4209, 4212); (4226, 4226); (4229, 4230);
    (4237, 4237); (4253, 4253); (4348, 4348); (4957, 4959); (5906, 5908);
    (5938, 5939); (5970, 5971); (6002, 6003); (6068, 6069); (6071, 6077);
    (6086, 6086); (6089, 6099); (6103, 6103); (6109, 6109); (6155, 6159);
    (6211, 6211); (6277, 6278); (6313, 6313); (6432, 6434); (6439, 6440);
    (6450, 6450); (6457, 6459); (6679, 6680); (6683, 6683); (6742, 6742);
    (6744, 6750); (6752, 6752); (6754, 6754); (6757, 6764); (6771, 6780);
    (6783, 6783); (6823, 6823); (6832, 6862); (6912, 6915); (6964, 6964);
    (6966, 6970); (6972, 6972); (6978, 6978); (7019, 7027); (7040, 7041);
    (7074, 7077); (7080, 7081); (7083, 7085); (7142, 7142); (7144, 7145);
    (7149, 7149); (7151, 7153); (7212, 7219); (7222, 7223); (7288, 7293);
    (7376, 7378); (7380, 7392); (7394, 7400); (7405, 7405); (7412, 7412);
    (7416, 7417); (7468, 7530); (7544, 7544); (7579, 7679); (8125, 8125);
    (8127, 8129); (8141, 8143); (8157, 8159); (8173, 8175); (8189, 8190);
    (8203, 8207); (8216, 8217); (8228, 8228); (8231, 8231); (8234, 8238);
    (8288, 8292); (8294, 8303); (8305, 8305); (8319, 8319); (8336, 8348);
    (8400, 8432); (11388, 11389); (11503, 11505); (11631, 11631); (11647, 11647);
    (11744, 11775); (11823, 11823); (12293, 12293); (12330, 12333);
    (12337, 12341); (12347, 12347); (12441, 12446); (12540, 12542);
    (40981, 40981); (42232, 42237); (42508, 42508); (42607, 42610);
    (42612, 42621); (42623, 42623); (42652, 42655); (42736, 42737);
    (42752, 42785); (42864, 42864); (42888, 42890); (42994, 42996);
    (43000, 43001); (43010, 43010); (43014, 43014); (43019, 43019);
    (43045, 43046); (43052, 43052); (43204, 43205); (43232, 43249);
    (43263, 43263); (43302, 43309); (43335, 43345); (43392, 43394);
    (43443, 43443); (43446, 43449); (43452, 43453); (43471, 43471);
    (43493, 43494); (43561, 43566); (43569, 43570); (43573, 43574);
    (43587, 43587); (43596, 43596); (43632, 43632); (43644, 43644);
    (43696, 43696); (43698, 43700); (43703, 43704); (43710, 43711);
    (43713, 43713); (43741, 43741); (43756, 43757); (43763, 43764);
    (43766, 43766); (43867, 43871); (43881, 43883); (44005, 44005);
    (44008, 44008); (44013, 44013); (64286, 64286); (64434, 64450);
    (65024, 65039); (65043, 65043); (65056, 65071); (65106, 65106);
    (65109, 65109); (65279, 65279); (65287, 65287); (65294, 65294);
    (65306, 65306); (65342, 65342); (65344, 65344); (65392, 65392);
    (65438, 65439); (65507, 65507); (65529, 65531); (66045, 66045);
    (66272, 66272); (66422, 66426); (67456, 67461); (67463, 67504);
    (67506, 67514); (68097, 68099); (68101, 68102); (68108, 68111);
    (68152, 68154); (68159, 68159); (68325, 68326); (68900, 68903);
    (69291, 69292); (69446, 69456); (69506, 69509); (69633, 69633);
    (69688, 69702); (69744, 69744); (69747, 69748); (69759, 69761);
    (69811, 69814); (69817, 69818); (69821, 69821); (69826, 69826);
    (69837, 69837); (69888, 69890); (69927, 69931); (69933, 69940);
    (70003, 70003); (70016, 70017); (70070, 70078); (70089, 70092);
    (70095, 70095); (70191, 70193); (70196, 70196); (70198, 70199);
    (70206, 70206); (70367, 70367); (70371, 70378); (70400, 70401);
    (70459, 70460); (70464, 70464); (70502, 70508); (70512, 70516);
    (70712, 70719); (70722, 70724); (70726, 70726); (70750, 70750);
    (70835, 70840); (70842, 70842); (70847, 70848); (70850, 70851);
    (71090, 71093); (71100, 71101); (71103, 71104); (71132, 71133);
    (71219, 71226); (71229, 71229); (71231, 71232); (71339, 71339);
    (71341, 71341); (71344, 71349); (71351, 71351); (71453, 71455);
    (71458, 71461); (71463, 71467); (71727, 71735); (71737, 71738);
    (71995, 71996); (71998, 71998); (72003, 72003); (72148, 72151);
    (72154, 72155); (72160, 72160); (72193, 72202); (72243, 72248);
    (72251, 72254); (72263, 72263); (72273, 72278); (72281, 72283);
    (72330, 72342); (72344, 72345); (72752, 72758); (72760, 72765);
    (72767, 72767); (72850, 72871); (72874, 72880); (72882, 72883);
    (72885, 72886); (73009, 73014); (73018, 73018); (73020, 73021);
    (73023, 73029); (73031, 73031); (73104, 73105); (73109, 73109);
    (73111, 73111); (73459, 73460); (78896, 78904); (92912, 92916);
    (92976, 92982); (92992, 92995); (94031, 94031); (94095, 94111);
    (94176, 94177); (94179, 94180); (110576, 110579); (110581, 110587);
    (110589, 110590); (113821, 113822); (113824, 113827); (118528, 118573);
    (118576, 118598); (119143, 119145); (119155, 119170); (119173, 119179);
    (119210, 119213); (119362, 119364); (121344, 121398); (121403, 121452);
    (121461, 121461); (121476, 121476); (121499, 121503); (121505, 121519);
    (122880, 122886); (122888, 122904); (122907, 122913); (122915, 122916);
    (122918, 122922); (123184, 123197); (123566, 123566); (123628, 123631);
    (125136, 125142); (125252, 125259); (127995, 127999); (917505, 917505);
    (917536, 917631); (917760, 917999) ].

(** The title-case mappings to one code point: a run [(lo, hi, step,
    target)] maps [lo], [lo + step], ... up to [hi] to [target],
    [target + step], ... *)
Definition title_runs : list (N * N * N * N) :=
  [ (97, 122, 1, 65); (181, 181, 1, 924); (224, 246, 1, 192); (248, 254, 1, 216);
    (255, 255, 1, 376); (257, 303, 2, 256); (305, 305, 1, 73);
    (307, 311, 2, 306); (314, 328, 2, 313); (331, 375, 2, 330);
    (378, 382, 2, 377); (383, 383, 1, 83); (384, 384, 1, 579);
    (387, 389, 2, 386); (392, 392, 1, 391); (396, 396, 1, 395);
    (402, 402, 1, 401); (405, 405, 1, 502); (409, 409, 1, 408);
    (410, 410, 1, 573); (414, 414, 1, 544); (417, 421, 2, 416);
    (424, 424, 1, 423); (429, 429, 1, 428); (432, 432, 1, 431);
    (436, 438, 2, 435); (441, 441, 1, 440); (445, 445, 1, 444);
    (447, 447, 1, 503); (452, 452, 1, 453); (454, 454, 1, 453);
    (455, 455, 1, 456); (457, 457, 1, 456); (458, 458, 1, 459);
    (460, 476, 2, 459); (477, 477, 1, 398); (479, 495, 2, 478);
    (497, 497, 1, 498); (499, 501, 2, 498); (505, 543, 2, 504);
    (547, 563, 2, 546); (572, 572, 1, 571); (575, 576, 1, 11390);
    (578, 578, 1, 577); (583, 591, 2, 582); (592, 592, 1, 11375);
    (593, 593, 1, 11373); (594, 594, 1, 11376); (595, 595, 1, 385);
    (596, 596, 1, 390); (598, 599, 1, 393); (601, 601, 1, 399);
    (603, 603, 1, 400); (604, 604, 1, 42923); (608, 608, 1, 403);
    (609, 609, 1, 42924); (611, 611, 1, 404); (613, 613, 1, 42893);
    (614, 614, 1, 42922); (616, 616, 1, 407); (617, 617, 1, 406);
    (618, 618, 1, 42926); (619, 619, 1, 11362); (620, 620, 1, 42925);
    (623, 623, 1, 412); (625, 625, 1, 11374); (626, 626, 1, 413);
    (629, 629, 1, 415); (637, 637, 1, 11364); (640, 640, 1, 422);
    (642, 642, 1, 42949); (643, 643, 1, 425); (647, 647, 1, 42929);
    (648, 648, 1, 430); (649, 649, 1, 580); (650, 651, 1, 433);
    (652, 652, 1, 581); (658, 658, 1, 439); (669, 669, 1, 42930);
    (670, 670, 1, 42928); (837, 837, 1, 921); (881, 883, 2, 880);
    (887, 887, 1, 886); (891, 893, 1, 1021); (940, 940, 1, 902);
    (941, 943, 1, 904); (945, 961, 1, 913); (962, 962, 1, 931);
    (963, 971, 1, 931); (972, 972, 1, 908); (973, 974, 1, 910);
    (976, 976, 1, 914); (977, 977, 1, 920); (981, 981, 1, 934);
    (982, 982, 1, 928); (983, 983, 1, 975); (985, 1007, 2, 984);
    (1008, 1008, 1, 922); (1009, 1009, 1, 929); (1010, 1010, 1, 1017);
    (1011, 1011, 1, 895); (1013, 1013, 1, 917); (1016, 1016, 1, 1015);
    (1019, 1019, 1, 1018); (1072, 1103, 1, 1040); (1104, 1119, 1, 1024);
    (1121, 1153, 2, 1120); (1163, 1215, 2, 1162); (1218, 1230, 2, 1217);
    (1231, 1231, 1, 1216); (1233, 1327, 2, 1232); (1377, 1414, 1, 1329);
    (5112, 5117, 1, 5104); (7296, 7296, 1, 1042); (7297, 7297, 1, 1044);
    (7298, 7298, 1, 1054); (7299, 7300, 1, 1057); (7301, 7301, 1, 1058);
    (7302, 7302, 1, 1066); (7303, 7303, 1, 1122); (7304, 7304, 1, 42570);
    (7545, 7545, 1, 42877); (7549, 7549, 1, 11363); (7566, 7566, 1, 42950);
    (7681, 7829, 2, 7680); (7835, 7835, 1, 7776); (7841, 7935, 2, 7840);
    (7936, 7943, 1, 7944); (7952, 7957, 1, 7960); (7968, 7975, 1, 7976);
    (7984, 7991, 1, 7992); (8000, 8005, 1, 8008); (8017, 8023, 2, 8025);
    (8032, 8039, 1, 8040); (8048, 8049, 1, 8122); (8050, 8053, 1, 8136);
    (8054, 8055, 1, 8154); (8056, 8057, 1, 8184); (8058, 8059, 1, 8170);
    (8060, 8061, 1, 8186); (8064, 8071, 1, 8072); (8080, 8087, 1, 8088);
    (8096, 8103, 1, 8104); (8112, 8113, 1, 8120); (8115, 8115, 1, 8124);
    (8126, 8126, 1, 921); (8131, 8131, 1, 8140); (8144, 8145, 1, 8152);
    (8160, 8161, 1, 8168); (8165, 8165, 1, 8172); (8179, 8179, 1, 8188);
    (8526, 8526, 1, 8498); (8560, 8575, 1, 8544); (8580, 8580, 1, 8579);
    (9424, 9449, 1, 9398); (11312, 11359, 1, 11264); (11361, 11361, 1, 11360);
    (11365, 11365, 1, 570); (11366, 11366, 1, 574); (11368, 11372, 2, 11367);
    (11379, 11379, 1, 11378); (11382, 11382, 1, 11381); (11393, 11491, 2, 11392);
    (11500, 11502, 2, 11499); (11507, 11507, 1, 11506); (11520, 11557, 1, 4256);
    (11559, 11559, 1, 4295); (11565, 11565, 1, 4301); (42561, 42605, 2, 42560);
    (42625, 42651, 2, 42624); (42787, 42799, 2, 42786); (42803, 42863, 2, 42802);
    (42874, 42876, 2, 42873); (42879, 42887, 2, 42878); (42892, 42892, 1, 42891);
    (42897, 42899, 2, 42896); (42900, 42900, 1, 42948); (42903, 42921, 2, 42902);
    (42933, 42947, 2, 42932); (42952, 42954, 2, 42951); (42961, 42961, 1, 42960);
    (42967, 42969, 2, 42966); (42998, 42998, 1, 42997); (43859, 43859, 1, 42931);
    (43888, 43967, 1, 5024); (65345, 65370, 1, 65313); (66600, 66639, 1, 66560);
    (66776, 66811, 1, 66736); (66967, 66977, 1, 66928); (66979, 66993, 1, 66940);
    (66995, 67001, 1, 66956); (67003, 67004, 1, 66964); (68800, 68850, 1, 68736);
    (71872, 71903, 1, 71840); (93792, 93823, 1, 93760);
    (125218, 125251, 1, 125184) ].

(** The title-case mappings to several code points. *)
Definition title_special : list (N * list N) :=
  [ (223, [83; 115]); (329, [700; 78]); (496, [74; 780]); (912, [921; 776; 769]);
    (944, [933; 776; 769]); (1415, [1333; 1410]); (7830, [72; 817]);
    (7831, [84; 776]); (7832, [87; 778]); (7833, [89; 778]); (7834, [65; 702]);
    (8016, [933; 787]); (8018, [933; 787; 768]); (8020, [933; 787; 769]);
    (8022, [933; 787; 834]); (8114, [8122; 837]); (8116, [902; 837]);
    (8118, [913; 834]); (8119, [913; 834; 837]); (8130, [8138; 837]);
    (8132, [905; 837]); (8134, [919; 834]); (8135, [919; 834; 837]);
    (8146, [921; 776; 768]); (8147, [921; 776; 769]); (8150, [921; 834]);
    (8151, [921; 776; 834]); (8162, [933; 776; 768]); (8163, [933; 776; 769]);
    (8164, [929; 787]); (8166, [933; 834]); (8167, [933; 776; 834]);
    (8178, [8186; 837]); (8180, [911; 837]); (8182, [937; 834]);
    (8183, [937; 834; 837]); (64256, [70; 102]); (64257, [70; 105]);
    (64258, [70; 108]); (64259, [70; 102; 105]); (64260, [70; 102; 108]);
    (64261, [83; 116]); (64262, [83; 116]); (64275, [1348; 1398]);
    (64276, [1348; 1381]); (64277, [1348; 1387]); (64278, [1358; 1398]);
    (64279, [1348; 1389]) ].

(** The lower-case mappings to one code point, as runs. *)
Definition lower_runs : list (N * N * N * N) :=
  [ (65, 90, 1, 97); (192, 214, 1, 224); (216, 222, 1, 248); (256, 302, 2, 257);
    (306, 310, 2, 307); (313, 327, 2, 314); (330, 374, 2, 331);
    (376, 376, 1, 255); (377, 381, 2, 378); (385, 385, 1, 595);
    (386, 388, 2, 387); (390, 390, 1, 596); (391, 391, 1, 392);
    (393, 394, 1, 598); (395, 395, 1, 396); (398, 398, 1, 477);
    (399, 399, 1, 601); (400, 400, 1, 603); (401, 401, 1, 402);
    (403, 403, 1, 608); (404, 404, 1, 611); (406, 406, 1, 617);
    (407, 407, 1, 616); (408, 408, 1, 409); (412, 412, 1, 623);
    (413, 413, 1, 626); (415, 415, 1, 629); (416, 420, 2, 417);
    (422, 422, 1, 640); (423, 423, 1, 424); (425, 425, 1, 643);
    (428, 428, 1, 429); (430, 430, 1, 648); (431, 431, 1, 432);
    (433, 434, 1, 650); (435, 437, 2, 436); (439, 439, 1, 658);
    (440, 440, 1, 441); (444, 444, 1, 445); (452, 452, 1, 454);
    (453, 453, 1, 454); (455, 455, 1, 457); (456, 456, 1, 457);
    (458, 458, 1, 460); (459, 475, 2, 460); (478, 494, 2, 479);
    (497, 497, 1, 499); (498, 500, 2, 499); (502, 502, 1, 405);
    (503, 503, 1, 447); (504, 542, 2, 505); (544, 544, 1, 414);
    (546, 562, 2, 547); (570, 570, 1, 11365); (571, 571, 1, 572);
    (573, 573, 1, 410); (574, 574, 1, 11366); (577, 577, 1, 578);
    (579, 579, 1, 384); (580, 580, 1, 649); (581, 581, 1, 652);
    (582, 590, 2, 583); (880, 882, 2, 881); (886, 886, 1, 887);
    (895, 895, 1, 1011); (902, 902, 1, 940); (904, 906, 1, 941);
    (908, 908, 1, 972); (910, 911, 1, 973); (913, 929, 1, 945);
    (931, 939, 1, 963); (975, 975, 1, 983); (984, 1006, 2, 985);
    (1012, 1012, 1, 952); (1015, 1015, 1, 1016); (1017, 1017, 1, 1010);
    (1018, 1018, 1, 1019); (1021, 1023, 1, 891); (1024, 1039, 1, 1104);
    (1040, 1071, 1, 1072); (1120, 1152, 2, 1121); (1162, 1214, 2, 1163);
    (1216, 1216, 1, 1231); (1217, 1229, 2, 1218); (1232, 1326, 2, 1233);
    (1329, 1366, 1, 1377); (4256, 4293, 1, 11520); (4295, 4295, 1, 11559);
    (4301, 4301, 1, 11565); (5024, 5103, 1, 43888); (5104, 5109, 1, 5112);
    (7312, 7354, 1, 4304); (7357, 7359, 1, 4349); (7680, 7828, 2, 7681);
    (7838, 7838, 1, 223); (7840, 7934, 2, 7841); (7944, 7951, 1, 7936);
    (7960, 7965, 1, 7952); (7976, 7983, 1, 7968); (7992, 7999, 1, 7984);
    (8008, 8013, 1, 8000); (8025, 8031, 2, 8017); (8040, 8047, 1, 8032);
    (8072, 8079, 1, 8064); (8088, 8095, 1, 8080); (8104, 8111, 1, 8096);
    (8120, 8121, 1, 8112); (8122, 8123, 1, 8048); (8124, 8124, 1, 8115);
    (8136, 8139, 1, 8050); (8140, 8140, 1, 8131); (8152, 8153, 1, 8144);
    (8154, 8155, 1, 8054); (8168, 8169, 1, 8160); (8170, 8171, 1, 8058);
    (8172, 8172, 1, 8165); (8184, 8185, 1, 8056); (8186, 8187, 1, 8060);
    (8188, 8188, 1, 8179); (8486, 8486, 1, 969); (8490, 8490, 1, 107);
    (8491, 8491, 1, 229); (8498, 8498, 1, 8526); (8544, 8559, 1, 8560);
    (8579, 8579, 1, 8580); (9398, 9423, 1, 9424); (11264, 11311, 1, 11312);
    (11360, 11360, 1, 11361); (11362, 11362, 1, 619); (11363, 11363, 1, 7549);
    (11364, 11364, 1, 637); (11367, 11371, 2, 11368); (11373, 11373, 1, 593);
    (11374, 11374, 1, 625); (11375, 11375, 1, 592); (11376, 11376, 1, 594);
    (11378, 11378, 1, 11379); (11381, 11381, 1, 11382); (11390, 11391, 1, 575);
    (11392, 11490, 2, 11393); (11499, 11501, 2, 11500); (11506, 11506, 1, 11507);
    (42560, 42604, 2, 42561); (42624, 42650, 2, 42625); (42786, 42798, 2, 42787);
    (42802, 42862, 2, 42803); (42873, 42875, 2, 42874); (42877, 42877, 1, 7545);
    (42878, 42886, 2, 42879); (42891, 42891, 1, 42892); (42893, 42893, 1, 613);
    (42896, 42898, 2, 42897); (42902, 42920, 2, 42903); (42922, 42922, 1, 614);
    (42923, 42923, 1, 604); (42924, 42924, 1, 609); (42925, 42925, 1, 620);
    (42926, 42926, 1, 618); (42928, 42928, 1, 670); (42929, 42929, 1, 647);
    (42930, 42930, 1, 669); (42931, 42931, 1, 43859); (42932, 42946, 2, 42933);
    (42948, 42948, 1, 42900); (42949, 42949, 1, 642); (42950, 42950, 1, 7566);
    (42951, 42953, 2, 42952); (42960, 42960, 1, 42961); (42966, 42968, 2, 42967);
    (42997, 42997, 1, 42998); (65313, 65338, 1, 65345); (66560, 66599, 1, 66600);
    (66736, 66771, 1, 66776); (66928, 66938, 1, 66967); (66940, 66954, 1, 66979);
    (66956, 66962, 1, 66995); (66964, 66965, 1, 67003); (68736, 68786, 1, 68800);
    (71840, 71871, 1, 71872); (93760, 93791, 1, 93792);
    (125184, 125217, 1, 125218) ].

(** The lower-case mappings to several code points. *)
Definition lower_special : list (N * list N) :=
  [ (304, [105; 775]) ].

Definition in_range (c : N) (r : N * N) : bool :=
  (fst r <=? c) && (c <=? snd r).

Definition in_ranges (c : N) (ranges : list (N * N)) : bool :=
  existsb (in_range c) ranges.

Definition is_digit_code_point (c : N) : bool := in_ranges c digit_ranges.

(** The decimal value of a code point that has one. *)
Definition decimal_digit (c : N) : option N :=
  match List.find (in_range c) decimal_ranges with
  | Some r => Some ((c - fst r) mod 10)
  | None => None
  end.

Definition is_cased (c : N) : bool := in_ranges c cased_ranges.

Definition is_case_ignorable (c : N) : bool :=
  in_ranges c case_ignorable_ranges.

Definition in_run (c : N) (run : N * N * N * N) : bool :=
  let '(lo, hi, step, _) := run in
  (lo <=? c) && (c <=? hi) && ((c - lo) mod step =? 0).

(** A mapping of one code point: the special ones first, then the runs;
    a code point without mapping is mapped to itself. *)
Definition map_code_point (special : list (N * list N))
           (runs : list (N * N * N * N)) (c : N) : list N :=
  match List.find (fun entry => fst entry =? c) special with
  | Some entry => snd entry
  | None =>
      match List.find (in_run c) runs with
      | Some (lo, _, _, target) => [target + (c - lo)]
      | None => [c]
      end
  end.

Definition to_title (c : N) : list N :=
  map_code_point title_special title_runs c.

Definition to_lower (c : N) : list N :=
  map_code_point lower_special lower_runs c.

(** The first code point that is not case-ignorable is there and is
    cased. *)
Fixpoint cased_after_ignorable (cps : list N) : bool :=
  match cps with
  | [] => false
  | c :: cps' =>
      if is_case_ignorable c then cased_after_ignorable cps' else is_cased c
  end.

(** The lower case of U+03A3, capital sigma: the final form U+03C2 when a
    cased code point comes before it and none after it, the
    case-ignorable ones skipped; [before] is in reverse order. *)
Definition lower_sigma (before after : list N) : N :=
  if cased_after_ignorable before && negb (cased_after_ignorable after)
  then 962 else 963.

Definition to_lower_in_context (before : list N) (c : N) (after : list N)
  : list N :=
  if c =? 931 then [lower_sigma before after] else to_lower c.

(** The loop of [str.title]: a code point that follows a cased one is
    put in lower case, any other in title case; [before] holds the code
    points already seen, in reverse order. *)
Fixpoint title_from (previous_is_cased : bool) (before cps : list N) : list N :=
  match cps with
  | [] => []
  | c :: cps' =>
      ((if previous_is_cased then to_lower_in_context before c cps'
        else to_title c)
       ++ title_from (is_cased c) (c :: before) cps')%list
  end.

Local Close Scope N_scope.

(** [s.title()]. *)
Definition str_title (s : string) : string :=
  match utf8_decode s with
  | Some cps => utf8_encode (title_from false [] cps)
  | None => s
  end.

(** [s.isdigit()]: every code point is a digit and there is at least
    one. *)
Definition str_isdigit (s : string) : bool :=
  match utf8_decode s with
  | Some (c :: cps) => forallb is_digit_code_point (c :: cps)
  | _ => false
  end.

(** The decimal values of the code points up to the first one that has
    none. *)
Fixpoint leading_decimals (cps : list N) : list N :=
  match cps with
  | [] => []
  | c :: cps' =>
      match decimal_digit c with
      | Some d => d :: leading_decimals cps'
      | None => []
      end
  end.

Fixpoint decimal_value (acc : Z) (digits : list N) : Z :=
  match digits with
  | [] => acc
  | d :: digits' => decimal_value (10 * acc + Z.of_N d) digits'
  end.

(** [sys.get_int_max_str_digits()], the default. *)
Definition int_max_str_digits : nat := 4300.

(** The text of the [ValueError] for a literal that is no integer: the
    message holds [repr(s)] cut after 200 code points; for a text of
    digits [repr(s)] is the text between quotes. *)
Definition invalid_literal_message (s : string) : string :=
  "invalid literal for int() with base 10: "
  ++ str_prefix 200 ("'" ++ s ++ "'").

(** The text of the [ValueError] for a literal of too many digits. *)
Definition exceeds_limit_message (digits : nat) : string :=
  "Exceeds the limit (4300 digits) for integer string conversion: value has "
  ++ NilZero.string_of_uint (Nat.to_uint digits)
  ++ " digits; use sys.set_int_max_str_digits() to increase the limit".

(** [int(s)] for a text that passed [isdigit]: such a text has no blank,
    sign or underscore.  The digits are read up to the first code point
    without decimal value; more of them than the limit is an error, and
    so is a code point left unread. *)
Definition int_of_str (s : string) : outcome Z :=
  match utf8_decode s with
  | Some cps =>
      let digits := leading_decimals cps in
      if (int_max_str_digits <? length digits)%nat
      then Raise (ValueError (exceeds_limit_message (length digits)))
      else if negb (length cps =? 0)%nat && (length digits =? length cps)%nat
      then Return (decimal_value 0 digits)
      else Raise (ValueError (invalid_literal_message s))
  | None => Raise (ValueError (invalid_literal_message s))
  end.

(** [sep.join(items)]. *)
Fixpoint str_join (sep : string) (items : list string) : string :=
  match items with
  | [] => ""
  | [x] => x
  | x :: rest => x ++ sep ++ str_join sep rest
  end.

(** [s.endswith(suffix)]. *)
Definition str_endswith (s suffix : string) : bool :=
  (String.length suffix <=? String.length s)%nat
  && (substring (String.length s - String.length suffix)
                (String.length suffix) s =? suffix).

(** A [dict] with [str] keys, in insertion order. *)
Definition dict : Type := list (string * value).

Fixpoint dict_set (d : dict) (k : string) (v : value) : dict :=
  match d with
  | [] => [(k, v)]
  | (k', v') :: d' =>
      if k' =? k then (k', v) :: d' else (k', v') :: dict_set d' k v
  end.

Fixpoint dict_get (d : dict) (k : string) : option value :=
  match d with
  | [] => None
  | (k', v') :: d' => if k' =? k then Some v' else dict_get d' k
  end.

Definition keys (d : dict) : list string := map fst d.

End Py.
Export Py.

Notation "x <- m ;; k" := (bind m (fun x => k))
(at level 61, m at next level, right associativity).

(** ** The element tree of [xml.etree.ElementTree] *)

Module ET.

(** An element: its tag, its [text] ([None] when it has none) and its
    children in document order. *)
Inductive Element : Type :=
| Elem (tag : string) (text : option string) (children : list Element).

Definition tag (e : Element) : string :=
  match e with Elem t _ _ => t end.
Definition text (e : Element) : option string :=
  match e with Elem _ t _ => t end.
Definition children (e : Element) : list Element :=
  match e with Elem _ _ c => c end.

(** [e.find(name)]: the first child with that tag, or [None]. *)
Definition find (e : Element) (name : string) : option Element :=
  List.find (fun c => tag c =? name) (children e).

(** [e.findall(name)]: the children with that tag, in document order. *)
Definition findall (e : Element) (name : string) : list Element :=
  List.filter (fun c => tag c =? name) (children e).

End ET.
Export ET.

(** ** The extractor: [parse_building_record_xml] *)

(** What [st.error] is given: the prefix of the message and the exception
    whose text follows it. *)
Inductive diagnostic : Type :=
| XmlParsingError (e : exn)                     (* "XML parsing error: ..." *)
| ErrorProcessingXml (e : exn)                  (* "Error processing XML: ..." *)
| ErrorProcessingFile (name : string) (e : exn). (* "Error processing file ...: ..." *)

(** [e.text] as a record value. *)
Definition text_value (e : Element) : value :=
  match text e with
  | Some s => VStr s
  | None => VNone
  end.

(** [parent.find(name).text if parent.find(name) is not None else ''] *)
Definition leaf (parent : Element) (name : string) : value :=
  match find parent name with
  | Some e => text_value e
  | None => VStr ""
  end.

(** [bool(e.text)]: the element has a text and it is not empty. *)
Definition has_text (e : Element) : bool :=
  match text e with
  | Some s => truthy s
  | None => false
  end.

Definition text_or_empty (e : Element) : string :=
  match text e with
  | Some s => s
  | None => ""
  end.

(** The five values read from [GlobalDetails]. *)
Record global_fields : Type := {
  sender_code : value;
  local_authority_code : value;
  submission_date : value;
  sender_email : value;
  sender_phone : value
}.

(** Lines 14 to 19.  [root.find('GlobalDetails')] may be [None]; the first
    [global_details.find(...)] then raises [AttributeError]. *)
Definition read_global_details (root : Element) : outcome global_fields :=
  match find root "GlobalDetails" with
  | None => Raise (AttributeError "'NoneType' object has no attribute 'find'")
  | Some global_details =>
      Return {| sender_code := leaf global_details "SenderCode";
                local_authority_code := leaf global_details "LocalAuthorityCode";
                submission_date := leaf global_details "SubmissionDate";
                sender_email := leaf global_details "SenderResponseEmailAddress";
                sender_phone := leaf global_details "SenderResponsePhoneNo" |}
  end.

(** Lines 28 to 32. *)
Definition set_global_details (g : global_fields) (record : dict) : dict :=
  let record := dict_set record "sender_code" (sender_code g) in
  let record := dict_set record "local_authority_code" (local_authority_code g) in
  let record := dict_set record "submission_date" (submission_date g) in
  let record := dict_set record "sender_email" (sender_email g) in
  dict_set record "sender_phone" (sender_phone g).

(** Lines 35 to 37. *)
Definition set_status_details (building_record : Element) (record : dict) : dict :=
  match find building_record "StatusDetails" with
  | Some status_details =>
      dict_set record "status_type" (leaf status_details "StatusType")
  | None => record
  end.

(** Lines 40 to 42. *)
Definition set_record_details (building_record : Element) (record : dict) : dict :=
  match find building_record "RecordDetails" with
  | Some record_details =>
      dict_set record "record_type" (leaf record_details "RecordType")
  | None => record
  end.

(** Line 54. *)
Definition county_value (work_address : Element) : value :=
  match find work_address "County" with
  | Some county_element =>
      if has_text county_element
      then VStr (str_title (text_or_empty county_element))
      else VStr ""
  | None => VStr ""
  end.

(** Lines 47 to 55. *)
Definition set_work_address (work_address_details : Element) (record : dict) : dict :=
  match find work_address_details "WorkAddress" with
  | Some work_address =>
      let record := dict_set record "number_name" (leaf work_address "NumberName") in
      let record := dict_set record "street" (leaf work_address "Street") in
      let record := dict_set record "locality" (leaf work_address "Locality") in
      let record := dict_set record "town_city" (leaf work_address "TownCity") in
      let record := dict_set record "county" (county_value work_address) in
      dict_set record "post_code" (leaf work_address "PostCode")
  | None => record
  end.

(** Line 57. *)
Definition uprn_text (work_address_details : Element) : string :=
  match find work_address_details "WorkAddressUprn" with
  | Some e => if has_text e then text_or_empty e else ""
  | None => ""
  end.

(** Line 58: [int(uprn_text) if uprn_text.isdigit() else None]. *)
Definition uprn_value (work_address_details : Element) : outcome value :=
  let uprn_text := uprn_text work_address_details in
  if str_isdigit uprn_text
  then n <- int_of_str uprn_text ;; Return (VInt n)
  else Return VNone.

(** Lines 45 to 59. *)
Definition set_work_address_details (building_record : Element) (record : dict)
  : outcome dict :=
  match find building_record "WorkAddressDetails" with
  | Some work_address_details =>
      let record := set_work_address work_address_details record in
      uprn <- uprn_value work_address_details ;;
      let record := dict_set record "work_address_uprn" uprn in
      Return (dict_set record "type_of_property"
                (leaf work_address_details "TypeOfProperty"))
  | None => Return record
  end.

(** Lines 62 to 68. *)
Definition set_work_details (building_record : Element) (record : dict) : dict :=
  match find building_record "WorkDetails" with
  | Some work_details =>
      let record := dict_set record "sender_unique_record_id"
                      (leaf work_details "SenderUniqueRecordIdentifier") in
      let record := dict_set record "cp_scheme_certificate_ref"
                      (leaf work_details "CPSchemeCertificateReference") in
      let record := dict_set record "commissioning_required"
                      (leaf work_details "CommissioningRequired") in
      let record := dict_set record "commissioning_carried_out"
                      (leaf work_details "CommissioningCarriedOut") in
      dict_set record "date_work_completed" (leaf work_details "DateWorkCompleted")
  | None => record
  end.

(** Lines 74 to 76: the loop over the items, [work_items] being the list
    built so far. *)
Fixpoint collect_items (items : list Element) (work_items : list string)
  : list string :=
  match items with
  | [] => work_items
  | item :: rest =>
      collect_items rest
        (if has_text item then work_items ++ [text_or_empty item]
         else work_items)
  end.

(** Lines 71 to 76. *)
Definition work_items (building_record : Element) : list string :=
  match find building_record "WorkDescription" with
  | Some work_description =>
      collect_items (findall work_description "DescriptionOfWorkItem") []
  | None => []
  end.

(** Line 77. *)
Definition set_work_description (building_record : Element) (record : dict) : dict :=
  dict_set record "work_description"
    (VStr (str_join " | " (work_items building_record))).

(** Lines 80 to 87. *)
Definition set_contact_information (building_record : Element) (record : dict) : dict :=
  match find building_record "ContactInformation" with
  | Some contact_info =>
      match find contact_info "ContactDetails" with
      | Some contact_details =>
          let record := dict_set record "contact_type"
                          (leaf contact_details "ContactType") in
          let record := dict_set record "installer_registered_name"
                          (leaf contact_details "InstallerRegisteredName") in
          let record := dict_set record "person_registration_id"
                          (leaf contact_details "PersonRegistrationIdentifier") in
          dict_set record "telephone_no" (leaf contact_details "TelephoneNo")
      | None => record
      end
  | None => record
  end.

(** The body of the loop, lines 25 to 89: the record of one
    [BuildingRecord] element. *)
Definition build_record (g : global_fields) (building_record : Element)
  : outcome dict :=
  let record := [] in
  let record := set_global_details g record in
  let record := set_status_details building_record record in
  let record := set_record_details building_record record in
  record <- set_work_address_details building_record record ;;
  let record := set_work_details building_record record in
  let record := set_work_description building_record record in
  Return (set_contact_information building_record record).

(** Lines 14 to 91, the [try] block after the parse. *)
Definition extract_records (root : Element) : outcome (list dict) :=
  g <- read_global_details root ;;
  mapM (build_record g) (findall root "BuildingRecord").

Section Extractor.

(** [ET.fromstring]. *)
Variable fromstring : string -> outcome Element.

(** Lines 8 to 98.  The result is what the caller gets, an exception or
    the list returned, and the diagnostics passed to [st.error]. *)
Definition parse_building_record_xml (xml_content : string)
  : outcome (list dict) * list diagnostic :=
  match (root <- fromstring xml_content ;; extract_records root) with
  | Return records => (Return records, [])
  | Raise e =>
      if is_ParseError e
      then (Return [], [XmlParsingError e])
      else (Return [], [ErrorProcessingXml e])
  end.

End Extractor.

(** ** The aggregator: [process_uploaded_files] *)

(** An uploaded file: its [name] and the bytes that [read()] returns. *)
Record UploadedFile : Type := {
  name : string;
  content : list Byte.byte
}.

(** An open archive: [namelist()], and [open(file_name).read()], which may
    raise. *)
Record ZipFile : Type := {
  namelist : list string;
  open_read : string -> outcome (list Byte.byte)
}.

(** The two accumulators of the loop: the list [all_records] and the
    diagnostics given to [st.error] so far. *)
Record state : Type := {
  all_records : list dict;
  diagnostics : list diagnostic
}.

(** Statements that change the state and may raise. *)
Definition M (A : Type) : Type := state -> outcome A * state.

Definition ret {A} (a : A) : M A := fun st => (Return a, st).

Definition bindM {A B} (m : M A) (f : A -> M B) : M B :=
  fun st =>
    match m st with
    | (Return a, st') => f a st'
    | (Raise e, st') => (Raise e, st')
    end.

Notation "x <~ m ;; k" := (bindM m (fun x => k))
  (at level 61, m at next level, right associativity).
Notation "m ;;; k" := (bindM m (fun _ => k))
  (at level 61, right associativity).

Definition lift {A} (o : outcome A) : M A := fun st => (o, st).

(** [st.error(...)] *)
Definition st_error (d : diagnostic) : M unit :=
  fun st => (Return tt, {| all_records := all_records st;
                           diagnostics := diagnostics st ++ [d] |}).

(** [all_records.extend(records)] *)
Definition extend (records : list dict) : M unit :=
  fun st => (Return tt, {| all_records := all_records st ++ records;
                           diagnostics := diagnostics st |}).

(** [try: body except Exception as e: handler(e)] *)
Definition try_except {A} (body : M A) (handler : exn -> M A) : M A :=
  fun st =>
    match body st with
    | (Return a, st') => (Return a, st')
    | (Raise e, st') => handler e st'
    end.

(** [for x in l: body(x)] *)
Fixpoint for_each {A} (body : A -> M unit) (l : list A) : M unit :=
  match l with
  | [] => ret tt
  | x :: l' => body x ;;; for_each body l'
  end.

(** [for record in records: record['source_file'] = file_name].  Each
    record is a dictionary of its own (line 25 makes a new one in every
    round of the loop), so the assignment changes that record and no
    other. *)
Definition tag_source (file_name : string) (records : list dict) : list dict :=
  map (fun record => dict_set record "source_file" (VStr file_name)) records.

Section Aggregator.

Variable fromstring : string -> outcome Element.
(** [zipfile.ZipFile(uploaded_file, 'r')] *)
Variable open_zip : list Byte.byte -> outcome ZipFile.
(** [bytes.decode('utf-8')] *)
Variable decode_utf8 : list Byte.byte -> outcome string.

(** A call of the extractor: its diagnostics join the log. *)
Definition call_parse (xml_content : string) : M (list dict) :=
  fun st =>
    let '(result, errors) := parse_building_record_xml fromstring xml_content in
    (result, {| all_records := all_records st;
                diagnostics := diagnostics st ++ errors |}).

(** Lines 111 to 117: one name of [zip_ref.namelist()]. *)
Definition process_entry (zip_ref : ZipFile) (file_name : string) : M unit :=
  if str_endswith file_name ".xml" then
    data <~ lift (open_read zip_ref file_name) ;;
    xml_content <~ lift (decode_utf8 data) ;;
    records <~ call_parse xml_content ;;
    extend (tag_source file_name records)
  else ret tt.

(** Lines 105 to 128: one uploaded file, with its [try] and [except]. *)
Definition process_file (uploaded_file : UploadedFile) : M unit :=
  try_except
    (if str_endswith (name uploaded_file) ".zip" then
       zip_ref <~ lift (open_zip (content uploaded_file)) ;;
       for_each (process_entry zip_ref) (namelist zip_ref)
     else
       xml_content <~ lift (decode_utf8 (content uploaded_file)) ;;
       records <~ call_parse xml_content ;;
       extend (tag_source (name uploaded_file) records))
    (fun e => st_error (ErrorProcessingFile (name uploaded_file) e)).

(** Lines 100 to 134.  Line 131 returns [pd.DataFrame(all_records)]: the
    result here is the list [all_records] that the frame is built from,
    one row for each record in the order of the list, and the empty list
    for the empty frame of line 134.  What the frame makes of the rows
    (one column for each key of any record, a missing cell for a record
    without the key, the types of the columns) is not in this result;
    the part of it that the page uses is [columns] and [column] below. *)
Definition process_uploaded_files (uploaded_files : list UploadedFile)
  : outcome (list dict) * list diagnostic :=
  match for_each process_file uploaded_files
          {| all_records := []; diagnostics := [] |} with
  | (Return _, st) => (Return (all_records st), diagnostics st)
  | (Raise e, st) => (Raise e, diagnostics st)
  end.

End Aggregator.

(** ** Sample documents

    The texts and the trees that [ET.fromstring] builds from them; an empty
    element has the text [None]. *)

(** A document with an empty [GlobalDetails] and an empty [BuildingRecord]. *)
Definition doc_bare_text : string :=
  "<Submission><GlobalDetails/><BuildingRecord/></Submission>".

Definition doc_bare : Element :=
  Elem "Submission" None [
    Elem "GlobalDetails" None [];
    Elem "BuildingRecord" None [] ].

(** A document without [GlobalDetails]. *)
Definition doc_no_global_details_text : string :=
  "<Submission><BuildingRecord/></Submission>".

Definition doc_no_global_details : Element :=
  Elem "Submission" None [
    Elem "BuildingRecord" None [] ].

(** A document with three building records. *)
Definition doc_full_text : string :=
  "<Submission><GlobalDetails><SenderCode>NICEIC</SenderCode><LocalAuth"
  ++ "orityCode>E08000035</LocalAuthorityCode><SubmissionDate>2024-03-01</"
  ++ "SubmissionDate><SenderResponseEmailAddress>cps@example.org</SenderRe"
  ++ "sponseEmailAddress></GlobalDetails><BuildingRecord><StatusDetails><S"
  ++ "tatusType>New</StatusType></StatusDetails><RecordDetails/><WorkAddre"
  ++ "ssDetails><WorkAddress><NumberName>12</NumberName><Street>High Stree"
  ++ "t</Street><TownCity>Leeds</TownCity><County>west yorkshire</County><"
  ++ "PostCode>LS1 1AA</PostCode></WorkAddress><WorkAddressUprn>12345</Wor"
  ++ "kAddressUprn><TypeOfProperty>Dwelling</TypeOfProperty></WorkAddressD"
  ++ "etails><WorkDetails><SenderUniqueRecordIdentifier>R-1</SenderUniqueR"
  ++ "ecordIdentifier><DateWorkCompleted>2024-02-20</DateWorkCompleted></W"
  ++ "orkDetails><WorkDescription><DescriptionOfWorkItem>Boiler install</D"
  ++ "escriptionOfWorkItem><DescriptionOfWorkItem></DescriptionOfWorkItem>"
  ++ "<DescriptionOfWorkItem>Flue check</DescriptionOfWorkItem></WorkDescr"
  ++ "iption><ContactInformation><ContactDetails><ContactType>Installer</C"
  ++ "ontactType><InstallerRegisteredName>A Smith</InstallerRegisteredName"
  ++ "></ContactDetails></ContactInformation></BuildingRecord><BuildingRec"
  ++ "ord><WorkAddressDetails><WorkAddress/><WorkAddressUprn>12a</WorkAddr"
  ++ "essUprn></WorkAddressDetails></BuildingRecord><BuildingRecord><WorkA"
  ++ "ddressDetails><WorkAddressUprn>0</WorkAddressUprn></WorkAddressDetai"
  ++ "ls><ContactInformation/></BuildingRecord></Submission>".

Definition doc_full : Element :=
  Elem "Submission" None [
    Elem "GlobalDetails" None [
      Elem "SenderCode" (Some "NICEIC") [];
      Elem "LocalAuthorityCode" (Some "E08000035") [];
      Elem "SubmissionDate" (Some "2024-03-01") [];
      Elem "SenderResponseEmailAddress" (Some "cps@example.org") [] ];
    Elem "BuildingRecord" None [
      Elem "StatusDetails" None [
        Elem "StatusType" (Some "New") [] ];
      Elem "RecordDetails" None [];
      Elem "WorkAddressDetails" None [
        Elem "WorkAddress" None [
          Elem "NumberName" (Some "12") [];
          Elem "Street" (Some "High Street") [];
          Elem "TownCity" (Some "Leeds") [];
          Elem "County" (Some "west yorkshire") [];
          Elem "PostCode" (Some "LS1 1AA") [] ];
        Elem "WorkAddressUprn" (Some "12345") [];
        Elem "TypeOfProperty" (Some "Dwelling") [] ];
      Elem "WorkDetails" None [
        Elem "SenderUniqueRecordIdentifier" (Some "R-1") [];
        Elem "DateWorkCompleted" (Some "2024-02-20") [] ];
      Elem "WorkDescription" None [
        Elem "DescriptionOfWorkItem" (Some "Boiler install") [];
        Elem "DescriptionOfWorkItem" None [];
        Elem "DescriptionOfWorkItem" (Some "Flue check") [] ];
      Elem "ContactInformation" None [
        Elem "ContactDetails" None [
          Elem "ContactType" (Some "Installer") [];
          Elem "InstallerRegisteredName" (Some "A Smith") [] ] ] ];
    Elem "BuildingRecord" None [
      Elem "WorkAddressDetails" None [
        Elem "WorkAddress" None [];
        Elem "WorkAddressUprn" (Some "12a") [] ] ];
    Elem "BuildingRecord" None [
      Elem "WorkAddressDetails" None [
        Elem "WorkAddressUprn" (Some "0") [] ];
      Elem "ContactInformation" None [] ] ].

(** The text U+00B2, SUPERSCRIPT TWO: the bytes C2 B2. *)
Definition superscript_two : string :=
  String "194"%char (String "178"%char EmptyString).

(** A document whose UPRN is the text U+00B2. *)
Definition doc_superscript_uprn_text : string :=
  "<Submission><GlobalDetails/><BuildingRecord><WorkAddressDetails>"
  ++ "<WorkAddressUprn>" ++ superscript_two ++ "</WorkAddressUprn>"
  ++ "</WorkAddressDetails></BuildingRecord></Submission>".

Definition doc_superscript_uprn : Element :=
  Elem "Submission" None [
    Elem "GlobalDetails" None [];
    Elem "BuildingRecord" None [
      Elem "WorkAddressDetails" None [
        Elem "WorkAddressUprn" (Some superscript_two) [] ] ] ].

(** The text of [n] digits 1. *)
Definition digits_of_ones (n : nat) : string :=
  string_of_list_ascii (repeat "1"%char n).

(** A document with no building record. *)
Definition doc_no_records_text : string :=
  "<Submission><GlobalDetails/></Submission>".

Definition doc_no_records : Element :=
  Elem "Submission" None [
    Elem "GlobalDetails" None [] ].

(** A text that is not well formed: the root element is never closed. *)
Definition doc_unclosed_text : string := "<Submission>".

(** The parser on the sample texts.  Texts outside this table are not
    used. *)
Definition sample_fromstring (s : string) : outcome Element :=
  if s =? doc_bare_text then Return doc_bare
  else if s =? doc_no_global_details_text then Return doc_no_global_details
  else if s =? doc_full_text then Return doc_full
  else if s =? doc_superscript_uprn_text then Return doc_superscript_uprn
  else if s =? doc_no_records_text then Return doc_no_records
  else if s =? doc_unclosed_text
       then Raise (ParseError "no element found: line 1, column 12")
  else Raise (ParseError "syntax error: line 1, column 0").

(** The decoder on the sample bytes: ASCII bytes decode to themselves, and
    the byte 0xff starts no UTF-8 sequence. *)
Definition is_ascii_byte (b : Byte.byte) : bool :=
  (Byte.to_N b <? 128)%N.

Definition sample_decode_utf8 (data : list Byte.byte) : outcome string :=
  if forallb is_ascii_byte data
  then Return (string_of_list_byte data)
  else Raise (UnicodeDecodeError
                "'utf-8' codec can't decode byte 0xff in position 0: invalid start byte").

Definition not_utf8 : list Byte.byte := [Byte.xff].

(** Two archives, each given by a token that stands for its bytes.  The
    first holds a readable entry, then an entry that is not UTF-8, then a
    readable entry; the second holds two readable entries and a text
    file. *)
Definition broken_archive_bytes : list Byte.byte :=
  list_byte_of_string "PK:broken".

Definition broken_archive : ZipFile :=
  {| namelist := ["a.xml"; "b.xml"; "c.xml"];
     open_read := fun file_name =>
       if file_name =? "a.xml" then Return (list_byte_of_string doc_bare_text)
       else if file_name =? "b.xml" then Return not_utf8
       else if file_name =? "c.xml" then Return (list_byte_of_string doc_bare_text)
       else Raise (OtherError "KeyError"
                     "There is no item named in the archive") |}.

Definition good_archive_bytes : list Byte.byte :=
  list_byte_of_string "PK:good".

Definition good_archive : ZipFile :=
  {| namelist := ["first.xml"; "notes.txt"; "second.xml"];
     open_read := fun file_name =>
       if file_name =? "first.xml" then Return (list_byte_of_string doc_bare_text)
       else if file_name =? "notes.txt" then Return not_utf8
       else if file_name =? "second.xml" then Return (list_byte_of_string doc_full_text)
       else Raise (OtherError "KeyError"
                     "There is no item named in the archive") |}.

Definition sample_open_zip (data : list Byte.byte) : outcome ZipFile :=
  if string_of_list_byte data =? "PK:broken"
     then Return broken_archive
  else if string_of_list_byte data =? "PK:good"
     then Return good_archive
  else Raise (BadZipFile "File is not a zip file").

(** ** The shape of a record

    The definitions used to state which fields a record has. *)

(** [e.find(t1).find(t2)...], [None] as soon as one step finds nothing. *)
Fixpoint descend (e : Element) (path : list string) : option Element :=
  match path with
  | [] => Some e
  | t :: path' =>
      match find e t with
      | Some c => descend c path'
      | None => None
      end
  end.

Definition present (e : Element) (path : list string) : bool :=
  match descend e path with
  | Some _ => true
  | None => false
  end.

(** The string leaves of a building record: the path of the subsection,
    the tag of the leaf element and the key of the output field.  (The
    county, the UPRN and the work description are read in ways of their
    own.) *)
Definition leaf_fields : list (list string * string * string) :=
  [ (["StatusDetails"], "StatusType", "status_type");
    (["RecordDetails"], "RecordType", "record_type");
    (["WorkAddressDetails"; "WorkAddress"], "NumberName", "number_name");
    (["WorkAddressDetails"; "WorkAddress"], "Street", "street");
    (["WorkAddressDetails"; "WorkAddress"], "Locality", "locality");
    (["WorkAddressDetails"; "WorkAddress"], "TownCity", "town_city");
    (["WorkAddressDetails"; "WorkAddress"], "PostCode", "post_code");
    (["WorkAddressDetails"], "TypeOfProperty", "type_of_property");
    (["WorkDetails"], "SenderUniqueRecordIdentifier", "sender_unique_record_id");
    (["WorkDetails"], "CPSchemeCertificateReference", "cp_scheme_certificate_ref");
    (["WorkDetails"], "CommissioningRequired", "commissioning_required");
    (["WorkDetails"], "CommissioningCarriedOut", "commissioning_carried_out");
    (["WorkDetails"], "DateWorkCompleted", "date_work_completed");
    (["ContactInformation"; "ContactDetails"], "ContactType", "contact_type");
    (["ContactInformation"; "ContactDetails"], "InstallerRegisteredName",
     "installer_registered_name");
    (["ContactInformation"; "ContactDetails"], "PersonRegistrationIdentifier",
     "person_registration_id");
    (["ContactInformation"; "ContactDetails"], "TelephoneNo", "telephone_no") ].

Definition global_keys : list string :=
  ["sender_code"; "local_authority_code"; "submission_date"; "sender_email";
   "sender_phone"].

(** The fields of the extractor's output, all of them. *)
Definition output_fields : list string :=
  global_keys
  ++ ["status_type"; "record_type"; "number_name"; "street"; "locality";
      "town_city"; "county"; "post_code"; "work_address_uprn";
      "type_of_property"; "sender_unique_record_id";
      "cp_scheme_certificate_ref"; "commissioning_required";
      "commissioning_carried_out"; "date_work_completed"; "work_description";
      "contact_type"; "installer_registered_name"; "person_registration_id";
      "telephone_no"].

Definition when (b : bool) (l : list string) : list string :=
  if b then l else [].

(** The keys of the record built from [building_record], in the order in
    which they are set. *)
Definition expected_keys (building_record : Element) : list string :=
  global_keys
  ++ when (present building_record ["StatusDetails"]) ["status_type"]
  ++ when (present building_record ["RecordDetails"]) ["record_type"]
  ++ when (present building_record ["WorkAddressDetails"; "WorkAddress"])
       ["number_name"; "street"; "locality"; "town_city"; "county"; "post_code"]
  ++ when (present building_record ["WorkAddressDetails"])
       ["work_address_uprn"; "type_of_property"]
  ++ when (present building_record ["WorkDetails"])
       ["sender_unique_record_id"; "cp_scheme_certificate_ref";
        "commissioning_required"; "commissioning_carried_out";
        "date_work_completed"]
  ++ ["work_description"]
  ++ when (present building_record ["ContactInformation"; "ContactDetails"])
       ["contact_type"; "installer_registered_name"; "person_registration_id";
        "telephone_no"].

(** A value that is an integer not below zero, or [None]. *)
Definition integer_or_null (v : value) : Prop :=
  v = VNone \/ exists n : Z, (0 <= n)%Z /\ v = VInt n.

(** The record has every output field. *)
Definition has_all_fields (record : dict) : Prop :=
  forall k, In k output_fields -> dict_get record k <> None.

(** The block of lines 45 to 59 as a function of the value of the UPRN,
    to follow the record through the blocks. *)
Definition set_work_address_details_with (uprn : value)
           (building_record : Element) (record : dict) : dict :=
  match find building_record "WorkAddressDetails" with
  | Some work_address_details =>
      let record := set_work_address work_address_details record in
      let record := dict_set record "work_address_uprn" uprn in
      dict_set record "type_of_property"
        (leaf work_address_details "TypeOfProperty")
  | None => record
  end.

(** What a record holds for one string leaf: the field is there exactly
    when the subsection is, with the text of the leaf element, and with the
    empty string when the subsection has no such element. *)
Definition leaf_field_ok (building_record : Element) (record : dict)
           (field : list string * string * string) : Prop :=
  let '(path, leaf_tag, key) := field in
  match descend building_record path with
  | Some subsection =>
      dict_get record key = Some (leaf subsection leaf_tag)
      /\ (find subsection leaf_tag = None -> dict_get record key = Some (VStr ""))
  | None => dict_get record key = None
  end.

(** The fields of the record built from [building_record] with the global
    values [g]. *)
Record record_shape (g : global_fields) (building_record : Element)
       (record : dict) : Prop := {
  shape_keys : keys record = expected_keys building_record;
  shape_globals :
    dict_get record "sender_code" = Some (sender_code g)
    /\ dict_get record "local_authority_code" = Some (local_authority_code g)
    /\ dict_get record "submission_date" = Some (submission_date g)
    /\ dict_get record "sender_email" = Some (sender_email g)
    /\ dict_get record "sender_phone" = Some (sender_phone g);
  shape_leaves : Forall (leaf_field_ok building_record record) leaf_fields;
  shape_county :
    match descend building_record ["WorkAddressDetails"; "WorkAddress"] with
    | Some work_address =>
        dict_get record "county" = Some (county_value work_address)
    | None => dict_get record "county" = None
    end;
  shape_uprn :
    match find building_record "WorkAddressDetails" with
    | Some work_address_details =>
        exists v, uprn_value work_address_details = Return v
                  /\ dict_get record "work_address_uprn" = Some v
    | None => dict_get record "work_address_uprn" = None
    end;
  shape_work_description :
    dict_get record "work_description"
    = Some (VStr (str_join " | " (work_items building_record)))
}.

(** ** The work description and the title case, as the specification words
    them *)

(** The texts of the description items of a building record, in document
    order; [None] for an item without text, and no item at all when there
    is no [WorkDescription]. *)
Definition item_texts (building_record : Element) : list (option string) :=
  match find building_record "WorkDescription" with
  | Some work_description =>
      map text (findall work_description "DescriptionOfWorkItem")
  | None => []
  end.

(** The texts that are kept: those that are present and not empty. *)
Fixpoint kept_texts (texts : list (option string)) : list string :=
  match texts with
  | [] => []
  | Some s :: rest => if s =? "" then kept_texts rest else s :: kept_texts rest
  | None :: rest => kept_texts rest
  end.

(** A word is a run of cased code points: the code point at position
    [i] starts a word when it is the first of the text or follows one
    that is not cased. *)
Definition starts_word (cps : list N) (i : nat) : bool :=
  match i with
  | O => true
  | S j =>
      match nth_error cps j with
      | Some c => negb (is_cased c)
      | None => true
      end
  end.

(** What the title case puts in the place of the code point at position
    [i]: its title case when it starts a word, its lower case when it
    does not. *)
Definition title_case_at (cps : list N) (i : nat) : list N :=
  match nth_error cps i with
  | Some c =>
      if starts_word cps i then to_title c
      else to_lower_in_context (rev (firstn i cps)) c (skipn (S i) cps)
  | None => []
  end.

(** The title case of a text, position by position. *)
Definition title_case (cps : list N) : list N :=
  flat_map (title_case_at cps) (seq 0 (length cps)).

(** The letters of ASCII and their two cases. *)
Definition is_ascii (c : ascii) : bool := (N_of_ascii c <? 128)%N.

Definition is_ascii_upper (c : ascii) : bool :=
  let n := N_of_ascii c in ((65 <=? n) && (n <=? 90))%N.

Definition is_ascii_lower (c : ascii) : bool :=
  let n := N_of_ascii c in ((97 <=? n) && (n <=? 122))%N.

Definition ascii_upper (c : ascii) : ascii :=
  if is_ascii_lower c then ascii_of_N (N_of_ascii c - 32) else c.

Definition ascii_lower (c : ascii) : ascii :=
  if is_ascii_upper c then ascii_of_N (N_of_ascii c + 32) else c.

(** The case mappings and the cased code points of the tables are, on
    the code point [n] of ASCII, those of the ASCII letters. *)
Definition ascii_case_ok (n : N) : bool :=
  let c := ascii_of_N n in
  match to_title n, to_lower n with
  | [t], [l] =>
      (t =? N_of_ascii (ascii_upper c))%N && (l =? N_of_ascii (ascii_lower c))%N
      && Bool.eqb (is_cased n) (is_ascii_upper c || is_ascii_lower c)
  | _, _ => false
  end.

(** In a text of ASCII, the character at position [i] starts a word when
    it is the first of the text or follows a character that is no
    letter. *)
Definition ascii_starts_word (s : string) (i : nat) : bool :=
  match i with
  | O => true
  | S j =>
      match String.get j s with
      | Some c => negb (is_ascii_upper c || is_ascii_lower c)
      | None => true
      end
  end.

(** The county of a work address, as the specification words it. *)
Definition county_spec (work_address : Element) : string :=
  match find work_address "County" with
  | Some county_element =>
      match text county_element with
      | Some t => str_title t
      | None => ""
      end
  | None => ""
  end.

(** The list that a pair of result and diagnostics returns to the caller
    (empty when the result is an exception). *)
Definition returned (result : outcome (list dict) * list diagnostic) : list dict :=
  match fst result with
  | Return records => records
  | Raise _ => []
  end.

(** ** What each source contributes

    The definitions used to state what the aggregator returns. *)

Definition add_to (st : state) (contribution : list dict * list diagnostic)
  : state :=
  {| all_records := all_records st ++ fst contribution;
     diagnostics := diagnostics st ++ snd contribution |}.

Section Contributions.

Variable fromstring : string -> outcome Element.
Variable open_zip : list Byte.byte -> outcome ZipFile.
Variable decode_utf8 : list Byte.byte -> outcome string.

(** The records of one document, tagged with the name of its file, and
    the diagnostics of its extraction. *)
Definition document_contribution (file_name xml_content : string)
  : list dict * list diagnostic :=
  (tag_source file_name
     (returned (parse_building_record_xml fromstring xml_content)),
   snd (parse_building_record_xml fromstring xml_content)).

(** The text of an archive entry. *)
Definition read_entry (zip_ref : ZipFile) (file_name : string) : outcome string :=
  data <- open_read zip_ref file_name ;; decode_utf8 data.

Definition entry_text (zip_ref : ZipFile) (file_name : string) : string :=
  match read_entry zip_ref file_name with
  | Return xml_content => xml_content
  | Raise _ => ""
  end.

Definition is_xml (file_name : string) : bool := str_endswith file_name ".xml".

(** The entries with the suffix .xml that come before the first of them
    that cannot be read or decoded, each with its text, and the exception
    of that first one, if there is one. *)
Fixpoint processed_entries (zip_ref : ZipFile) (xml_names : list string)
  : list (string * string) * option exn :=
  match xml_names with
  | [] => ([], None)
  | file_name :: rest =>
      match read_entry zip_ref file_name with
      | Return xml_content =>
          let '(entries, failure) := processed_entries zip_ref rest in
          ((file_name, xml_content) :: entries, failure)
      | Raise e => ([], Some e)
      end
  end.

Definition entries_contribution (entries : list (string * string))
  : list dict * list diagnostic :=
  (flat_map (fun entry => fst (document_contribution (fst entry) (snd entry)))
            entries,
   flat_map (fun entry => snd (document_contribution (fst entry) (snd entry)))
            entries).

(** The records and the diagnostics of one uploaded file. *)
Definition source_contribution (uploaded_file : UploadedFile)
  : list dict * list diagnostic :=
  if str_endswith (name uploaded_file) ".zip" then
    match open_zip (content uploaded_file) with
    | Return zip_ref =>
        let '(entries, failure) :=
          processed_entries zip_ref (filter is_xml (namelist zip_ref)) in
        (fst (entries_contribution entries),
         snd (entries_contribution entries)
         ++ match failure with
            | Some e => [ErrorProcessingFile (name uploaded_file) e]
            | None => []
            end)
    | Raise e => ([], [ErrorProcessingFile (name uploaded_file) e])
    end
  else
    match decode_utf8 (content uploaded_file) with
    | Return xml_content =>
        document_contribution (name uploaded_file) xml_content
    | Raise e => ([], [ErrorProcessingFile (name uploaded_file) e])
    end.

End Contributions.

(** ** Sample results *)

(** The records of the sample document with three building records, and
    the first of them. *)
Definition doc_full_records : list dict :=
  returned (parse_building_record_xml sample_fromstring doc_full_text).

Definition doc_full_first_record : dict := hd [] doc_full_records.

Definition doc_full_first_element : Element :=
  hd doc_bare (findall doc_full "BuildingRecord").

(** The record of the sample document with an empty building record. *)
Definition doc_bare_record : dict :=
  hd [] (returned (parse_building_record_xml sample_fromstring doc_bare_text)).

(** ** Sample batches *)

Definition broken_zip : UploadedFile :=
  {| name := "batch.zip"; content := broken_archive_bytes |}.

Definition good_zip : UploadedFile :=
  {| name := "good.zip"; content := good_archive_bytes |}.

Definition not_a_zip : UploadedFile :=
  {| name := "empty.zip"; content := not_utf8 |}.

Definition full_xml : UploadedFile :=
  {| name := "full.xml"; content := list_byte_of_string doc_full_text |}.

Definition bare_xml : UploadedFile :=
  {| name := "bare.xml"; content := list_byte_of_string doc_bare_text |}.

Definition unclosed_xml : UploadedFile :=
  {| name := "unclosed.xml"; content := list_byte_of_string doc_unclosed_text |}.

Definition undecodable_xml : UploadedFile :=
  {| name := "latin.xml"; content := not_utf8 |}.

(** The aggregator with the sample library. *)
Definition sample_aggregate (uploaded_files : list UploadedFile)
  : outcome (list dict) * list diagnostic :=
  process_uploaded_files sample_fromstring sample_open_zip sample_decode_utf8
    uploaded_files.

Definition sample_contribution (uploaded_file : UploadedFile)
  : list dict * list diagnostic :=
  source_contribution sample_fromstring sample_open_zip sample_decode_utf8
    uploaded_file.

(** ** Further definitions *)

(** A code point with a decimal value. *)
Definition is_decimal_code_point (c : N) : bool :=
  match decimal_digit c with Some _ => true | None => false end.

(** The number of code points of a text before the first one that has no
    decimal value. *)
Definition leading_decimal_count (t : string) : nat :=
  match utf8_decode t with
  | Some cps => length (leading_decimals cps)
  | None => 0
  end.

(** A text that [int] reads: one or more code points, all with a decimal
    value, and no more of them than the limit. *)
Definition is_integer_literal (t : string) : bool :=
  match utf8_decode t with
  | Some (c :: cps) =>
      forallb is_decimal_code_point (c :: cps)
      && (length (c :: cps) <=? 4300)%nat
  | _ => false
  end.

(** The UPRN of a building record does not make [int] raise: the text is
    rejected by [isdigit], or it is one that [int] reads. *)
Definition uprn_accepted (building_record : Element) : bool :=
  match find building_record "WorkAddressDetails" with
  | Some work_address_details =>
      negb (str_isdigit (uprn_text work_address_details))
      || is_integer_literal (uprn_text work_address_details)
  | None => true
  end.

(** The text of the [ValueError] of [int] for a text that it does not
    read. *)
Definition uprn_error_message (t : string) : string :=
  if (4300 <? leading_decimal_count t)%nat
  then exceeds_limit_message (leading_decimal_count t)
  else invalid_literal_message t.

(** A text of the ASCII digits. *)
Definition is_ascii_digits (t : string) : bool :=
  truthy t && all_chars is_decimal_char t.

(** The tags that the loop body looks up in a building record. *)
Definition subsection_tags : list string :=
  ["StatusDetails"; "RecordDetails"; "WorkAddressDetails"; "WorkDetails";
   "WorkDescription"; "ContactInformation"].

(** [l] is [master] with some elements left out, the order kept. *)
Fixpoint is_subsequence (master l : list string) : bool :=
  match master with
  | [] => match l with [] => true | _ :: _ => false end
  | y :: master' =>
      match l with
      | [] => true
      | x :: l' =>
          if x =? y then is_subsequence master' l'
          else is_subsequence master' l
      end
  end.

Fixpoint no_duplicate (l : list string) : bool :=
  match l with
  | [] => true
  | x :: l' => negb (existsb (String.eqb x) l') && no_duplicate l'
  end.

(** A value that is a string. *)
Definition is_str (v : value) : bool :=
  match v with VStr _ => true | _ => false end.

(** A value that is a string or [None]. *)
Definition is_str_or_none (v : value) : bool :=
  match v with VStr _ | VNone => true | VInt _ => false end.

(** The sum of the lengths of the strings of a list, in bytes. *)
Fixpoint total_length (items : list string) : nat :=
  match items with
  | [] => 0
  | x :: rest => String.length x + total_length rest
  end.

(** The sum of the numbers of code points of the strings of a list. *)
Fixpoint total_len (items : list string) : nat :=
  match items with
  | [] => 0
  | x :: rest => str_len x + total_len rest
  end.

(** ** The page: [main], lines 136 to 172

    The data frame is modelled by its rows, as before.  Of [pandas] the
    page uses, up to line 172: the columns of a frame built from a list of
    dictionaries, which are the keys of the dictionaries in the order in
    which they first appear; [df.empty]; [len(df)]; [df[c]], which raises
    [KeyError] when the frame has no column [c]; and [nunique()], the
    number of distinct values of a column, [None] and the cells of the
    rows that lack the key left out. *)

Fixpoint add_keys (cols : list string) (ks : list string) : list string :=
  match ks with
  | [] => cols
  | k :: ks' =>
      add_keys (if existsb (String.eqb k) cols then cols else cols ++ [k]) ks'
  end.

Fixpoint columns_from (cols : list string) (rows : list dict) : list string :=
  match rows with
  | [] => cols
  | r :: rows' => columns_from (add_keys cols (keys r)) rows'
  end.

(** [df.columns] *)
Definition columns (rows : list dict) : list string := columns_from [] rows.

(** [df.empty]: no row or no column. *)
Definition frame_empty (rows : list dict) : bool :=
  match rows with
  | [] => true
  | _ :: _ => match columns rows with [] => true | _ :: _ => false end
  end.

(** [df[c]]: the cells of the column, [None] for a row without the key. *)
Definition column (rows : list dict) (c : string) : outcome (list (option value)) :=
  if existsb (String.eqb c) (columns rows)
  then Return (map (fun r => dict_get r c) rows)
  else Raise (OtherError "KeyError" ("'" ++ c ++ "'")).

Definition value_eq_dec (v1 v2 : value) : {v1 = v2} + {v1 <> v2}.
Proof.
  decide equality; [apply string_dec | apply Z.eq_dec].
Defined.

Definition not_missing (cell : option value) : list value :=
  match cell with
  | Some VNone | None => []
  | Some v => [v]
  end.

(** [series.nunique()] *)
Definition nunique (cells : list (option value)) : nat :=
  length (nodup value_eq_dec (flat_map not_missing cells)).

(** How far the page gets, with the numbers it shows. *)
Inductive page : Type :=
| UploadPrompt                      (* line 237, [st.info] *)
| NoValidRecords                    (* line 234, [st.error] *)
| Summary (processed_records processed_files : nat)   (* line 159 *)
          (total_records unique_senders unique_installers : nat).
                                    (* lines 163 to 172; line 174 is next *)

Section Page.

Variable fromstring : string -> outcome Element.
Variable open_zip : list Byte.byte -> outcome ZipFile.
Variable decode_utf8 : list Byte.byte -> outcome string.

(** Lines 136 to 172, [uploaded_files] being what [st.file_uploader]
    returns.  There is no [try] in [main]: an exception of a lookup in
    the frame leaves it. *)
Definition main (uploaded_files : list UploadedFile)
  : outcome page * list diagnostic :=
  match uploaded_files with
  | [] => (Return UploadPrompt, [])
  | _ :: _ =>
      let '(result, log) :=
        process_uploaded_files fromstring open_zip decode_utf8 uploaded_files in
      (df <- result ;;
       if frame_empty df then Return NoValidRecords
       else
         senders <- column df "sender_code" ;;
         installers <- column df "installer_registered_name" ;;
         Return (Summary (length df) (length uploaded_files)
                         (length df) (nunique senders) (nunique installers)),
       log)
  end.

End Page.

(** The page with the sample library. *)
Definition sample_main (uploaded_files : list UploadedFile)
  : outcome page * list diagnostic :=
  main sample_fromstring sample_open_zip sample_decode_utf8 uploaded_files.

(** ** Loops and exceptions *)

Lemma bind_Return {A B} (m : outcome A) (f : A -> outcome B) (b : B) :
  bind m f = Return b -> exists a, m = Return a /\ f a = Return b.
Proof.
  destruct m as [a | e]; simpl; intros H; [eauto | discriminate].
Qed.

Lemma mapM_Forall2 {A B} (f : A -> outcome B) (l : list A) (l' : list B) :
  mapM f l = Return l' -> Forall2 (fun x y => f x = Return y) l l'.
Proof.
  revert l'; induction l as [| x l IH]; simpl; intros l' H.
  - injection H as <-. constructor.
  - apply bind_Return in H as (y & Hy & H).
    apply bind_Return in H as (ys & Hys & H).
    injection H as <-. constructor; auto.
Qed.

Lemma mapM_In {A B} (f : A -> outcome B) (l : list A) (l' : list B) (y : B) :
  mapM f l = Return l' -> In y l' -> exists x, In x l /\ f x = Return y.
Proof.
  intros H Hy. apply mapM_Forall2 in H.
  induction H as [| x y' l l' Hxy _ IH]; simpl in *; [contradiction |].
  destruct Hy as [-> | Hy]; [eauto |].
  destruct (IH Hy) as (x' & Hin & Hx'). eauto.
Qed.

Lemma mapM_length {A B} (f : A -> outcome B) (l : list A) (l' : list B) :
  mapM f l = Return l' -> length l' = length l.
Proof.
  intros H. apply mapM_Forall2 in H.
  induction H; simpl; congruence.
Qed.

Lemma mapM_Raise {A B} (f : A -> outcome B) (l : list A) (x : A) (e : exn) :
  In x l -> f x = Raise e -> exists e', mapM f l = Raise e'.
Proof.
  induction l as [| y l IH]; simpl; intros Hin Hx; [contradiction |].
  destruct (f y) as [b | e0] eqn:Hy; simpl; [| eauto].
  destruct Hin as [-> | Hin]; [congruence |].
  destruct (IH Hin Hx) as [e' ->]. simpl. eauto.
Qed.

(** ** The two ways out of the extractor *)

Section ExtractorFacts.

Variable fromstring : string -> outcome Element.

(** The [try] block ran to its end: its list is returned and nothing is
    reported. *)
Lemma parse_success (xml_content : string) (root : Element) (records : list dict) :
  fromstring xml_content = Return root ->
  extract_records root = Return records ->
  parse_building_record_xml fromstring xml_content = (Return records, []).
Proof.
  intros Hroot Hrec. unfold parse_building_record_xml.
  rewrite Hroot. simpl. rewrite Hrec. reflexivity.
Qed.

(** The [try] block raised: a handler reports it and returns the empty
    list. *)
Lemma parse_failure (xml_content : string) (e : exn) :
  (root <- fromstring xml_content ;; extract_records root) = Raise e ->
  parse_building_record_xml fromstring xml_content
  = (Return [], [if is_ParseError e then XmlParsingError e
                 else ErrorProcessingXml e]).
Proof.
  intros H. unfold parse_building_record_xml. rewrite H.
  destruct (is_ParseError e); reflexivity.
Qed.

Lemma parse_returns (xml_content : string) :
  exists records log,
    parse_building_record_xml fromstring xml_content = (Return records, log).
Proof.
  unfold parse_building_record_xml.
  destruct (root <- fromstring xml_content ;; extract_records root) as [records | e].
  - eauto.
  - destruct (is_ParseError e); eauto.
Qed.

(** Every record that is returned was built from a [BuildingRecord]
    element of the parsed document, with the values of its
    [GlobalDetails]. *)
Lemma parse_record_origin (xml_content : string) (records : list dict)
      (log : list diagnostic) (r : dict) :
  parse_building_record_xml fromstring xml_content = (Return records, log) ->
  In r records ->
  exists root g building_record,
    fromstring xml_content = Return root
    /\ read_global_details root = Return g
    /\ In building_record (findall root "BuildingRecord")
    /\ build_record g building_record = Return r.
Proof.
  unfold parse_building_record_xml. intros H Hr.
  destruct (fromstring xml_content) as [root | e] eqn:Hroot; simpl in H.
  - unfold extract_records in H.
    destruct (read_global_details root) as [g | e] eqn:Hg; simpl in H.
    + destruct (mapM (build_record g) (findall root "BuildingRecord"))
        as [rs | e] eqn:Hrs.
      * injection H as <- <-.
        destruct (mapM_In _ _ _ _ Hrs Hr) as (br & Hbr & Hb).
        exists root, g, br. auto.
      * destruct (is_ParseError e); injection H as <- <-; contradiction.
    + destruct (is_ParseError e); injection H as <- <-; contradiction.
  - destruct (is_ParseError e); injection H as <- <-; contradiction.
Qed.

End ExtractorFacts.

(** ** The record of one building record *)

Lemma leaf_absent (parent : Element) (name : string) :
  find parent name = None -> leaf parent name = VStr "".
Proof.
  unfold leaf. intros ->. reflexivity.
Qed.

(** *** Reading a dictionary after an assignment *)

Lemma dict_get_set (d : dict) (k : string) (v : value) (k' : string) :
  dict_get (dict_set d k v) k' = if k =? k' then Some v else dict_get d k'.
Proof.
  induction d as [| [k0 v0] d IH]; simpl.
  - reflexivity.
  - destruct (k0 =? k) eqn:E0; simpl.
    + apply String.eqb_eq in E0. subst k0.
      destruct (k =? k'); reflexivity.
    + destruct (k0 =? k') eqn:E1.
      * apply String.eqb_eq in E1. subst k0.
        rewrite String.eqb_sym, E0. reflexivity.
      * apply IH.
Qed.

Lemma dict_get_set_same (d : dict) (k : string) (v : value) :
  dict_get (dict_set d k v) k = Some v.
Proof.
  rewrite dict_get_set, String.eqb_refl. reflexivity.
Qed.

Lemma dict_get_set_other (d : dict) (k : string) (v : value) (k' : string) :
  (k =? k') = false -> dict_get (dict_set d k v) k' = dict_get d k'.
Proof.
  intros H. rewrite dict_get_set, H. reflexivity.
Qed.

(** An assignment to a key that the dictionary lacks adds the key at the
    end. *)
Lemma keys_set_fresh (d : dict) (k : string) (v : value) :
  dict_get d k = None -> keys (dict_set d k v) = keys d ++ [k].
Proof.
  unfold keys. induction d as [| [k0 v0] d IH]; simpl; intros H.
  - reflexivity.
  - destruct (k0 =? k); [discriminate |].
    simpl. rewrite IH by assumption. reflexivity.
Qed.


(** *** The blocks of the loop body, one by one

    For each block: the keys outside the block are left as they are
    ([frame_...]), the keys of the block hold what the block reads
    ([get_...]), and the block adds its keys at the end ([keys_...]). *)

Ltac other_keys :=
  rewrite ?dict_get_set_other by assumption; reflexivity.

Lemma frame_global_details g d k :
  ("sender_code" =? k) = false -> ("local_authority_code" =? k) = false ->
  ("submission_date" =? k) = false -> ("sender_email" =? k) = false ->
  ("sender_phone" =? k) = false ->
  dict_get (set_global_details g d) k = dict_get d k.
Proof. intros. unfold set_global_details. other_keys. Qed.

Lemma frame_status_details br d k :
  ("status_type" =? k) = false ->
  dict_get (set_status_details br d) k = dict_get d k.
Proof.
  intros. unfold set_status_details.
  destruct (find br "StatusDetails"); other_keys.
Qed.

Lemma frame_record_details br d k :
  ("record_type" =? k) = false ->
  dict_get (set_record_details br d) k = dict_get d k.
Proof.
  intros. unfold set_record_details.
  destruct (find br "RecordDetails"); other_keys.
Qed.

Lemma frame_work_address wad d k :
  ("number_name" =? k) = false -> ("street" =? k) = false ->
  ("locality" =? k) = false -> ("town_city" =? k) = false ->
  ("county" =? k) = false -> ("post_code" =? k) = false ->
  dict_get (set_work_address wad d) k = dict_get d k.
Proof.
  intros. unfold set_work_address.
  destruct (find wad "WorkAddress"); other_keys.
Qed.

Lemma frame_work_address_details u br d k :
  ("number_name" =? k) = false -> ("street" =? k) = false ->
  ("locality" =? k) = false -> ("town_city" =? k) = false ->
  ("county" =? k) = false -> ("post_code" =? k) = false ->
  ("work_address_uprn" =? k) = false -> ("type_of_property" =? k) = false ->
  dict_get (set_work_address_details_with u br d) k = dict_get d k.
Proof.
  intros. unfold set_work_address_details_with.
  destruct (find br "WorkAddressDetails"); [| reflexivity].
  rewrite !dict_get_set_other by assumption.
  apply frame_work_address; assumption.
Qed.

Lemma frame_work_details br d k :
  ("sender_unique_record_id" =? k) = false ->
  ("cp_scheme_certificate_ref" =? k) = false ->
  ("commissioning_required" =? k) = false ->
  ("commissioning_carried_out" =? k) = false ->
  ("date_work_completed" =? k) = false ->
  dict_get (set_work_details br d) k = dict_get d k.
Proof.
  intros. unfold set_work_details.
  destruct (find br "WorkDetails"); other_keys.
Qed.

Lemma frame_work_description br d k :
  ("work_description" =? k) = false ->
  dict_get (set_work_description br d) k = dict_get d k.
Proof. intros. unfold set_work_description. other_keys. Qed.

Lemma frame_contact_information br d k :
  ("contact_type" =? k) = false -> ("installer_registered_name" =? k) = false ->
  ("person_registration_id" =? k) = false -> ("telephone_no" =? k) = false ->
  dict_get (set_contact_information br d) k = dict_get d k.
Proof.
  intros. unfold set_contact_information.
  destruct (find br "ContactInformation") as [ci |]; [| reflexivity].
  destruct (find ci "ContactDetails"); other_keys.
Qed.

(** Move a lookup of a key past the blocks that do not set it. *)
Ltac frame :=
  repeat first
    [ rewrite frame_contact_information by reflexivity
    | rewrite frame_work_description by reflexivity
    | rewrite frame_work_details by reflexivity
    | rewrite frame_work_address_details by reflexivity
    | rewrite frame_work_address by reflexivity
    | rewrite frame_record_details by reflexivity
    | rewrite frame_status_details by reflexivity
    | rewrite frame_global_details by reflexivity ].

(** The pure part of the loop body: the record, given the value of the
    UPRN. *)
Lemma build_record_inv (g : global_fields) (br : Element) (r : dict) :
  build_record g br = Return r ->
  exists u,
    r = set_contact_information br
          (set_work_description br
             (set_work_details br
                (set_work_address_details_with u br
                   (set_record_details br
                      (set_status_details br (set_global_details g []))))))
    /\ match find br "WorkAddressDetails" with
       | Some wad => uprn_value wad = Return u
       | None => True
       end.
Proof.
  unfold build_record, set_work_address_details, set_work_address_details_with.
  intros H.
  destruct (find br "WorkAddressDetails") as [wad |].
  - destruct (uprn_value wad) as [u | e]; [| discriminate H].
    injection H as <-. exists u. split; reflexivity.
  - injection H as <-. exists VNone. split; [reflexivity | exact I].
Qed.

Ltac fresh_keys :=
  repeat (rewrite keys_set_fresh;
          [| rewrite ?dict_get_set_other by reflexivity; assumption ]);
  simpl; rewrite <- ?app_assoc, ?app_nil_r; reflexivity.

Lemma keys_global_details g :
  keys (set_global_details g []) = global_keys.
Proof. reflexivity. Qed.

Lemma keys_status_details br d :
  dict_get d "status_type" = None ->
  keys (set_status_details br d)
  = keys d ++ when (present br ["StatusDetails"]) ["status_type"].
Proof.
  intros. unfold set_status_details, present, descend.
  destruct (find br "StatusDetails"); fresh_keys.
Qed.

Lemma keys_record_details br d :
  dict_get d "record_type" = None ->
  keys (set_record_details br d)
  = keys d ++ when (present br ["RecordDetails"]) ["record_type"].
Proof.
  intros. unfold set_record_details, present, descend.
  destruct (find br "RecordDetails"); fresh_keys.
Qed.

Lemma keys_work_address_details u br d :
  dict_get d "number_name" = None -> dict_get d "street" = None ->
  dict_get d "locality" = None -> dict_get d "town_city" = None ->
  dict_get d "county" = None -> dict_get d "post_code" = None ->
  dict_get d "work_address_uprn" = None ->
  dict_get d "type_of_property" = None ->
  keys (set_work_address_details_with u br d)
  = keys d
    ++ when (present br ["WorkAddressDetails"; "WorkAddress"])
         ["number_name"; "street"; "locality"; "town_city"; "county";
          "post_code"]
    ++ when (present br ["WorkAddressDetails"])
         ["work_address_uprn"; "type_of_property"].
Proof.
  intros. unfold set_work_address_details_with, set_work_address, present, descend.
  destruct (find br "WorkAddressDetails") as [wad |]; [| fresh_keys].
  destruct (find wad "WorkAddress"); fresh_keys.
Qed.

Lemma keys_work_details br d :
  dict_get d "sender_unique_record_id" = None ->
  dict_get d "cp_scheme_certificate_ref" = None ->
  dict_get d "commissioning_required" = None ->
  dict_get d "commissioning_carried_out" = None ->
  dict_get d "date_work_completed" = None ->
  keys (set_work_details br d)
  = keys d
    ++ when (present br ["WorkDetails"])
         ["sender_unique_record_id"; "cp_scheme_certificate_ref";
          "commissioning_required"; "commissioning_carried_out";
          "date_work_completed"].
Proof.
  intros. unfold set_work_details, present, descend.
  destruct (find br "WorkDetails"); fresh_keys.
Qed.

Lemma keys_work_description br d :
  dict_get d "work_description" = None ->
  keys (set_work_description br d) = keys d ++ ["work_description"].
Proof. intros. unfold set_work_description. fresh_keys. Qed.

Lemma keys_contact_information br d :
  dict_get d "contact_type" = None ->
  dict_get d "installer_registered_name" = None ->
  dict_get d "person_registration_id" = None ->
  dict_get d "telephone_no" = None ->
  keys (set_contact_information br d)
  = keys d
    ++ when (present br ["ContactInformation"; "ContactDetails"])
         ["contact_type"; "installer_registered_name";
          "person_registration_id"; "telephone_no"].
Proof.
  intros. unfold set_contact_information, present, descend.
  destruct (find br "ContactInformation") as [ci |]; [| fresh_keys].
  destruct (find ci "ContactDetails"); fresh_keys.
Qed.

(** Unfold the block that sets the key looked up. *)
Ltac own_block :=
  lazymatch goal with
  | |- context [dict_get (set_contact_information _ _) _] =>
      unfold set_contact_information
  | |- context [dict_get (set_work_description _ _) _] =>
      unfold set_work_description
  | |- context [dict_get (set_work_details _ _) _] =>
      unfold set_work_details
  | |- context [dict_get (set_work_address_details_with _ _ _) _] =>
      unfold set_work_address_details_with
  | |- context [dict_get (set_work_address _ _) _] =>
      unfold set_work_address
  | |- context [dict_get (set_record_details _ _) _] =>
      unfold set_record_details
  | |- context [dict_get (set_status_details _ _) _] =>
      unfold set_status_details
  | |- context [dict_get (set_global_details _ _) _] =>
      unfold set_global_details
  end.

Ltac assigned :=
  rewrite ?dict_get_set_other by reflexivity; rewrite ?dict_get_set_same.

(** Settle one string leaf: find the block, then follow the path. *)
Ltac split_find :=
  repeat match goal with
    | H : find ?e ?t = _ |- context [match find ?e ?t with _ => _ end] =>
        rewrite H
    | |- context [match find ?e ?t with _ => _ end] =>
        destruct (find e t) eqn:?
    end.

Ltac leaf_field :=
  unfold leaf_field_ok, descend;
  repeat (frame; rewrite ?dict_get_set_other by reflexivity; own_block;
          split_find);
  assigned; frame;
  first [ reflexivity
        | split; [reflexivity
                 | let Hf := fresh in
                   intros Hf; rewrite (leaf_absent _ _ Hf); reflexivity ] ].

(** The record that [build_record] returns has the shape that the
    subsections of the element dictate. *)
Lemma build_record_shape (g : global_fields) (building_record : Element)
      (r : dict) :
  build_record g building_record = Return r ->
  record_shape g building_record r.
Proof.
  intros H. apply build_record_inv in H as (u & -> & Hu).
  split.
  - rewrite keys_contact_information by (frame; reflexivity).
    rewrite keys_work_description by (frame; reflexivity).
    rewrite keys_work_details by (frame; reflexivity).
    rewrite keys_work_address_details by (frame; reflexivity).
    rewrite keys_record_details by (frame; reflexivity).
    rewrite keys_status_details by (frame; reflexivity).
    rewrite keys_global_details.
    unfold expected_keys. rewrite <- ?app_assoc. reflexivity.
  - repeat split; frame; reflexivity.
  - unfold leaf_fields.
    repeat (apply Forall_cons; [leaf_field |]). apply Forall_nil.
  - unfold descend. frame. own_block.
    destruct (find building_record "WorkAddressDetails") as [wad |];
      [| frame; reflexivity].
    rewrite !dict_get_set_other by reflexivity. own_block.
    destruct (find wad "WorkAddress"); [assigned | frame]; reflexivity.
  - frame. own_block.
    destruct (find building_record "WorkAddressDetails") as [wad |].
    + exists u. split; [assumption | assigned; reflexivity].
    + frame. reflexivity.
  - frame. own_block. assigned. reflexivity.
Qed.

(** ** Strings *)

Lemma substring_append_suffix (p suffix : string) :
  substring (String.length p) (String.length suffix) (p ++ suffix) = suffix.
Proof.
  induction p as [| c p IH]; simpl.
  - induction suffix as [| c s IH]; simpl; [reflexivity | now rewrite IH].
  - exact IH.
Qed.

Lemma length_append (s1 s2 : string) :
  String.length (s1 ++ s2) = String.length s1 + String.length s2.
Proof.
  induction s1 as [| c s1 IH]; simpl; [reflexivity | now rewrite IH].
Qed.

Lemma substring_split (s : string) : forall n,
  n <= String.length s ->
  s = (substring 0 n s ++ substring n (String.length s - n) s)%string.
Proof.
  induction s as [| c s IH]; intros n Hn.
  - destruct n; [reflexivity | simpl in Hn; lia].
  - destruct n as [| n]; simpl.
    + f_equal. specialize (IH 0 (Nat.le_0_l _)). simpl in IH.
      rewrite Nat.sub_0_r in IH.
      destruct s; [reflexivity |]. simpl in IH. exact IH.
    + f_equal. apply IH. simpl in Hn. lia.
Qed.

(** [s.endswith(suffix)] holds exactly when [s] ends with [suffix]. *)
Lemma str_endswith_spec (s suffix : string) :
  str_endswith s suffix = true <-> exists p, s = (p ++ suffix)%string.
Proof.
  unfold str_endswith. split.
  - intros H. apply andb_prop in H as [Hlen Heq].
    apply Nat.leb_le in Hlen. apply String.eqb_eq in Heq.
    exists (substring 0 (String.length s - String.length suffix) s).
    pose proof (substring_split s (String.length s - String.length suffix))
      as Hsplit.
    replace (String.length s - (String.length s - String.length suffix))
      with (String.length suffix) in Hsplit by lia.
    rewrite Heq in Hsplit. apply Hsplit. lia.
  - intros [p ->]. rewrite length_append.
    replace (String.length p + String.length suffix - String.length suffix)
      with (String.length p) by lia.
    rewrite substring_append_suffix, String.eqb_refl.
    rewrite andb_true_r. apply Nat.leb_le. lia.
Qed.

(** ** Texts of ASCII *)

Lemma decoded_ascii (n : N) (rest : option (list N)) :
  (n < 128)%N -> decoded 0 127 n rest = option_map (cons n) rest.
Proof.
  intros H. unfold decoded.
  replace (0 <=? n)%N with true by (symmetry; apply N.leb_le; lia).
  replace (n <=? 127)%N with true by (symmetry; apply N.leb_le; lia).
  replace (55296 <=? n)%N with false by (symmetry; apply N.leb_gt; lia).
  reflexivity.
Qed.

Lemma utf8_decode_ascii (s : string) :
  all_chars is_ascii s = true ->
  utf8_decode s = Some (map N_of_ascii (list_ascii_of_string s)).
Proof.
  induction s as [| c s IH]; cbn [all_chars]; intros H; [reflexivity |].
  apply andb_prop in H as [Hc Hs]. unfold is_ascii in Hc.
  cbn [utf8_decode list_ascii_of_string map]. rewrite Hc, (IH Hs).
  apply decoded_ascii, N.ltb_lt, Hc.
Qed.

Lemma ascii_case_table :
  forallb ascii_case_ok (map N.of_nat (seq 0 128)) = true.
Proof. vm_compute. reflexivity. Qed.

(** The case of a character of ASCII. *)
Lemma ascii_case (c : ascii) :
  is_ascii c = true ->
  to_title (N_of_ascii c) = [N_of_ascii (ascii_upper c)]
  /\ (forall before after,
        to_lower_in_context before (N_of_ascii c) after
        = [N_of_ascii (ascii_lower c)])
  /\ is_cased (N_of_ascii c) = is_ascii_upper c || is_ascii_lower c.
Proof.
  intros Hc. unfold is_ascii in Hc. apply N.ltb_lt in Hc.
  assert (Hok : ascii_case_ok (N_of_ascii c) = true).
  { apply (proj1 (forallb_forall _ _) ascii_case_table).
    rewrite <- (N2Nat.id (N_of_ascii c)). apply in_map, in_seq. lia. }
  unfold ascii_case_ok in Hok. rewrite ascii_N_embedding in Hok.
  unfold to_lower_in_context.
  replace (N_of_ascii c =? 931)%N with false by (symmetry; apply N.eqb_neq; lia).
  destruct (to_title (N_of_ascii c)) as [| t [| ? ?]]; try discriminate Hok.
  destruct (to_lower (N_of_ascii c)) as [| l [| ? ?]]; try discriminate Hok.
  apply andb_prop in Hok as [Hok Hcased]. apply andb_prop in Hok as [Ht Hl].
  apply N.eqb_eq in Ht, Hl. apply Bool.eqb_prop in Hcased.
  subst t l. auto.
Qed.

Lemma ascii_upper_is_ascii (c : ascii) :
  is_ascii c = true -> is_ascii (ascii_upper c) = true.
Proof.
  unfold ascii_upper, is_ascii_lower, is_ascii. intros H.
  destruct ((97 <=? N_of_ascii c) && (N_of_ascii c <=? 122))%N eqn:E;
    [| assumption].
  apply andb_prop in E as [Hlo Hhi]. apply N.leb_le in Hlo, Hhi.
  rewrite N_ascii_embedding by lia. apply N.ltb_lt. lia.
Qed.

Lemma ascii_lower_is_ascii (c : ascii) :
  is_ascii c = true -> is_ascii (ascii_lower c) = true.
Proof.
  unfold ascii_lower, is_ascii_upper, is_ascii. intros H.
  destruct ((65 <=? N_of_ascii c) && (N_of_ascii c <=? 90))%N eqn:E;
    [| assumption].
  apply andb_prop in E as [Hlo Hhi]. apply N.leb_le in Hlo, Hhi.
  rewrite N_ascii_embedding by lia. apply N.ltb_lt. lia.
Qed.

Lemma utf8_encode_ascii (c : ascii) (cps : list N) :
  is_ascii c = true ->
  utf8_encode (N_of_ascii c :: cps) = String c (utf8_encode cps).
Proof.
  intros H. cbn [utf8_encode]. unfold utf8_encode_code_point.
  unfold is_ascii in H. rewrite H, ascii_N_embedding. reflexivity.
Qed.

(** One step of the loop of [title] on a character of ASCII. *)
Lemma title_from_ascii_step (b : bool) (before cps : list N) (c : ascii) :
  is_ascii c = true ->
  utf8_encode (title_from b before (N_of_ascii c :: cps))
  = String (if b then ascii_lower c else ascii_upper c)
      (utf8_encode (title_from (is_ascii_upper c || is_ascii_lower c)
                      (N_of_ascii c :: before) cps)).
Proof.
  intros Hc. destruct (ascii_case c Hc) as (Ht & Hl & Hcased).
  cbn [title_from]. rewrite Hcased.
  destruct b; [rewrite Hl | rewrite Ht]; cbn [app];
    apply utf8_encode_ascii;
    [apply ascii_lower_is_ascii | apply ascii_upper_is_ascii]; assumption.
Qed.

Lemma title_from_ascii_length (s : string) :
  all_chars is_ascii s = true ->
  forall b before,
    String.length
      (utf8_encode (title_from b before (map N_of_ascii (list_ascii_of_string s))))
    = String.length s.
Proof.
  induction s as [| c s IH]; cbn [all_chars]; intros H b before;
    [reflexivity |].
  apply andb_prop in H as [Hc Hs].
  cbn [list_ascii_of_string map]. rewrite (title_from_ascii_step _ _ _ _ Hc).
  cbn [String.length]. now rewrite IH.
Qed.

Lemma title_from_ascii_get (s : string) :
  all_chars is_ascii s = true ->
  forall b before i c,
    String.get i s = Some c ->
    String.get i
      (utf8_encode (title_from b before (map N_of_ascii (list_ascii_of_string s))))
    = Some (if (match i with O => negb b | S _ => ascii_starts_word s i end)
            then ascii_upper c else ascii_lower c).
Proof.
  induction s as [| c0 s IH]; cbn [all_chars]; intros H b before i c Hget.
  - destruct i; discriminate.
  - apply andb_prop in H as [Hc Hs].
    cbn [list_ascii_of_string map]. rewrite (title_from_ascii_step _ _ _ _ Hc).
    destruct i as [| i]; cbn [String.get] in *.
    + injection Hget as <-. destruct b; reflexivity.
    + rewrite (IH Hs _ _ _ _ Hget). destruct i as [| i]; reflexivity.
Qed.

(** The title case of a text of ASCII, character by character: the first
    letter of each word is put in upper case and every other letter in
    lower case; the text keeps its length. *)
Lemma str_title_ascii (s : string) :
  all_chars is_ascii s = true ->
  String.length (str_title s) = String.length s
  /\ forall i c,
       String.get i s = Some c ->
       String.get i (str_title s)
       = Some (if ascii_starts_word s i then ascii_upper c else ascii_lower c).
Proof.
  intros H. unfold str_title. rewrite (utf8_decode_ascii _ H). split.
  - apply title_from_ascii_length, H.
  - intros i c Hget. rewrite (title_from_ascii_get _ H _ _ _ _ Hget).
    destruct i; reflexivity.
Qed.

(** ** The title case, position by position *)

Lemma title_from_positions (cps : list N) : forall (pre : list N) (b : bool),
  b = negb (starts_word (pre ++ cps) (length pre)) ->
  title_from b (rev pre) cps
  = flat_map (title_case_at (pre ++ cps)) (seq (length pre) (length cps)).
Proof.
  induction cps as [| c cps IH]; intros pre b Hb; [reflexivity |].
  cbn [title_from length seq flat_map]. f_equal.
  - unfold title_case_at.
    rewrite nth_error_app2, Nat.sub_diag by lia. cbn [nth_error].
    rewrite Hb. destruct (starts_word (pre ++ c :: cps) (length pre));
      [reflexivity |].
    cbn [negb]. f_equal.
    + rewrite firstn_app, Nat.sub_diag, firstn_all. cbn [firstn].
      now rewrite app_nil_r.
    + replace (S (length pre)) with (length (pre ++ [c]))
        by (rewrite length_app; simpl; lia).
      replace (pre ++ c :: cps) with ((pre ++ [c]) ++ cps)
        by (rewrite <- app_assoc; reflexivity).
      rewrite skipn_app, skipn_all, Nat.sub_diag. reflexivity.
  - specialize (IH (pre ++ [c]) (is_cased c)).
    rewrite rev_app_distr in IH. cbn [rev app] in IH.
    rewrite <- app_assoc in IH. cbn [app] in IH.
    rewrite length_app in IH. cbn [length] in IH.
    rewrite Nat.add_1_r in IH. apply IH.
    unfold starts_word.
    rewrite nth_error_app2, Nat.sub_diag by lia. cbn [nth_error].
    now rewrite negb_involutive.
Qed.

(** The loop of [title] gives the title case of the text. *)
Lemma str_title_positions (s : string) (cps : list N) :
  utf8_decode s = Some cps ->
  str_title s = utf8_encode (title_case cps).
Proof.
  intros H. unfold str_title, title_case. rewrite H. f_equal.
  apply (title_from_positions cps [] false). reflexivity.
Qed.

Lemma str_title_empty : str_title "" = "".
Proof. reflexivity. Qed.

(** What the loop over the items collects. *)
Lemma collect_items_kept (items : list Element) : forall acc,
  collect_items items acc = acc ++ kept_texts (map text items).
Proof.
  induction items as [| item items IH]; intros acc; simpl.
  - now rewrite app_nil_r.
  - rewrite IH. unfold has_text, text_or_empty, truthy.
    destruct (text item) as [s |]; [| reflexivity].
    destruct (s =? ""); simpl; [reflexivity |].
    now rewrite <- app_assoc.
Qed.

(** The join of the code is the concatenation with separator of the
    standard library. *)
Lemma str_join_concat (sep : string) (items : list string) :
  str_join sep items = String.concat sep items.
Proof.
  induction items as [| x [| y rest] IH]; [reflexivity | reflexivity |].
  change (str_join sep (x :: y :: rest))
    with (x ++ sep ++ str_join sep (y :: rest))%string.
  rewrite IH. reflexivity.
Qed.

Lemma work_items_kept (building_record : Element) :
  work_items building_record = kept_texts (item_texts building_record).
Proof.
  unfold work_items, item_texts.
  destruct (find building_record "WorkDescription"); [| reflexivity].
  apply collect_items_kept.
Qed.

(** The county as the code computes it is the county of the
    specification. *)
Lemma county_value_spec (work_address : Element) :
  county_value work_address = VStr (county_spec work_address).
Proof.
  unfold county_value, county_spec, has_text, text_or_empty, truthy.
  destruct (find work_address "County") as [c |]; [| reflexivity].
  destruct (text c) as [t |]; [| reflexivity].
  destruct (t =? "") eqn:E; [| reflexivity].
  apply String.eqb_eq in E. subst t. reflexivity.
Qed.

(** ** The UPRN *)

Lemma decimal_value_nonneg (digits : list N) : forall acc,
  (0 <= acc)%Z -> (0 <= decimal_value acc digits)%Z.
Proof.
  induction digits as [| d digits IH]; cbn [decimal_value]; intros acc Hacc.
  - assumption.
  - apply IH. lia.
Qed.

Lemma int_of_str_nonneg (s : string) (n : Z) :
  int_of_str s = Return n -> (0 <= n)%Z.
Proof.
  unfold int_of_str.
  destruct (utf8_decode s) as [cps |]; [| discriminate].
  destruct (int_max_str_digits <? length (leading_decimals cps))%nat;
    [discriminate |].
  destruct (negb (length cps =? 0)%nat
            && (length (leading_decimals cps) =? length cps)%nat);
    [| discriminate].
  intros H. injection H as <-. apply decimal_value_nonneg. lia.
Qed.

(** A UPRN that is stored is an integer not below zero, or [None]. *)
Lemma uprn_value_integer_or_null (work_address_details : Element) (v : value) :
  uprn_value work_address_details = Return v -> integer_or_null v.
Proof.
  unfold uprn_value, integer_or_null.
  destruct (str_isdigit (uprn_text work_address_details)).
  - destruct (int_of_str (uprn_text work_address_details)) as [n | e] eqn:E;
      simpl; [| discriminate].
    intros H. injection H as <-. right. exists n.
    split; [eapply int_of_str_nonneg; eassumption | reflexivity].
  - intros H. injection H as <-. left. reflexivity.
Qed.

(** The digits are read as far as the code points have a decimal value:
    all of them are read exactly when all have one. *)
Lemma leading_decimals_all (cps : list N) :
  (length (leading_decimals cps) =? length cps)%nat
  = forallb is_decimal_code_point cps.
Proof.
  induction cps as [| c cps IH]; [reflexivity |].
  cbn [leading_decimals forallb]. unfold is_decimal_code_point at 1.
  destruct (decimal_digit c); [apply IH | reflexivity].
Qed.

(** A text that [int] reads gives the integer of its digits. *)
Lemma int_of_str_literal (t : string) :
  is_integer_literal t = true ->
  exists cps,
    utf8_decode t = Some cps
    /\ int_of_str t = Return (decimal_value 0 (leading_decimals cps)).
Proof.
  unfold is_integer_literal, int_of_str.
  destruct (utf8_decode t) as [[| c cps] |]; try discriminate.
  intros H. apply andb_prop in H as [Hall Hlen].
  exists (c :: cps). split; [reflexivity |].
  rewrite <- leading_decimals_all in Hall. rewrite Hall.
  apply Nat.eqb_eq in Hall. rewrite Hall.
  replace (int_max_str_digits <? length (c :: cps))%nat with false.
  - reflexivity.
  - symmetry. apply Nat.ltb_ge. apply Nat.leb_le in Hlen. exact Hlen.
Qed.

(** A text that [int] does not read makes it raise, with one of its two
    messages. *)
Lemma int_of_str_rejected (t : string) :
  is_integer_literal t = false ->
  int_of_str t = Raise (ValueError (uprn_error_message t)).
Proof.
  unfold is_integer_literal, int_of_str, uprn_error_message,
    leading_decimal_count.
  destruct (utf8_decode t) as [[| c cps] |]; try reflexivity.
  intros H. change 4300 with int_max_str_digits in *.
  destruct (int_max_str_digits <? length (leading_decimals (c :: cps)))%nat
    eqn:Elimit; [reflexivity |].
  rewrite leading_decimals_all.
  destruct (forallb is_decimal_code_point (c :: cps)) eqn:Eall.
  - exfalso. cbn [andb] in H.
    rewrite <- leading_decimals_all in Eall. apply Nat.eqb_eq in Eall.
    rewrite Eall in Elimit. apply Nat.ltb_ge, Nat.leb_le in Elimit.
    congruence.
  - rewrite andb_false_r. reflexivity.
Qed.

(** A text that [isdigit] rejects, so the empty text and a text with a
    character that is no digit, is stored as [None]. *)
Lemma uprn_value_not_digits (work_address_details : Element) :
  str_isdigit (uprn_text work_address_details) = false ->
  uprn_value work_address_details = Return VNone.
Proof.
  intros H. unfold uprn_value. rewrite H. reflexivity.
Qed.

(** What [isdigit] accepts and [int] does not read makes the assignment
    raise. *)
Lemma uprn_value_raises (work_address_details : Element) :
  str_isdigit (uprn_text work_address_details) = true ->
  is_integer_literal (uprn_text work_address_details) = false ->
  uprn_value work_address_details
  = Raise (ValueError (uprn_error_message (uprn_text work_address_details))).
Proof.
  intros Hd Hn. unfold uprn_value.
  rewrite Hd, (int_of_str_rejected _ Hn). reflexivity.
Qed.

(** *** Texts of the ASCII digits *)

Lemma decimal_char_cases (c : ascii) :
  is_decimal_char c = true ->
  In c ["0"; "1"; "2"; "3"; "4"; "5"; "6"; "7"; "8"; "9"]%char.
Proof.
  destruct c as [[] [] [] [] [] [] [] []]; intros H;
    try discriminate H; simpl; tauto.
Qed.

Ltac decimal_char c H :=
  destruct (decimal_char_cases c H)
    as [<- | [<- | [<- | [<- | [<- | [<- | [<- | [<- | [<- | [<- | []]]]]]]]]]].

Lemma decimal_char_code_point (c : ascii) :
  is_decimal_char c = true ->
  is_ascii c = true
  /\ is_digit_code_point (N_of_ascii c) = true
  /\ decimal_digit (N_of_ascii c) = Some (N_of_ascii c - 48)%N
  /\ (N_of_ascii c - 48 <= 9)%N.
Proof.
  intros H. decimal_char c H; vm_compute; repeat split; discriminate.
Qed.

Lemma uint_of_decimal_char (c : ascii) (u : Decimal.uint) :
  is_decimal_char c = true ->
  exists u',
    uint_of_char c (Some u) = Some u'
    /\ forall acc,
         Nat.of_uint_acc u' acc
         = Nat.of_uint_acc u (10 * acc + N.to_nat (N_of_ascii c - 48)).
Proof.
  intros H.
  decimal_char c H; eexists; (split; [reflexivity |]); intros acc;
    cbn [Nat.of_uint_acc]; rewrite Nat.tail_mul_spec; f_equal;
    change (N.to_nat _) with 0 || change (N.to_nat _) with 1
    || change (N.to_nat _) with 2 || change (N.to_nat _) with 3
    || change (N.to_nat _) with 4 || change (N.to_nat _) with 5
    || change (N.to_nat _) with 6 || change (N.to_nat _) with 7
    || change (N.to_nat _) with 8 || change (N.to_nat _) with 9; lia.
Qed.

Lemma all_chars_decimal_ascii (s : string) :
  all_chars is_decimal_char s = true -> all_chars is_ascii s = true.
Proof.
  induction s as [| c s IH]; cbn [all_chars]; [reflexivity |].
  intros H. apply andb_prop in H as [Hc Hs].
  destruct (decimal_char_code_point c Hc) as (-> & _). auto.
Qed.

(** The code points of a text of the ASCII digits. *)
Lemma ascii_digits_code_points (s : string) :
  all_chars is_decimal_char s = true ->
  exists cps,
    utf8_decode s = Some cps
    /\ length cps = String.length s
    /\ forallb is_digit_code_point cps = true
    /\ forallb is_decimal_code_point cps = true
    /\ leading_decimals cps
       = map (fun c => (N_of_ascii c - 48)%N) (list_ascii_of_string s).
Proof.
  intros H. exists (map N_of_ascii (list_ascii_of_string s)).
  split; [apply utf8_decode_ascii, all_chars_decimal_ascii, H |].
  induction s as [| c s IH]; cbn [all_chars] in H; [repeat split |].
  apply andb_prop in H as [Hc Hs].
  destruct (IH Hs) as (Hlen & Hdigit & Hdec & Hlead).
  destruct (decimal_char_code_point c Hc) as (_ & Hd & Hv & _).
  cbn [list_ascii_of_string map length String.length forallb leading_decimals].
  unfold is_decimal_code_point at 1. rewrite Hd, Hv, Hdigit, Hdec, Hlead, Hlen.
  repeat split.
Qed.

Lemma is_ascii_digits_isdigit (t : string) :
  is_ascii_digits t = true -> str_isdigit t = true.
Proof.
  unfold is_ascii_digits, str_isdigit, truthy. intros H.
  apply andb_prop in H as [Ht Hd].
  destruct (ascii_digits_code_points t Hd) as (cps & -> & Hlen & Hdigit & _).
  destruct cps as [| c cps]; [| assumption].
  destruct t; [discriminate Ht | discriminate Hlen].
Qed.

Lemma is_ascii_digits_literal (t : string) :
  is_ascii_digits t = true -> String.length t <= 4300 ->
  is_integer_literal t = true.
Proof.
  unfold is_ascii_digits, is_integer_literal, truthy. intros H Hle.
  apply andb_prop in H as [Ht Hd].
  destruct (ascii_digits_code_points t Hd) as (cps & -> & Hlen & _ & Hdec & _).
  destruct cps as [| c cps].
  - destruct t; [discriminate Ht | discriminate Hlen].
  - rewrite Hdec, Hlen. apply Nat.leb_le in Hle. rewrite Hle. reflexivity.
Qed.

(** The integer of a text of the ASCII digits is the number that the
    text is the decimal notation of. *)
Lemma ascii_digits_value (s : string) :
  all_chars is_decimal_char s = true ->
  exists u,
    NilEmpty.uint_of_string s = Some u
    /\ forall acc,
         decimal_value (Z.of_nat acc)
           (map (fun c => (N_of_ascii c - 48)%N) (list_ascii_of_string s))
         = Z.of_nat (Nat.of_uint_acc u acc).
Proof.
  induction s as [| c s IH]; cbn [all_chars]; intros H.
  - exists Decimal.Nil. split; reflexivity.
  - apply andb_prop in H as [Hc Hs]. destruct (IH Hs) as (u & Hu & Hval).
    destruct (uint_of_decimal_char c u Hc) as (u' & Hu' & Hacc).
    exists u'. cbn [NilEmpty.uint_of_string]. rewrite Hu. split; [exact Hu' |].
    intros acc. cbn [list_ascii_of_string map decimal_value].
    rewrite Hacc, <- Hval. f_equal. lia.
Qed.

Lemma decimal_value_bound (digits : list N) : forall acc,
  (0 <= acc)%Z -> Forall (fun d => (d <= 9)%N) digits ->
  (decimal_value acc digits < 10 ^ Z.of_nat (length digits) * (acc + 1))%Z.
Proof.
  induction digits as [| d digits IH]; cbn [decimal_value length];
    intros acc Hacc H.
  - replace (10 ^ Z.of_nat 0)%Z with 1%Z by reflexivity. lia.
  - inversion H as [| ? ? Hd Hrest]; subst.
    specialize (IH (10 * acc + Z.of_N d)%Z ltac:(lia) Hrest).
    rewrite Nat2Z.inj_succ, Z.pow_succ_r by lia.
    assert (0 < 10 ^ Z.of_nat (length digits))%Z
      by (apply Z.pow_pos_nonneg; lia).
    nia.
Qed.

Lemma ascii_digits_bound (s : string) :
  all_chars is_decimal_char s = true ->
  Forall (fun d => (d <= 9)%N)
         (map (fun c => (N_of_ascii c - 48)%N) (list_ascii_of_string s)).
Proof.
  induction s as [| c s IH]; cbn [all_chars list_ascii_of_string map];
    intros H; [constructor |].
  apply andb_prop in H as [Hc Hs]. constructor; [| auto].
  apply (decimal_char_code_point c Hc).
Qed.

(** A text of the ASCII digits, of no more digits than the limit, is
    stored as the integer that it denotes. *)
Lemma uprn_value_decimal (work_address_details : Element) :
  is_ascii_digits (uprn_text work_address_details) = true ->
  String.length (uprn_text work_address_details) <= 4300 ->
  exists u,
    NilZero.uint_of_string (uprn_text work_address_details) = Some u
    /\ uprn_value work_address_details
       = Return (VInt (Z.of_nat (Nat.of_uint u)))
    /\ (Z.of_nat (Nat.of_uint u)
        < 10 ^ Z.of_nat (String.length (uprn_text work_address_details)))%Z.
Proof.
  intros Hd Hle. unfold uprn_value.
  rewrite (is_ascii_digits_isdigit _ Hd).
  destruct (int_of_str_literal _ (is_ascii_digits_literal _ Hd Hle))
    as (cps & Hcps & ->).
  unfold is_ascii_digits, truthy in Hd. apply andb_prop in Hd as [Ht Hd].
  destruct (ascii_digits_code_points _ Hd)
    as (cps' & Hcps' & Hlen & _ & _ & Hlead).
  rewrite Hcps in Hcps'. injection Hcps' as <-.
  destruct (ascii_digits_value _ Hd) as (u & Hu & Hval).
  exists u. rewrite Hlead. specialize (Hval 0%nat). cbn [Z.of_nat] in Hval.
  split; [| split].
  - unfold NilZero.uint_of_string.
    destruct (uprn_text work_address_details); [discriminate Ht | exact Hu].
  - cbn [bind]. unfold Nat.of_uint. rewrite <- Hval. reflexivity.
  - unfold Nat.of_uint. rewrite <- Hval.
    pose proof (decimal_value_bound _ 0 ltac:(lia) (ascii_digits_bound _ Hd))
      as Hb.
    rewrite length_map in Hb.
    replace (length (list_ascii_of_string (uprn_text work_address_details)))
      with (String.length (uprn_text work_address_details)) in Hb; [lia |].
    clear. induction (uprn_text work_address_details); simpl; congruence.
Qed.

(** ** The extractor *)

(** When the [try] block runs to its end there is one record for each
    [BuildingRecord] element, in document order, each of the shape that
    its element dictates. *)
Lemma extract_records_aligned (root : Element) (records : list dict) :
  extract_records root = Return records ->
  exists g,
    read_global_details root = Return g
    /\ Forall2 (record_shape g) (findall root "BuildingRecord") records.
Proof.
  unfold extract_records. intros H.
  apply bind_Return in H as (g & Hg & H). exists g. split; [assumption |].
  apply mapM_Forall2 in H.
  induction H; constructor; auto using build_record_shape.
Qed.

(** With a [GlobalDetails] element the five global values are read, an
    absent one as the empty string. *)
Lemma read_global_details_present (root global_details : Element) :
  find root "GlobalDetails" = Some global_details ->
  exists g,
    read_global_details root = Return g
    /\ sender_code g = leaf global_details "SenderCode"
    /\ local_authority_code g = leaf global_details "LocalAuthorityCode"
    /\ submission_date g = leaf global_details "SubmissionDate"
    /\ sender_email g = leaf global_details "SenderResponseEmailAddress"
    /\ sender_phone g = leaf global_details "SenderResponsePhoneNo".
Proof.
  intros H. unfold read_global_details. rewrite H.
  eexists. split; [reflexivity |]. repeat split.
Qed.

Lemma read_global_details_inv (root : Element) (g : global_fields) :
  read_global_details root = Return g ->
  exists global_details,
    find root "GlobalDetails" = Some global_details
    /\ sender_code g = leaf global_details "SenderCode"
    /\ local_authority_code g = leaf global_details "LocalAuthorityCode"
    /\ submission_date g = leaf global_details "SubmissionDate"
    /\ sender_email g = leaf global_details "SenderResponseEmailAddress"
    /\ sender_phone g = leaf global_details "SenderResponsePhoneNo".
Proof.
  unfold read_global_details.
  destruct (find root "GlobalDetails") as [gd |]; [| discriminate].
  intros H. injection H as <-. exists gd. repeat split.
Qed.

(** C9.  The extractor never raises: for every input text, well formed or
    not, it returns a list.  Whenever the parse or the traversal raises,
    the list returned is empty (and one diagnostic is reported), so that
    the value returned for a malformed text is the value returned for a
    well-formed document without building records. *)
Theorem extractor_never_raises
        (fromstring : string -> outcome Element) (xml_content : string) :
  (exists records log,
      parse_building_record_xml fromstring xml_content = (Return records, log))
  /\ (forall e,
        (root <- fromstring xml_content ;; extract_records root) = Raise e ->
        exists d,
          parse_building_record_xml fromstring xml_content = (Return [], [d]))
  /\ (forall e other root,
        fromstring xml_content = Raise e ->
        fromstring other = Return root ->
        find root "GlobalDetails" <> None ->
        findall root "BuildingRecord" = [] ->
        fst (parse_building_record_xml fromstring xml_content)
        = fst (parse_building_record_xml fromstring other)).
Proof.
  split; [apply parse_returns |]. split.
  - intros e H. rewrite (parse_failure _ _ _ H). eauto.
  - intros e other root Hbad Hgood Hgd Hnone.
    rewrite (parse_failure fromstring xml_content e)
      by (rewrite Hbad; reflexivity).
    destruct (find root "GlobalDetails") as [gd |] eqn:Egd; [| congruence].
    destruct (read_global_details_present _ _ Egd) as (g & Hg & _).
    rewrite (parse_success fromstring other root []); [reflexivity | assumption |].
    unfold extract_records. rewrite Hg, Hnone. reflexivity.
Qed.

Lemma extractor_never_raises_witness :
  fst (parse_building_record_xml sample_fromstring doc_unclosed_text)
  = fst (parse_building_record_xml sample_fromstring doc_no_records_text).
Proof.
  apply (proj2 (proj2 (extractor_never_raises sample_fromstring doc_unclosed_text))
           (ParseError "no element found: line 1, column 12")
           doc_no_records_text doc_no_records).
  - reflexivity.
  - reflexivity.
  - discriminate.
  - reflexivity.
Defined.

(** C2, as amended.  For every input text that is not well formed, the
    extractor catches the [ParseError] itself: it returns the empty list
    and gives the diagnostic, with the message of the parser, to
    [st.error]; the caller gets no exception. *)
Theorem parse_error_reported_not_raised
        (fromstring : string -> outcome Element) (xml_content msg : string) :
  fromstring xml_content = Raise (ParseError msg) ->
  parse_building_record_xml fromstring xml_content
  = (Return [], [XmlParsingError (ParseError msg)]).
Proof.
  intros H. apply (parse_failure fromstring xml_content (ParseError msg)).
  rewrite H. reflexivity.
Qed.

Lemma parse_error_reported_not_raised_witness :
  parse_building_record_xml sample_fromstring doc_unclosed_text
  = (Return [],
     [XmlParsingError (ParseError "no element found: line 1, column 12")]).
Proof.
  apply (parse_error_reported_not_raised sample_fromstring doc_unclosed_text).
  reflexivity.
Defined.

(** C2, as stated, fails: the text is not well formed, yet the extractor
    does not fail with the [ParseError], nor with any exception. *)
Lemma parse_error_does_not_reach_caller :
  sample_fromstring doc_unclosed_text
  = Raise (ParseError "no element found: line 1, column 12")
  /\ ~ (exists e,
          fst (parse_building_record_xml sample_fromstring doc_unclosed_text)
          = Raise e).
Proof.
  split; [reflexivity |]. intros [e H]. discriminate H.
Qed.

(** C3, what the code does.  In a well-formed document without a
    [GlobalDetails] element the first lookup in the missing section
    raises; the extractor reports it and returns no record at all,
    however many building records the document has. *)
Theorem missing_global_details_yields_no_record
        (fromstring : string -> outcome Element) (xml_content : string)
        (root : Element) :
  fromstring xml_content = Return root ->
  find root "GlobalDetails" = None ->
  parse_building_record_xml fromstring xml_content
  = (Return [],
     [ErrorProcessingXml
        (AttributeError "'NoneType' object has no attribute 'find'")]).
Proof.
  intros Hroot Hgd.
  apply (parse_failure fromstring xml_content
           (AttributeError "'NoneType' object has no attribute 'find'")).
  rewrite Hroot. unfold extract_records, read_global_details.
  simpl. rewrite Hgd. reflexivity.
Qed.

Lemma missing_global_details_yields_no_record_witness :
  length (findall doc_no_global_details "BuildingRecord") = 1
  /\ parse_building_record_xml sample_fromstring doc_no_global_details_text
     = (Return [],
        [ErrorProcessingXml
           (AttributeError "'NoneType' object has no attribute 'find'")]).
Proof.
  split; [reflexivity |].
  apply (missing_global_details_yields_no_record
           sample_fromstring doc_no_global_details_text doc_no_global_details);
    reflexivity.
Defined.

(** Every record that is returned has the shape dictated by the element
    it was built from and by the [GlobalDetails] of its document. *)
Lemma returned_record_shape
      (fromstring : string -> outcome Element) (xml_content : string)
      (records : list dict) (log : list diagnostic) (r : dict) :
  parse_building_record_xml fromstring xml_content = (Return records, log) ->
  In r records ->
  exists root g building_record,
    fromstring xml_content = Return root
    /\ read_global_details root = Return g
    /\ In building_record (findall root "BuildingRecord")
    /\ record_shape g building_record r.
Proof.
  intros H Hr.
  destruct (parse_record_origin _ _ _ _ _ H Hr) as (root & g & br & ? & ? & ? & ?).
  exists root, g, br. auto using build_record_shape.
Qed.

(** C1, as amended.  Every record that the extractor returns was built
    from a building-record element of the document, and its fields follow
    the subsections of that element: the five global fields and
    [work_description] are always there; the fields of a subsection are
    there exactly when the subsection is, in a fixed order; a string leaf
    whose subsection is present holds the text of the leaf element, and
    the empty string when that element is absent; [work_address_uprn] is
    an integer not below zero or [None]. *)
Theorem record_fields_follow_subsections
        (fromstring : string -> outcome Element) (xml_content : string)
        (records : list dict) (log : list diagnostic) (r : dict) :
  parse_building_record_xml fromstring xml_content = (Return records, log) ->
  In r records ->
  exists root building_record,
    fromstring xml_content = Return root
    /\ In building_record (findall root "BuildingRecord")
    /\ keys r = expected_keys building_record
    /\ Forall (leaf_field_ok building_record r) leaf_fields
    /\ match descend building_record ["WorkAddressDetails"; "WorkAddress"] with
       | Some work_address =>
           dict_get r "county" = Some (VStr (county_spec work_address))
       | None => dict_get r "county" = None
       end
    /\ match find building_record "WorkAddressDetails" with
       | Some _ =>
           exists v, dict_get r "work_address_uprn" = Some v
                     /\ integer_or_null v
       | None => dict_get r "work_address_uprn" = None
       end.
Proof.
  intros H Hr.
  destruct (returned_record_shape _ _ _ _ _ H Hr)
    as (root & g & br & Hroot & Hg & Hbr & [Hk _ Hl Hc Hu _]).
  exists root, br. repeat (split; [assumption |]). split.
  - destruct (descend br ["WorkAddressDetails"; "WorkAddress"]) as [wa |];
      [| assumption].
    rewrite <- county_value_spec. assumption.
  - destruct (find br "WorkAddressDetails") as [wad |]; [| assumption].
    destruct Hu as (v & Hv & Hget). exists v.
    split; [assumption | eapply uprn_value_integer_or_null; eassumption].
Qed.

Lemma record_fields_follow_subsections_witness :
  exists root building_record,
    sample_fromstring doc_full_text = Return root
    /\ In building_record (findall root "BuildingRecord")
    /\ keys doc_full_first_record = expected_keys building_record
    /\ Forall (leaf_field_ok building_record doc_full_first_record) leaf_fields
    /\ match descend building_record ["WorkAddressDetails"; "WorkAddress"] with
       | Some work_address =>
           dict_get doc_full_first_record "county"
           = Some (VStr (county_spec work_address))
       | None => dict_get doc_full_first_record "county" = None
       end
    /\ match find building_record "WorkAddressDetails" with
       | Some _ =>
           exists v, dict_get doc_full_first_record "work_address_uprn" = Some v
                     /\ integer_or_null v
       | None => dict_get doc_full_first_record "work_address_uprn" = None
       end.
Proof.
  apply (record_fields_follow_subsections
           sample_fromstring doc_full_text doc_full_records []).
  - reflexivity.
  - left. reflexivity.
Defined.

(** C1, as stated, fails: the record of a building record without
    subsections lacks the fields of the subsections; it has no
    [status_type], for one. *)
Lemma record_lacks_absent_subsection_fields :
  sample_fromstring doc_bare_text = Return doc_bare
  /\ In doc_bare_record
        (returned (parse_building_record_xml sample_fromstring doc_bare_text))
  /\ dict_get doc_bare_record "status_type" = None
  /\ ~ has_all_fields doc_bare_record.
Proof.
  split; [reflexivity |]. split; [left; reflexivity |].
  split; [reflexivity |].
  intros H. apply (H "status_type"); [| reflexivity].
  unfold output_fields, global_keys. simpl. tauto.
Qed.

(** C5, the input on which the code fails.  The text U+00B2 passes
    [isdigit], [int] rejects it, and the exception ends the extraction of
    the whole document: no record is returned, where the claim has a
    record with the UPRN [None]. *)
Theorem superscript_uprn_loses_document :
  sample_fromstring doc_superscript_uprn_text = Return doc_superscript_uprn
  /\ str_isdigit superscript_two = true
  /\ int_of_str superscript_two
     = Raise (ValueError ("invalid literal for int() with base 10: '"
                          ++ superscript_two ++ "'"))
  /\ parse_building_record_xml sample_fromstring doc_superscript_uprn_text
     = (Return [],
        [ErrorProcessingXml
           (ValueError ("invalid literal for int() with base 10: '"
                        ++ superscript_two ++ "'"))]).
Proof.
  repeat split.
Qed.

(** The same on every document: a building record whose UPRN [isdigit]
    accepts and [int] does not read leaves the document without any
    record. *)
Lemma unread_digit_uprn_loses_document
      (fromstring : string -> outcome Element) (xml_content : string)
      (root building_record work_address_details : Element) :
  fromstring xml_content = Return root ->
  In building_record (findall root "BuildingRecord") ->
  find building_record "WorkAddressDetails" = Some work_address_details ->
  str_isdigit (uprn_text work_address_details) = true ->
  is_integer_literal (uprn_text work_address_details) = false ->
  exists d, parse_building_record_xml fromstring xml_content = (Return [], [d]).
Proof.
  intros Hroot Hbr Hwad Hd Hn.
  assert (Hraise : exists e,
             (root <- fromstring xml_content ;; extract_records root) = Raise e).
  { rewrite Hroot. simpl. unfold extract_records.
    destruct (read_global_details root) as [g | e]; simpl; [| eauto].
    apply (mapM_Raise _ _ building_record
             (ValueError (uprn_error_message (uprn_text work_address_details))));
      [assumption |].
    unfold build_record, set_work_address_details.
    rewrite Hwad, (uprn_value_raises _ Hd Hn). reflexivity. }
  destruct Hraise as [e He]. rewrite (parse_failure _ _ _ He). eauto.
Qed.

(** What is stored for the texts that the code handles as the claim says:
    the integer for a text of the ASCII digits within the limit, [None]
    for a text that [isdigit] rejects. *)
Lemma returned_uprn
      (fromstring : string -> outcome Element) (xml_content : string)
      (records : list dict) (log : list diagnostic) (r : dict) :
  parse_building_record_xml fromstring xml_content = (Return records, log) ->
  In r records ->
  exists root building_record,
    fromstring xml_content = Return root
    /\ In building_record (findall root "BuildingRecord")
    /\ match find building_record "WorkAddressDetails" with
       | Some wad =>
           (is_ascii_digits (uprn_text wad) = true ->
            String.length (uprn_text wad) <= 4300 ->
            exists u,
              NilZero.uint_of_string (uprn_text wad) = Some u
              /\ dict_get r "work_address_uprn"
                 = Some (VInt (Z.of_nat (Nat.of_uint u)))
              /\ (Z.of_nat (Nat.of_uint u)
                  < 10 ^ Z.of_nat (String.length (uprn_text wad)))%Z)
           /\ (str_isdigit (uprn_text wad) = false ->
               dict_get r "work_address_uprn" = Some VNone)
       | None => dict_get r "work_address_uprn" = None
       end.
Proof.
  intros H Hr.
  destruct (returned_record_shape _ _ _ _ _ H Hr)
    as (root & g & br & Hroot & Hg & Hbr & [_ _ _ _ Hu _]).
  exists root, br. repeat (split; [assumption |]).
  destruct (find br "WorkAddressDetails") as [wad |]; [| assumption].
  destruct Hu as (v & Hv & Hget). split.
  - intros Hd Hle.
    destruct (uprn_value_decimal _ Hd Hle) as (u & Hu & Hval & Hbound).
    exists u. rewrite Hval in Hv. injection Hv as <-. auto.
  - intros Hd. rewrite (uprn_value_not_digits _ Hd) in Hv. congruence.
Qed.

(** The integer of a text of digits, one digit after the other. *)
Lemma decimal_value_app (digits1 digits2 : list N) : forall acc,
  decimal_value acc (digits1 ++ digits2)
  = decimal_value (decimal_value acc digits1) digits2.
Proof.
  induction digits1 as [| d digits1 IH]; intros acc; [reflexivity |].
  cbn [app decimal_value]. apply IH.
Qed.

Lemma decimal_value_last (digits : list N) (d : N) :
  decimal_value 0 (digits ++ [d])
  = (10 * decimal_value 0 digits + Z.of_N d)%Z.
Proof.
  rewrite decimal_value_app. reflexivity.
Qed.

(** The digits of Latin-1 that [isdigit] accepts and that have no decimal
    value: the superscripts two, three and one. *)
Lemma digit_without_decimal_value (c : N) :
  In c [178; 179; 185]%N ->
  is_digit_code_point c = true /\ is_decimal_code_point c = false.
Proof.
  intros [<- | [<- | [<- | []]]]; split; reflexivity.
Qed.

(** The four texts of the specification, and three that are no integer
    literals. *)
Lemma uprn_examples :
  let uprn_of text :=
    uprn_value (Elem "WorkAddressDetails" None
                  [Elem "WorkAddressUprn" text []]) in
  uprn_of (Some "12345") = Return (VInt 12345)
  /\ uprn_of (Some "0") = Return (VInt 0)
  /\ uprn_of (Some "12a") = Return VNone
  /\ uprn_of (Some "") = Return VNone
  /\ uprn_of None = Return VNone
  /\ uprn_of (Some "-5") = Return VNone
  /\ uprn_of (Some "1.5") = Return VNone
  /\ uprn_value (Elem "WorkAddressDetails" None []) = Return VNone.
Proof.
  repeat split.
Qed.

(** A text of 4300 digits is stored; one of 4301 digits makes [int]
    raise. *)
Lemma uprn_limit_examples :
  let uprn_of text :=
    uprn_value (Elem "WorkAddressDetails" None
                  [Elem "WorkAddressUprn" (Some text) []]) in
  (exists n, uprn_of (digits_of_ones 4300) = Return (VInt n))
  /\ uprn_of (digits_of_ones 4301)
     = Raise (ValueError
                ("Exceeds the limit (4300 digits) for integer string "
                 ++ "conversion: value has 4301 digits; "
                 ++ "use sys.set_int_max_str_digits() to increase the limit")).
Proof.
  split.
  - assert (Hd : is_ascii_digits (digits_of_ones 4300) = true)
      by (vm_compute; reflexivity).
    assert (Hle : String.length (digits_of_ones 4300) <= 4300)
      by (apply Nat.leb_le; vm_compute; reflexivity).
    destruct (uprn_value_decimal
                (Elem "WorkAddressDetails" None
                   [Elem "WorkAddressUprn" (Some (digits_of_ones 4300)) []])
                Hd Hle)
      as (u & _ & Hu & _).
    exists (Z.of_nat (Nat.of_uint u)). exact Hu.
  - assert (Hd : str_isdigit (digits_of_ones 4301) = true)
      by (vm_compute; reflexivity).
    assert (Hn : is_integer_literal (digits_of_ones 4301) = false)
      by (vm_compute; reflexivity).
    rewrite (uprn_value_raises
               (Elem "WorkAddressDetails" None
                  [Elem "WorkAddressUprn" (Some (digits_of_ones 4301)) []])
               Hd Hn).
    vm_compute. reflexivity.
Qed.

(** C7.  Every record that the extractor returns holds, under
    [work_description], the texts of the description items of its
    building record that are present and not empty, in document order,
    joined with " | ": the empty string when no text is kept, so when
    there is no item and when there is no subsection; the text itself
    when one text is kept; and for more texts the first one, the
    separator, and the join of the others.  The join is the
    concatenation with separator of the standard library. *)
Theorem work_description_joins_kept_items
        (fromstring : string -> outcome Element) (xml_content : string)
        (records : list dict) (log : list diagnostic) (r : dict) :
  parse_building_record_xml fromstring xml_content = (Return records, log) ->
  In r records ->
  exists root building_record,
    fromstring xml_content = Return root
    /\ In building_record (findall root "BuildingRecord")
    /\ dict_get r "work_description"
       = Some (VStr (String.concat " | "
                       (kept_texts (item_texts building_record))))
    /\ (kept_texts (item_texts building_record) = [] ->
        dict_get r "work_description" = Some (VStr ""))
    /\ (find building_record "WorkDescription" = None ->
        dict_get r "work_description" = Some (VStr ""))
    /\ (forall x,
          kept_texts (item_texts building_record) = [x] ->
          dict_get r "work_description" = Some (VStr x))
    /\ (forall x y rest,
          kept_texts (item_texts building_record) = x :: y :: rest ->
          dict_get r "work_description"
          = Some (VStr (x ++ " | " ++ String.concat " | " (y :: rest)))).
Proof.
  intros H Hr.
  destruct (returned_record_shape _ _ _ _ _ H Hr)
    as (root & g & br & Hroot & Hg & Hbr & [_ _ _ _ _ Hw]).
  rewrite work_items_kept, str_join_concat in Hw.
  exists root, br. repeat (split; [assumption |]).
  split; [| split; [| split]].
  - intros E. rewrite Hw, E. reflexivity.
  - intros E. rewrite Hw. unfold item_texts. rewrite E. reflexivity.
  - intros x E. rewrite Hw, E. reflexivity.
  - intros x y rest E. rewrite Hw, E. reflexivity.
Qed.

Lemma work_description_joins_kept_items_witness :
  exists root building_record,
    sample_fromstring doc_full_text = Return root
    /\ In building_record (findall root "BuildingRecord")
    /\ dict_get doc_full_first_record "work_description"
       = Some (VStr (String.concat " | "
                       (kept_texts (item_texts building_record))))
    /\ (kept_texts (item_texts building_record) = [] ->
        dict_get doc_full_first_record "work_description" = Some (VStr ""))
    /\ (find building_record "WorkDescription" = None ->
        dict_get doc_full_first_record "work_description" = Some (VStr ""))
    /\ (forall x,
          kept_texts (item_texts building_record) = [x] ->
          dict_get doc_full_first_record "work_description" = Some (VStr x))
    /\ (forall x y rest,
          kept_texts (item_texts building_record) = x :: y :: rest ->
          dict_get doc_full_first_record "work_description"
          = Some (VStr (x ++ " | " ++ String.concat " | " (y :: rest)))).
Proof.
  apply (work_description_joins_kept_items
           sample_fromstring doc_full_text doc_full_records []).
  - reflexivity.
  - left. reflexivity.
Defined.

(** The example of the specification: the empty item is dropped and the
    separator stands between the two items that are kept.  The sample
    document has these three items. *)
Lemma work_description_example :
  str_join " | " (kept_texts [Some "Boiler install"; Some ""; Some "Flue check"])
  = "Boiler install | Flue check"
  /\ str_join " | " (kept_texts [Some "Boiler install"; None; Some "Flue check"])
     = "Boiler install | Flue check"
  /\ dict_get doc_full_first_record "work_description"
     = Some (VStr "Boiler install | Flue check").
Proof.
  repeat split.
Qed.

(** The separator stands between two items and nowhere else. *)
Lemma str_join_cons (sep x y : string) (rest : list string) :
  str_join sep (x :: y :: rest) = (x ++ sep ++ str_join sep (y :: rest))%string.
Proof. reflexivity. Qed.

Lemma str_join_one (sep x : string) : str_join sep [x] = x.
Proof. reflexivity. Qed.

(** ** The county *)

(** C8, as amended.  Every record that the extractor returns was built
    from a building record; when that element has a work address (a
    [WorkAddress] under its [WorkAddressDetails]), the county stored is
    the text of the [County] element in title case if the element is
    present with a text that is not empty, and the empty string if the
    element is absent or its text is empty; when there is no work address,
    the record has no county field.  Title case puts, in the place of
    each code point of the text, its title case when it starts a word and
    its lower case when it does not, a word being a run of cased code
    points.  On a text of ASCII this puts the first letter of each run of
    letters in upper case and every other letter in lower case, and keeps
    everything else: "west yorkshire" gives "West Yorkshire".  Outside
    ASCII the case mappings are those of Unicode, which can change the
    length of the text: "ynys môn" gives "Ynys Môn", and the sharp s
    alone gives "Ss". *)
Theorem county_title_case_under_work_address
        (fromstring : string -> outcome Element) (xml_content : string)
        (records : list dict) (log : list diagnostic) (r : dict) :
  parse_building_record_xml fromstring xml_content = (Return records, log) ->
  In r records ->
  (exists root building_record,
      fromstring xml_content = Return root
      /\ In building_record (findall root "BuildingRecord")
      /\ match descend building_record ["WorkAddressDetails"; "WorkAddress"] with
         | Some work_address =>
             match find work_address "County" with
             | Some county_element =>
                 match text county_element with
                 | Some t =>
                     if t =? "" then dict_get r "county" = Some (VStr "")
                     else dict_get r "county" = Some (VStr (str_title t))
                 | None => dict_get r "county" = Some (VStr "")
                 end
             | None => dict_get r "county" = Some (VStr "")
             end
         | None => dict_get r "county" = None
         end)
  /\ (forall (t : string) (cps : list N),
        utf8_decode t = Some cps ->
        str_title t = utf8_encode (title_case cps))
  /\ (forall t : string,
        all_chars is_ascii t = true ->
        String.length (str_title t) = String.length t
        /\ forall (i : nat) (c : ascii),
             String.get i t = Some c ->
             String.get i (str_title t)
             = Some (if ascii_starts_word t i
                     then ascii_upper c else ascii_lower c))
  /\ str_title "west yorkshire" = "West Yorkshire"
  /\ str_title "ynys môn" = "Ynys Môn"
  /\ str_title "ß" = "Ss".
Proof.
  intros H Hr. split; [| split; [| split; [| split; [| split]]]].
  - destruct (returned_record_shape _ _ _ _ _ H Hr)
      as (root & g & br & Hroot & Hg & Hbr & [_ _ _ Hc _ _]).
    exists root, br. repeat (split; [assumption |]).
    destruct (descend br ["WorkAddressDetails"; "WorkAddress"]) as [wa |];
      [| assumption].
    rewrite Hc. unfold county_value, has_text, text_or_empty, truthy.
    destruct (find wa "County") as [c |]; [| reflexivity].
    destruct (text c) as [t |]; [| reflexivity].
    destruct (t =? ""); reflexivity.
  - apply str_title_positions.
  - apply str_title_ascii.
  - vm_compute. reflexivity.
  - vm_compute. reflexivity.
  - vm_compute. reflexivity.
Qed.

Lemma county_title_case_under_work_address_witness :
  exists root building_record,
    sample_fromstring doc_full_text = Return root
    /\ In building_record (findall root "BuildingRecord")
    /\ match descend building_record ["WorkAddressDetails"; "WorkAddress"] with
       | Some work_address =>
           match find work_address "County" with
           | Some county_element =>
               match text county_element with
               | Some t =>
                   if t =? ""
                   then dict_get doc_full_first_record "county" = Some (VStr "")
                   else dict_get doc_full_first_record "county"
                        = Some (VStr (str_title t))
               | None => dict_get doc_full_first_record "county" = Some (VStr "")
               end
           | None => dict_get doc_full_first_record "county" = Some (VStr "")
           end
       | None => dict_get doc_full_first_record "county" = None
       end.
Proof.
  apply (proj1 (county_title_case_under_work_address
                  sample_fromstring doc_full_text doc_full_records []
                  doc_full_first_record eq_refl (or_introl eq_refl))).
Defined.

(** C8, as stated, fails: a building record without work address has no
    county element, and its record holds no county at all, so not the
    empty string. *)
Lemma county_missing_without_work_address :
  sample_fromstring doc_bare_text = Return doc_bare
  /\ findall doc_bare "BuildingRecord" = [Elem "BuildingRecord" None []]
  /\ returned (parse_building_record_xml sample_fromstring doc_bare_text)
     = [doc_bare_record]
  /\ dict_get doc_bare_record "county" <> Some (VStr "").
Proof.
  repeat split. discriminate.
Qed.

(** The county of the first record of the sample document, and the title
    case of texts with an apostrophe, with a digit, with a letter outside
    ASCII, with a letter whose title case is two letters, and with the
    two lower cases of the capital sigma. *)
Lemma county_example :
  dict_get doc_full_first_record "county" = Some (VStr "West Yorkshire")
  /\ str_title "WEST yorkSHIRE" = "West Yorkshire"
  /\ str_title "o'neil 1st" = "O'Neil 1St"
  /\ str_title "ynys môn" = "Ynys Môn"
  /\ str_title "ÎLE-DE-FRANCE" = "Île-De-France"
  /\ str_title "ßen" = "Ssen"
  /\ str_title "ΟΔΟΣ ΣΟΦΟΣ" = "Οδος Σοφος".
Proof.
  vm_compute. repeat split.
Qed.

(** ** The aggregator *)

Lemma add_to_nil (st : state) : add_to st ([], []) = st.
Proof.
  destruct st. unfold add_to. simpl. now rewrite !app_nil_r.
Qed.

Lemma add_to_add_to (st : state) (c1 c2 : list dict * list diagnostic) :
  add_to (add_to st c1) c2 = add_to st (fst c1 ++ fst c2, snd c1 ++ snd c2).
Proof.
  unfold add_to. simpl. now rewrite !app_assoc.
Qed.

Section AggregatorFacts.

Variable fromstring : string -> outcome Element.
Variable open_zip : list Byte.byte -> outcome ZipFile.
Variable decode_utf8 : list Byte.byte -> outcome string.

(** The extraction of one document and the tagging of its records. *)
Lemma process_document_run (file_name xml_content : string) (st : state) :
  (records <~ call_parse fromstring xml_content ;;
   extend (tag_source file_name records)) st
  = (Return tt,
     add_to st (document_contribution fromstring file_name xml_content)).
Proof.
  unfold bindM, call_parse, extend, add_to, document_contribution, returned.
  destruct (parse_returns fromstring xml_content) as (rs & log & E).
  rewrite E. reflexivity.
Qed.

(** One name of the archive. *)
Lemma process_entry_run (zip_ref : ZipFile) (file_name : string) (st : state) :
  process_entry fromstring decode_utf8 zip_ref file_name st
  = if is_xml file_name then
      match read_entry decode_utf8 zip_ref file_name with
      | Return xml_content =>
          (Return tt,
           add_to st (document_contribution fromstring file_name xml_content))
      | Raise e => (Raise e, st)
      end
    else (Return tt, st).
Proof.
  unfold process_entry, is_xml, read_entry.
  destruct (str_endswith file_name ".xml"); [| reflexivity].
  unfold bindM at 1, lift at 1.
  destruct (open_read zip_ref file_name) as [data | e]; [| reflexivity].
  unfold bindM at 1, lift at 1. simpl bind.
  destruct (decode_utf8 data) as [xml | e]; [| reflexivity].
  apply process_document_run.
Qed.

(** The loop over the names of an archive: the entries before the first
    failure are processed, and that failure leaves the loop. *)
Lemma process_entries_run (zip_ref : ZipFile) (names : list string) :
  forall st,
    for_each (process_entry fromstring decode_utf8 zip_ref) names st
    = (match snd (processed_entries decode_utf8 zip_ref (filter is_xml names)) with
       | None => Return tt
       | Some e => Raise e
       end,
       add_to st
         (entries_contribution fromstring
            (fst (processed_entries decode_utf8 zip_ref (filter is_xml names))))).
Proof.
  induction names as [| n names IH]; intros st.
  - simpl. now rewrite add_to_nil.
  - cbn [for_each filter]. unfold bindM. rewrite process_entry_run.
    destruct (is_xml n).
    + cbn [processed_entries].
      destruct (read_entry decode_utf8 zip_ref n) as [xml | e].
      * rewrite IH.
        destruct (processed_entries decode_utf8 zip_ref (filter is_xml names))
          as [entries failure].
        simpl. now rewrite add_to_add_to.
      * simpl. now rewrite add_to_nil.
    + apply IH.
Qed.

(** One uploaded file: whatever happens, the statement ends normally and
    the state has grown by the contribution of the file. *)
Lemma process_file_run (uploaded_file : UploadedFile) (st : state) :
  process_file fromstring open_zip decode_utf8 uploaded_file st
  = (Return tt,
     add_to st (source_contribution fromstring open_zip decode_utf8 uploaded_file)).
Proof.
  unfold process_file, try_except, source_contribution.
  destruct (str_endswith (name uploaded_file) ".zip").
  - unfold bindM at 1, lift at 1.
    destruct (open_zip (content uploaded_file)) as [zip_ref | e].
    + rewrite process_entries_run.
      destruct (processed_entries decode_utf8 zip_ref
                  (filter is_xml (namelist zip_ref)))
        as [entries [e |]]; simpl.
      * unfold st_error, add_to. simpl. now rewrite app_assoc.
      * now rewrite app_nil_r.
    + unfold st_error, add_to. simpl. now rewrite app_nil_r.
  - unfold bindM at 1, lift at 1.
    destruct (decode_utf8 (content uploaded_file)) as [xml | e].
    + rewrite process_document_run. reflexivity.
    + unfold st_error, add_to. simpl. now rewrite app_nil_r.
Qed.

Lemma process_files_run (uploaded_files : list UploadedFile) :
  forall st,
    for_each (process_file fromstring open_zip decode_utf8) uploaded_files st
    = (Return tt,
       add_to st
         (flat_map (fun f => fst (source_contribution fromstring open_zip
                                    decode_utf8 f)) uploaded_files,
          flat_map (fun f => snd (source_contribution fromstring open_zip
                                    decode_utf8 f)) uploaded_files)).
Proof.
  induction uploaded_files as [| f files IH]; intros st.
  - simpl. now rewrite add_to_nil.
  - cbn [for_each flat_map]. unfold bindM.
    rewrite process_file_run, IH. now rewrite add_to_add_to.
Qed.

(** The aggregator returns the contributions of the files, one after the
    other. *)
Lemma process_uploaded_files_run (uploaded_files : list UploadedFile) :
  process_uploaded_files fromstring open_zip decode_utf8 uploaded_files
  = (Return (flat_map (fun f => fst (source_contribution fromstring open_zip
                                       decode_utf8 f)) uploaded_files),
     flat_map (fun f => snd (source_contribution fromstring open_zip
                               decode_utf8 f)) uploaded_files).
Proof.
  unfold process_uploaded_files. rewrite process_files_run. reflexivity.
Qed.

End AggregatorFacts.

(** ** What the aggregator returns *)

(** The entries that are processed are those before the first entry that
    cannot be read or decoded, each with the text read from it; they are
    all the entries when every one can be read and decoded. *)
Lemma processed_entries_spec
      (decode_utf8 : list Byte.byte -> outcome string)
      (zip_ref : ZipFile) (xml_names : list string) :
  forall entries failure,
    processed_entries decode_utf8 zip_ref xml_names = (entries, failure) ->
    Forall (fun entry => read_entry decode_utf8 zip_ref (fst entry)
                         = Return (snd entry)) entries
    /\ match failure with
       | None => map fst entries = xml_names
       | Some e =>
           exists file_name rest,
             xml_names = map fst entries ++ file_name :: rest
             /\ read_entry decode_utf8 zip_ref file_name = Raise e
       end.
Proof.
  induction xml_names as [| n names IH]; simpl; intros entries failure H.
  - injection H as <- <-. split; [constructor | reflexivity].
  - destruct (read_entry decode_utf8 zip_ref n) as [xml | e] eqn:E.
    + destruct (processed_entries decode_utf8 zip_ref names) as [l f].
      injection H as <- <-.
      destruct (IH l f eq_refl) as [Hall Hf]. split.
      * constructor; [exact E | exact Hall].
      * destruct f as [e |].
        -- destruct Hf as (n' & rest & -> & Hn'). exists n', rest. auto.
        -- simpl. now rewrite Hf.
    + injection H as <- <-. split; [constructor |].
      exists n, names. auto.
Qed.

Lemma processed_entries_all
      (decode_utf8 : list Byte.byte -> outcome string)
      (zip_ref : ZipFile) (xml_names : list string) :
  (forall n, In n xml_names ->
             exists xml, read_entry decode_utf8 zip_ref n = Return xml) ->
  processed_entries decode_utf8 zip_ref xml_names
  = (map (fun n => (n, entry_text decode_utf8 zip_ref n)) xml_names, None).
Proof.
  induction xml_names as [| n names IH]; simpl; intros H; [reflexivity |].
  unfold entry_text at 1.
  destruct (H n (or_introl eq_refl)) as [xml ->].
  rewrite IH by auto. reflexivity.
Qed.

Lemma tag_source_source_file (file_name : string) (records : list dict) (r : dict) :
  In r (tag_source file_name records) ->
  dict_get r "source_file" = Some (VStr file_name)
  /\ exists r0, In r0 records /\ r = dict_set r0 "source_file" (VStr file_name).
Proof.
  unfold tag_source. intros H. apply in_map_iff in H as (r0 & <- & Hr0).
  split; [apply dict_get_set_same | eauto].
Qed.

(** Every record of a contribution is a record of the extractor, for some
    document, to which the name of a file was added. *)
Lemma source_record_origin
      (fromstring : string -> outcome Element)
      (open_zip : list Byte.byte -> outcome ZipFile)
      (decode_utf8 : list Byte.byte -> outcome string)
      (uploaded_file : UploadedFile) (r : dict) :
  In r (fst (source_contribution fromstring open_zip decode_utf8 uploaded_file)) ->
  exists file_name xml_content r0,
    In r0 (returned (parse_building_record_xml fromstring xml_content))
    /\ r = dict_set r0 "source_file" (VStr file_name).
Proof.
  unfold source_contribution.
  destruct (str_endswith (name uploaded_file) ".zip").
  - destruct (open_zip (content uploaded_file)) as [z | e]; [| contradiction].
    destruct (processed_entries decode_utf8 z (filter is_xml (namelist z)))
      as [entries failure].
    simpl. intros H. apply in_flat_map in H as ([n xml] & _ & H).
    apply tag_source_source_file in H as (_ & r0 & Hr0 & ->).
    exists n, xml, r0. auto.
  - destruct (decode_utf8 (content uploaded_file)) as [xml | e]; [| contradiction].
    simpl. intros H.
    apply tag_source_source_file in H as (_ & r0 & Hr0 & ->).
    exists (name uploaded_file), xml, r0. auto.
Qed.



(** C4, as amended.  The aggregator never raises, and what it returns is
    the contributions of the sources one after the other, each source
    contributing what it contributes whatever happens to the others.  A
    plain file that cannot be decoded or whose text cannot be parsed, and
    an archive that cannot be opened, contribute no record and one
    diagnostic.  An archive in which an entry cannot be read or decoded
    contributes the records of the entries before that entry, not those
    of the entries after it, and one diagnostic for the archive. *)
Theorem aggregate_collects_every_source
        (fromstring : string -> outcome Element)
        (open_zip : list Byte.byte -> outcome ZipFile)
        (decode_utf8 : list Byte.byte -> outcome string) :
  (forall uploaded_files,
      process_uploaded_files fromstring open_zip decode_utf8 uploaded_files
      = (Return (flat_map (fun f => fst (source_contribution fromstring open_zip
                                           decode_utf8 f)) uploaded_files),
         flat_map (fun f => snd (source_contribution fromstring open_zip
                                   decode_utf8 f)) uploaded_files))
  /\ (forall f e,
        str_endswith (name f) ".zip" = false ->
        decode_utf8 (content f) = Raise e ->
        source_contribution fromstring open_zip decode_utf8 f
        = ([], [ErrorProcessingFile (name f) e]))
  /\ (forall f xml_content e,
        str_endswith (name f) ".zip" = false ->
        decode_utf8 (content f) = Return xml_content ->
        fromstring xml_content = Raise e ->
        source_contribution fromstring open_zip decode_utf8 f
        = ([], [if is_ParseError e then XmlParsingError e
                else ErrorProcessingXml e]))
  /\ (forall f e,
        str_endswith (name f) ".zip" = true ->
        open_zip (content f) = Raise e ->
        source_contribution fromstring open_zip decode_utf8 f
        = ([], [ErrorProcessingFile (name f) e]))
  /\ (forall f zip_ref entries e,
        str_endswith (name f) ".zip" = true ->
        open_zip (content f) = Return zip_ref ->
        processed_entries decode_utf8 zip_ref (filter is_xml (namelist zip_ref))
        = (entries, Some e) ->
        source_contribution fromstring open_zip decode_utf8 f
        = (fst (entries_contribution fromstring entries),
           snd (entries_contribution fromstring entries)
           ++ [ErrorProcessingFile (name f) e])
        /\ exists file_name rest,
             filter is_xml (namelist zip_ref)
             = map fst entries ++ file_name :: rest
             /\ read_entry decode_utf8 zip_ref file_name = Raise e).
Proof.
  split; [apply process_uploaded_files_run |].
  split; [| split; [| split]].
  - intros f e Hzip He. unfold source_contribution. now rewrite Hzip, He.
  - intros f xml e Hzip Hxml He. unfold source_contribution.
    rewrite Hzip, Hxml. unfold document_contribution, returned.
    rewrite (parse_failure fromstring xml e) by (rewrite He; reflexivity).
    reflexivity.
  - intros f e Hzip He. unfold source_contribution. now rewrite Hzip, He.
  - intros f z entries e Hzip Hz He. split.
    + unfold source_contribution. now rewrite Hzip, Hz, He.
    + apply (processed_entries_spec _ _ _ _ _ He).
Qed.

Lemma aggregate_collects_every_source_witness :
  sample_contribution undecodable_xml
  = ([], [ErrorProcessingFile "latin.xml"
            (UnicodeDecodeError
               "'utf-8' codec can't decode byte 0xff in position 0: invalid start byte")]).
Proof.
  apply (proj1 (proj2 (aggregate_collects_every_source
                         sample_fromstring sample_open_zip sample_decode_utf8))
           undecodable_xml); reflexivity.
Defined.

(** The batch of the specification: a document with three records and a
    malformed one give three records and one diagnostic; so do they with a
    file that cannot be decoded and a file that is no archive between
    them, each giving one more diagnostic. *)
Lemma aggregate_example :
  (exists r1 r2 r3,
      sample_aggregate [full_xml; unclosed_xml]
      = (Return [r1; r2; r3],
         [XmlParsingError (ParseError "no element found: line 1, column 12")]))
  /\ (exists r1 r2 r3 d1 d2 d3,
        sample_aggregate [unclosed_xml; undecodable_xml; not_a_zip; full_xml]
        = (Return [r1; r2; r3], [d1; d2; d3])).
Proof.
  split; repeat eexists; reflexivity.
Qed.

(** C4, as stated, fails: the second entry of the archive cannot be
    decoded, so the source fails to decode and a diagnostic is reported
    for it, yet it contributes the record of its first entry (and nothing
    for its third entry, which can be read). *)
Lemma failing_archive_keeps_earlier_entries :
  sample_open_zip (content broken_zip) = Return broken_archive
  /\ filter is_xml (namelist broken_archive) = ["a.xml"; "b.xml"; "c.xml"]
  /\ read_entry sample_decode_utf8 broken_archive "a.xml" = Return doc_bare_text
  /\ read_entry sample_decode_utf8 broken_archive "c.xml" = Return doc_bare_text
  /\ read_entry sample_decode_utf8 broken_archive "b.xml"
  = Raise (UnicodeDecodeError
             "'utf-8' codec can't decode byte 0xff in position 0: invalid start byte")
  /\ sample_aggregate [broken_zip]
     = (Return [dict_set doc_bare_record "source_file" (VStr "a.xml")],
        [ErrorProcessingFile "batch.zip"
           (UnicodeDecodeError
              "'utf-8' codec can't decode byte 0xff in position 0: invalid start byte")])
  /\ returned (sample_aggregate [broken_zip]) <> [].
Proof.
  repeat split. discriminate.
Qed.

(** C6, as amended.  The records returned are those of the sources, in
    the order of the sources.  An archive that opens contributes, for the
    entries with the suffix .xml in the order of [namelist()] up to the
    first of them that cannot be read or decoded (for all of them when
    there is none), the records that the extractor returns for the text
    of the entry, in that order; a plain file that can be decoded
    contributes the records of its text.  Each record is tagged with the
    name of its entry, or of its file for a plain file. *)
Theorem archive_entries_tagged_in_order
        (fromstring : string -> outcome Element)
        (open_zip : list Byte.byte -> outcome ZipFile)
        (decode_utf8 : list Byte.byte -> outcome string) :
  (forall uploaded_files,
      returned (process_uploaded_files fromstring open_zip decode_utf8
                  uploaded_files)
      = flat_map (fun f => fst (source_contribution fromstring open_zip
                                  decode_utf8 f)) uploaded_files)
  /\ (forall f zip_ref entries failure,
        str_endswith (name f) ".zip" = true ->
        open_zip (content f) = Return zip_ref ->
        processed_entries decode_utf8 zip_ref (filter is_xml (namelist zip_ref))
        = (entries, failure) ->
        fst (source_contribution fromstring open_zip decode_utf8 f)
        = flat_map
            (fun entry =>
               tag_source (fst entry)
                 (returned (parse_building_record_xml fromstring (snd entry))))
            entries
        /\ Forall (fun entry => read_entry decode_utf8 zip_ref (fst entry)
                                = Return (snd entry)) entries
        /\ match failure with
           | None => map fst entries = filter is_xml (namelist zip_ref)
           | Some e =>
               exists file_name rest,
                 filter is_xml (namelist zip_ref)
                 = map fst entries ++ file_name :: rest
                 /\ read_entry decode_utf8 zip_ref file_name = Raise e
           end)
  /\ (forall f xml_content,
        str_endswith (name f) ".zip" = false ->
        decode_utf8 (content f) = Return xml_content ->
        fst (source_contribution fromstring open_zip decode_utf8 f)
        = tag_source (name f)
            (returned (parse_building_record_xml fromstring xml_content)))
  /\ (forall file_name records r,
        In r (tag_source file_name records) ->
        dict_get r "source_file" = Some (VStr file_name)).
Proof.
  split; [| split; [| split]].
  - intros files. rewrite process_uploaded_files_run. reflexivity.
  - intros f z entries failure Hzip Hz He. split.
    + unfold source_contribution. rewrite Hzip, Hz, He. reflexivity.
    + apply (processed_entries_spec _ _ _ _ _ He).
  - intros f xml Hzip Hxml. unfold source_contribution.
    rewrite Hzip, Hxml. reflexivity.
  - intros n records r H. apply (tag_source_source_file _ _ _ H).
Qed.

Lemma archive_entries_tagged_in_order_witness :
  fst (sample_contribution good_zip)
  = flat_map
      (fun entry =>
         tag_source (fst entry)
           (returned (parse_building_record_xml sample_fromstring (snd entry))))
      [("first.xml", doc_bare_text); ("second.xml", doc_full_text)]
  /\ Forall (fun entry => read_entry sample_decode_utf8 good_archive (fst entry)
                          = Return (snd entry))
            [("first.xml", doc_bare_text); ("second.xml", doc_full_text)]
  /\ map fst [("first.xml", doc_bare_text); ("second.xml", doc_full_text)]
     = filter is_xml (namelist good_archive).
Proof.
  apply (proj1 (proj2 (archive_entries_tagged_in_order
                         sample_fromstring sample_open_zip sample_decode_utf8))
           good_zip good_archive
           [("first.xml", doc_bare_text); ("second.xml", doc_full_text)] None);
    reflexivity.
Defined.

(** The archive of the specification: two entries with the suffix .xml;
    the records carry the names of the entries, not the name of the
    archive, those of the first entry before those of the second. *)
Lemma archive_example :
  map (fun r => dict_get r "source_file") (returned (sample_aggregate [good_zip]))
  = [Some (VStr "first.xml"); Some (VStr "second.xml");
     Some (VStr "second.xml"); Some (VStr "second.xml")]
  /\ map (fun r => dict_get r "source_file")
         (returned (sample_aggregate [bare_xml; good_zip; full_xml]))
     = [Some (VStr "bare.xml");
        Some (VStr "first.xml"); Some (VStr "second.xml");
        Some (VStr "second.xml"); Some (VStr "second.xml");
        Some (VStr "full.xml"); Some (VStr "full.xml"); Some (VStr "full.xml")].
Proof.
  split; reflexivity.
Qed.

(** C6, as stated, fails: the third entry of the archive has the suffix
    .xml, can be read and decoded, and holds a document with one building
    record, yet the aggregator does not process it, because the second
    entry cannot be decoded: no record returned carries its name. *)
Lemma entries_after_failure_skipped :
  sample_open_zip (content broken_zip) = Return broken_archive
  /\ In "c.xml" (filter is_xml (namelist broken_archive))
  /\ read_entry sample_decode_utf8 broken_archive "c.xml" = Return doc_bare_text
  /\ length (returned (parse_building_record_xml sample_fromstring doc_bare_text))
     = 1
  /\ ~ (exists r,
          In r (returned (sample_aggregate [broken_zip]))
          /\ dict_get r "source_file" = Some (VStr "c.xml")).
Proof.
  split; [reflexivity |]. split; [right; right; left; reflexivity |].
  split; [reflexivity |]. split; [reflexivity |].
  intros (r & [<- | []] & H). discriminate H.
Qed.

(** ** Further properties of the extractor *)

(** The loop body returns exactly when the UPRN is accepted. *)
Lemma build_record_returns (g : global_fields) (building_record : Element) :
  uprn_accepted building_record = true <->
  exists r, build_record g building_record = Return r.
Proof.
  assert (Hyes : forall (b : bool) (o : outcome dict) (r : dict),
             b = true -> o = Return r -> (b = true <-> exists r, o = Return r)).
  { intros b o r -> ->. split; eauto. }
  unfold uprn_accepted, build_record, set_work_address_details.
  destruct (find building_record "WorkAddressDetails") as [wad |];
    [| eapply Hyes; reflexivity].
  destruct (str_isdigit (uprn_text wad)) eqn:Hd.
  - destruct (is_integer_literal (uprn_text wad)) eqn:Hn.
    + unfold uprn_value. rewrite Hd.
      destruct (int_of_str_literal _ Hn) as (cps & _ & ->).
      eapply Hyes; reflexivity.
    + rewrite (uprn_value_raises _ Hd Hn). simpl.
      split; [discriminate | intros [r H]; discriminate H].
  - rewrite (uprn_value_not_digits _ Hd). eapply Hyes; reflexivity.
Qed.

(** The loop body raises only at the UPRN, with the exception of [int]. *)
Lemma build_record_raises (g : global_fields) (building_record : Element) (e : exn) :
  build_record g building_record = Raise e ->
  exists wad,
    find building_record "WorkAddressDetails" = Some wad
    /\ str_isdigit (uprn_text wad) = true
    /\ e = ValueError (uprn_error_message (uprn_text wad)).
Proof.
  unfold build_record, set_work_address_details.
  destruct (find building_record "WorkAddressDetails") as [wad |];
    [| discriminate].
  destruct (str_isdigit (uprn_text wad)) eqn:Hd.
  - destruct (is_integer_literal (uprn_text wad)) eqn:Hn.
    + unfold uprn_value. rewrite Hd.
      destruct (int_of_str_literal _ Hn) as (cps & _ & ->). discriminate.
    + rewrite (uprn_value_raises _ Hd Hn). simpl.
      intros H. injection H as <-. eauto.
  - rewrite (uprn_value_not_digits _ Hd). discriminate.
Qed.

(** The two messages of [int]. *)
Lemma uprn_error_message_cases (t : string) :
  (leading_decimal_count t <= 4300
   /\ uprn_error_message t = invalid_literal_message t)
  \/ (4300 < leading_decimal_count t
      /\ uprn_error_message t
         = exceeds_limit_message (leading_decimal_count t)).
Proof.
  unfold uprn_error_message.
  destruct (4300 <? leading_decimal_count t)%nat eqn:E.
  - right. split; [apply Nat.ltb_lt, E | reflexivity].
  - left. split; [apply Nat.ltb_ge, E | reflexivity].
Qed.

Lemma mapM_returns {A B} (f : A -> outcome B) (l : list A) :
  (forall x, In x l -> exists y, f x = Return y) ->
  exists l', mapM f l = Return l'.
Proof.
  induction l as [| x l IH]; simpl; intros H; [eauto |].
  destruct (H x (or_introl eq_refl)) as [y ->]. simpl.
  destruct IH as [l' ->]; [auto |]. simpl. eauto.
Qed.

(** The first exception of the loop is the one that leaves it. *)
Lemma mapM_first_Raise {A B} (f : A -> outcome B) (l1 l2 : list A) (x : A) (e : exn) :
  (forall y, In y l1 -> exists b, f y = Return b) ->
  f x = Raise e ->
  mapM f (l1 ++ x :: l2) = Raise e.
Proof.
  induction l1 as [| y l1 IH]; simpl; intros Hl1 Hx.
  - rewrite Hx. reflexivity.
  - destruct (Hl1 y (or_introl eq_refl)) as [b ->]. simpl.
    rewrite IH by auto. reflexivity.
Qed.

Lemma mapM_Raise_inv {A B} (f : A -> outcome B) (l : list A) (e : exn) :
  mapM f l = Raise e ->
  exists l1 x l2,
    l = l1 ++ x :: l2
    /\ (forall y, In y l1 -> exists b, f y = Return b)
    /\ f x = Raise e.
Proof.
  induction l as [| y l IH]; simpl; [discriminate |].
  destruct (f y) as [b | e0] eqn:Hy; simpl.
  - destruct (mapM f l) as [bs | e1]; simpl; [discriminate |].
    intros H. injection H as ->.
    destruct (IH eq_refl) as (l1 & x & l2 & -> & Hl1 & Hx).
    exists (y :: l1), x, l2. repeat split; [| assumption].
    intros z [<- | Hz]; eauto.
  - intros H. injection H as ->. exists [], y, l. repeat split; [| assumption].
    intros z [].
Qed.

(** The [try] block ran to its end: the text was parsed, the global
    details were read and the loop built one record for each building
    record. *)
Lemma try_block_returns
      (fromstring : string -> outcome Element) (xml_content : string)
      (records : list dict) :
  (root <- fromstring xml_content ;; extract_records root) = Return records ->
  exists root g,
    fromstring xml_content = Return root
    /\ read_global_details root = Return g
    /\ Forall2 (fun building_record r =>
                  build_record g building_record = Return r)
               (findall root "BuildingRecord") records
    /\ parse_building_record_xml fromstring xml_content = (Return records, []).
Proof.
  intros H.
  destruct (fromstring xml_content) as [root | e] eqn:Hroot; [| discriminate H].
  simpl in H. unfold extract_records in H.
  destruct (bind_Return _ _ _ H) as (g & Hg & Hmap).
  exists root, g. repeat split; [assumption | |].
  - apply mapM_Forall2. assumption.
  - apply (parse_success fromstring xml_content root); [assumption |].
    unfold extract_records. rewrite Hg. assumption.
Qed.

(** The two ways in which the extraction of a document ends. *)
Lemma extraction_cases
        (fromstring : string -> outcome Element) (xml_content : string) :
  (exists root g records,
      fromstring xml_content = Return root
      /\ read_global_details root = Return g
      /\ Forall2 (fun building_record r =>
                    build_record g building_record = Return r)
                 (findall root "BuildingRecord") records
      /\ parse_building_record_xml fromstring xml_content = (Return records, []))
  \/ (exists d,
        parse_building_record_xml fromstring xml_content = (Return [], [d])).
Proof.
  destruct (root <- fromstring xml_content ;; extract_records root)
    as [records | e] eqn:H.
  - left. destruct (try_block_returns _ _ _ H) as (root & g & ? & ? & ? & ?).
    exists root, g, records. auto.
  - right. rewrite (parse_failure _ _ _ H). eauto.
Qed.

(** X1.  The extraction of a document is all or nothing.  Either the
    text parses, the global details are read and every building record
    gives its record: then the records returned are those of the
    [BuildingRecord] children of the root, one for each, in document
    order, and nothing is reported.  Or no record is returned and exactly
    one diagnostic is reported. *)
Theorem extraction_all_or_nothing
        (fromstring : string -> outcome Element) (xml_content : string) :
  (exists root g records,
      fromstring xml_content = Return root
      /\ read_global_details root = Return g
      /\ Forall2 (fun building_record r =>
                    build_record g building_record = Return r)
                 (findall root "BuildingRecord") records
      /\ parse_building_record_xml fromstring xml_content = (Return records, []))
  \/ (exists d,
        parse_building_record_xml fromstring xml_content = (Return [], [d])).
Proof.
  destruct (root <- fromstring xml_content ;; extract_records root)
    as [records | e] eqn:H.
  - left. destruct (try_block_returns _ _ _ H) as (root & g & ? & ? & ? & ?).
    exists root, g, records. auto.
  - right. rewrite (parse_failure _ _ _ H). eauto.
Qed.

(** X2.  For a text that parses, the extraction reports nothing exactly
    when the root has a [GlobalDetails] child and the UPRN of every
    building record is accepted; it then returns as many records as the
    root has [BuildingRecord] children. *)
Theorem extraction_succeeds_iff
        (fromstring : string -> outcome Element) (xml_content : string)
        (root : Element) :
  fromstring xml_content = Return root ->
  (snd (parse_building_record_xml fromstring xml_content) = []
   <-> find root "GlobalDetails" <> None
       /\ forallb uprn_accepted (findall root "BuildingRecord") = true)
  /\ (snd (parse_building_record_xml fromstring xml_content) = [] ->
      length (returned (parse_building_record_xml fromstring xml_content))
      = length (findall root "BuildingRecord")).
Proof.
  intros Hroot.
  destruct (extraction_cases fromstring xml_content)
    as [(root' & g & records & Hroot' & Hg & Hall & Hparse) | [d Hparse]].
  - assert (root' = root) by congruence. subst root'.
    rewrite Hparse. unfold returned. simpl. split; [split |].
    + intros _. split.
      * destruct (read_global_details_inv _ _ Hg) as (gd & -> & _). discriminate.
      * apply forallb_forall. intros br Hbr.
        apply (build_record_returns g).
        clear Hparse. induction Hall as [| x y l l' Hxy _ IH];
          [contradiction |].
        destruct Hbr as [<- | Hbr]; eauto.
    + reflexivity.
    + intros _. symmetry. clear Hparse.
      induction Hall; simpl; congruence.
  - rewrite Hparse. simpl. split; [split |]; [discriminate | | discriminate].
    intros [Hgd Hacc]. exfalso.
    destruct (find root "GlobalDetails") as [gd |] eqn:Egd; [| congruence].
    destruct (read_global_details_present _ _ Egd) as (g & Hg & _).
    destruct (mapM_returns (build_record g) (findall root "BuildingRecord"))
      as [records Hrecords].
    { intros br Hbr. apply build_record_returns.
      apply (proj1 (forallb_forall _ _) Hacc br Hbr). }
    rewrite (parse_success fromstring xml_content root records) in Hparse;
      [discriminate | assumption |].
    unfold extract_records. rewrite Hg. assumption.
Qed.

Lemma extraction_succeeds_iff_witness :
  snd (parse_building_record_xml sample_fromstring doc_full_text) = []
  /\ length (returned (parse_building_record_xml sample_fromstring doc_full_text))
     = length (findall doc_full "BuildingRecord").
Proof.
  pose proof (extraction_succeeds_iff sample_fromstring doc_full_text doc_full
                eq_refl) as [Hiff Hlen].
  assert (H : snd (parse_building_record_xml sample_fromstring doc_full_text) = []).
  { apply Hiff. split; [discriminate | reflexivity]. }
  split; [exact H | exact (Hlen H)].
Defined.

(** X3.  What can be reported for a text that parses: the missing
    [GlobalDetails]; or the UPRN of the first building record, in
    document order, that [isdigit] accepts and [int] does not read.
    [int] then raises in one of two ways.  When the text starts with more
    than 4300 code points that have a decimal value, the message gives
    their number.  Otherwise the message is the one of an invalid
    literal, with the text between quotes, cut after 200 code points.
    Nothing else makes the traversal fail. *)
Theorem traversal_diagnostics
        (fromstring : string -> outcome Element) (xml_content : string)
        (root : Element) (d : diagnostic) :
  fromstring xml_content = Return root ->
  In d (snd (parse_building_record_xml fromstring xml_content)) ->
  (find root "GlobalDetails" = None
   /\ d = ErrorProcessingXml
            (AttributeError "'NoneType' object has no attribute 'find'"))
  \/ (exists l1 building_record l2 wad,
        findall root "BuildingRecord" = l1 ++ building_record :: l2
        /\ forallb uprn_accepted l1 = true
        /\ uprn_accepted building_record = false
        /\ find building_record "WorkAddressDetails" = Some wad
        /\ str_isdigit (uprn_text wad) = true
        /\ ((leading_decimal_count (uprn_text wad) <= 4300
             /\ d = ErrorProcessingXml
                      (ValueError
                         ("invalid literal for int() with base 10: "
                          ++ str_prefix 200 ("'" ++ uprn_text wad ++ "'"))))
            \/ (4300 < leading_decimal_count (uprn_text wad)
                /\ d = ErrorProcessingXml
                         (ValueError
                            ("Exceeds the limit (4300 digits) for integer "
                             ++ "string conversion: value has "
                             ++ NilZero.string_of_uint
                                  (Nat.to_uint
                                     (leading_decimal_count (uprn_text wad)))
                             ++ " digits; use sys.set_int_max_str_digits() "
                             ++ "to increase the limit"))))).
Proof.
  intros Hroot Hd. unfold parse_building_record_xml in Hd.
  rewrite Hroot in Hd. simpl in Hd. unfold extract_records in Hd.
  destruct (find root "GlobalDetails") as [gd |] eqn:Egd.
  - right. destruct (read_global_details_present _ _ Egd) as (g & Hg & _).
    rewrite Hg in Hd. simpl in Hd.
    destruct (mapM (build_record g) (findall root "BuildingRecord"))
      as [records | e] eqn:Hmap; [contradiction |].
    destruct (mapM_Raise_inv _ _ _ Hmap) as (l1 & br & l2 & Hl & Hl1 & Hbr).
    destruct (build_record_raises _ _ _ Hbr) as (wad & Hwad & Hdigit & ->).
    simpl in Hd. destruct Hd as [<- | []].
    exists l1, br, l2, wad.
    split; [assumption |]. split; [| split; [| split; [| split]]].
    + apply forallb_forall. intros x Hx.
      apply (build_record_returns g). auto.
    + destruct (uprn_accepted br) eqn:E; [| reflexivity].
      apply (build_record_returns g) in E as [r Hr]. congruence.
    + assumption.
    + assumption.
    + destruct (uprn_error_message_cases (uprn_text wad))
        as [[Hle ->] | [Hlt ->]]; [left | right]; (split; [assumption |]);
        reflexivity.
  - left. split; [reflexivity |].
    unfold read_global_details in Hd. rewrite Egd in Hd. simpl in Hd.
    destruct Hd as [<- | []]. reflexivity.
Qed.

Lemma traversal_diagnostics_witness :
  let d := ErrorProcessingXml
             (ValueError ("invalid literal for int() with base 10: '"
                          ++ superscript_two ++ "'")) in
  (find doc_superscript_uprn "GlobalDetails" = None
   /\ d = ErrorProcessingXml
            (AttributeError "'NoneType' object has no attribute 'find'"))
  \/ (exists l1 building_record l2 wad,
        findall doc_superscript_uprn "BuildingRecord"
        = l1 ++ building_record :: l2
        /\ forallb uprn_accepted l1 = true
        /\ uprn_accepted building_record = false
        /\ find building_record "WorkAddressDetails" = Some wad
        /\ str_isdigit (uprn_text wad) = true
        /\ ((leading_decimal_count (uprn_text wad) <= 4300
             /\ d = ErrorProcessingXml
                      (ValueError
                         ("invalid literal for int() with base 10: "
                          ++ str_prefix 200 ("'" ++ uprn_text wad ++ "'"))))
            \/ (4300 < leading_decimal_count (uprn_text wad)
                /\ d = ErrorProcessingXml
                         (ValueError
                            ("Exceeds the limit (4300 digits) for integer "
                             ++ "string conversion: value has "
                             ++ NilZero.string_of_uint
                                  (Nat.to_uint
                                     (leading_decimal_count (uprn_text wad)))
                             ++ " digits; use sys.set_int_max_str_digits() "
                             ++ "to increase the limit"))))).
Proof.
  apply (traversal_diagnostics sample_fromstring doc_superscript_uprn_text
           doc_superscript_uprn).
  - reflexivity.
  - left. reflexivity.
Defined.

(** X17.  Of the building records whose UPRN [isdigit] accepts and [int]
    does not read, the first in document order decides what is reported:
    with the global details present, the one diagnostic is the
    [ValueError] of [int] on the text of that UPRN, and no record is
    returned, those of the building records before it neither.  The
    message of the error is that of an invalid literal, with the text
    between quotes, cut after 200 code points, unless the text starts
    with more than 4300 code points that have a decimal value: the
    message then gives their number. *)
Theorem first_rejected_uprn_reported
      (fromstring : string -> outcome Element) (xml_content : string)
      (root global_details : Element) (l1 l2 : list Element)
      (building_record wad : Element) :
  fromstring xml_content = Return root ->
  find root "GlobalDetails" = Some global_details ->
  findall root "BuildingRecord" = l1 ++ building_record :: l2 ->
  forallb uprn_accepted l1 = true ->
  uprn_accepted building_record = false ->
  find building_record "WorkAddressDetails" = Some wad ->
  parse_building_record_xml fromstring xml_content
  = (Return [],
     [ErrorProcessingXml
        (ValueError
           (if (4300 <? leading_decimal_count (uprn_text wad))%nat
            then "Exceeds the limit (4300 digits) for integer "
                 ++ "string conversion: value has "
                 ++ NilZero.string_of_uint
                      (Nat.to_uint (leading_decimal_count (uprn_text wad)))
                 ++ " digits; use sys.set_int_max_str_digits() "
                 ++ "to increase the limit"
            else "invalid literal for int() with base 10: "
                 ++ str_prefix 200 ("'" ++ uprn_text wad ++ "'")))]).
Proof.
  intros Hroot Hgd Hl Hl1 Hbr Hwad.
  destruct (read_global_details_present _ _ Hgd) as (g & Hg & _).
  apply (parse_failure fromstring xml_content
           (ValueError (uprn_error_message (uprn_text wad)))).
  rewrite Hroot. simpl. unfold extract_records. rewrite Hg, Hl. simpl.
  apply mapM_first_Raise.
  - intros y Hy. apply build_record_returns.
    apply (proj1 (forallb_forall _ _) Hl1 y Hy).
  - destruct (build_record g building_record) as [r | e] eqn:E.
    + assert (uprn_accepted building_record = true)
        by (apply (build_record_returns g); eauto).
      congruence.
    + destruct (build_record_raises _ _ _ E) as (wad' & Hwad' & _ & ->).
      rewrite Hwad in Hwad'. injection Hwad' as <-. reflexivity.
Qed.

Lemma first_rejected_uprn_reported_witness :
  parse_building_record_xml sample_fromstring doc_superscript_uprn_text
  = (Return [],
     [ErrorProcessingXml
        (ValueError ("invalid literal for int() with base 10: '"
                     ++ superscript_two ++ "'"))]).
Proof.
  apply (first_rejected_uprn_reported
           sample_fromstring doc_superscript_uprn_text doc_superscript_uprn
           (Elem "GlobalDetails" None []) [] []
           (Elem "BuildingRecord" None
              [Elem "WorkAddressDetails" None
                 [Elem "WorkAddressUprn" (Some superscript_two) []]])
           (Elem "WorkAddressDetails" None
              [Elem "WorkAddressUprn" (Some superscript_two) []]));
    reflexivity.
Defined.

(** X18.  For every record that the extractor returns, with the
    work-address details present: a UPRN text of the digits 0 to 9, one
    or more and at most 4300, is stored as the integer that the text is
    the decimal notation of, which is below ten to the number of digits;
    a text that [isdigit] rejects (the empty text, a text with a letter,
    a point, a sign or a blank) is stored as [None].  The integer is the
    one that the standard library reads from the text. *)
Theorem uprn_stored_for_digit_texts
        (fromstring : string -> outcome Element) (xml_content : string)
        (records : list dict) (log : list diagnostic) (r : dict) :
  parse_building_record_xml fromstring xml_content = (Return records, log) ->
  In r records ->
  exists root building_record,
    fromstring xml_content = Return root
    /\ In building_record (findall root "BuildingRecord")
    /\ match find building_record "WorkAddressDetails" with
       | Some wad =>
           (is_ascii_digits (uprn_text wad) = true ->
            String.length (uprn_text wad) <= 4300 ->
            exists u,
              NilZero.uint_of_string (uprn_text wad) = Some u
              /\ dict_get r "work_address_uprn"
                 = Some (VInt (Z.of_nat (Nat.of_uint u)))
              /\ (Z.of_nat (Nat.of_uint u)
                  < 10 ^ Z.of_nat (String.length (uprn_text wad)))%Z)
           /\ (str_isdigit (uprn_text wad) = false ->
               dict_get r "work_address_uprn" = Some VNone)
       | None => dict_get r "work_address_uprn" = None
       end.
Proof.
  intros H Hr.
  destruct (returned_record_shape _ _ _ _ _ H Hr)
    as (root & g & br & Hroot & Hg & Hbr & [_ _ _ _ Hu _]).
  exists root, br. repeat (split; [assumption |]).
  destruct (find br "WorkAddressDetails") as [wad |]; [| assumption].
  destruct Hu as (v & Hv & Hget). rewrite Hget. split.
  - intros Hd Hle.
    destruct (uprn_value_decimal _ Hd Hle) as (u & Hu & Hval & Hbound).
    exists u. split; [assumption |]. split; [congruence | assumption].
  - intros Hd. rewrite (uprn_value_not_digits _ Hd) in Hv. congruence.
Qed.

Lemma uprn_stored_for_digit_texts_witness :
  exists root building_record,
    sample_fromstring doc_full_text = Return root
    /\ In building_record (findall root "BuildingRecord")
    /\ match find building_record "WorkAddressDetails" with
       | Some wad =>
           (is_ascii_digits (uprn_text wad) = true ->
            String.length (uprn_text wad) <= 4300 ->
            exists u,
              NilZero.uint_of_string (uprn_text wad) = Some u
              /\ dict_get doc_full_first_record "work_address_uprn"
                 = Some (VInt (Z.of_nat (Nat.of_uint u)))
              /\ (Z.of_nat (Nat.of_uint u)
                  < 10 ^ Z.of_nat (String.length (uprn_text wad)))%Z)
           /\ (str_isdigit (uprn_text wad) = false ->
               dict_get doc_full_first_record "work_address_uprn"
               = Some VNone)
       | None => dict_get doc_full_first_record "work_address_uprn" = None
       end.
Proof.
  apply (uprn_stored_for_digit_texts
           sample_fromstring doc_full_text doc_full_records []).
  - reflexivity.
  - left. reflexivity.
Defined.

(** X4.  A leaf element that is present holds in the record the text of
    the element as it is, and [None], not the empty string, when the
    element has no text; so for the string leaves of the subsections and
    for the five global fields. *)
Theorem present_leaf_holds_its_text
        (fromstring : string -> outcome Element) (xml_content : string)
        (records : list dict) (log : list diagnostic) (r : dict) :
  parse_building_record_xml fromstring xml_content = (Return records, log) ->
  In r records ->
  exists root global_details building_record,
    fromstring xml_content = Return root
    /\ find root "GlobalDetails" = Some global_details
    /\ In building_record (findall root "BuildingRecord")
    /\ Forall (fun field : list string * string * string =>
                 forall subsection e,
                   descend building_record (fst (fst field)) = Some subsection ->
                   find subsection (snd (fst field)) = Some e ->
                   dict_get r (snd field)
                   = Some (match text e with
                           | Some s => VStr s
                           | None => VNone
                           end))
              leaf_fields
    /\ Forall (fun field : string * string =>
                 forall e,
                   find global_details (fst field) = Some e ->
                   dict_get r (snd field)
                   = Some (match text e with
                           | Some s => VStr s
                           | None => VNone
                           end))
              [("SenderCode", "sender_code");
               ("LocalAuthorityCode", "local_authority_code");
               ("SubmissionDate", "submission_date");
               ("SenderResponseEmailAddress", "sender_email");
               ("SenderResponsePhoneNo", "sender_phone")].
Proof.
  intros H Hr.
  destruct (returned_record_shape _ _ _ _ _ H Hr)
    as (root & g & br & Hroot & Hg & Hbr & [_ Hglob Hleaves _ _ _]).
  destruct (read_global_details_inv _ _ Hg)
    as (gd & Hgd & E1 & E2 & E3 & E4 & E5).
  exists root, gd, br. repeat (split; [assumption |]). split.
  - eapply Forall_impl; [| exact Hleaves].
    intros [[path leaf_tag] key] Hok sub e Hsub He. simpl in *.
    rewrite Hsub in Hok. destruct Hok as [Hget _].
    rewrite Hget. unfold leaf, text_value. rewrite He. reflexivity.
  - rewrite E1, E2, E3, E4, E5 in Hglob.
    destruct Hglob as (G1 & G2 & G3 & G4 & G5).
    repeat constructor; intros e He; simpl in *;
      [rewrite G1 | rewrite G2 | rewrite G3 | rewrite G4 | rewrite G5];
      unfold leaf, text_value; rewrite He; reflexivity.
Qed.

Lemma present_leaf_holds_its_text_witness :
  exists root global_details building_record,
    sample_fromstring doc_full_text = Return root
    /\ find root "GlobalDetails" = Some global_details
    /\ In building_record (findall root "BuildingRecord")
    /\ Forall (fun field : list string * string * string =>
                 forall subsection e,
                   descend building_record (fst (fst field)) = Some subsection ->
                   find subsection (snd (fst field)) = Some e ->
                   dict_get doc_full_first_record (snd field)
                   = Some (match text e with
                           | Some s => VStr s
                           | None => VNone
                           end))
              leaf_fields
    /\ Forall (fun field : string * string =>
                 forall e,
                   find global_details (fst field) = Some e ->
                   dict_get doc_full_first_record (snd field)
                   = Some (match text e with
                           | Some s => VStr s
                           | None => VNone
                           end))
              [("SenderCode", "sender_code");
               ("LocalAuthorityCode", "local_authority_code");
               ("SubmissionDate", "submission_date");
               ("SenderResponseEmailAddress", "sender_email");
               ("SenderResponsePhoneNo", "sender_phone")].
Proof.
  apply (present_leaf_holds_its_text
           sample_fromstring doc_full_text doc_full_records []).
  - reflexivity.
  - left. reflexivity.
Defined.

(** *** The keys and the types of the fields *)

Lemma dict_get_In_keys (d : dict) (k : string) (v : value) :
  dict_get d k = Some v -> In k (keys d).
Proof.
  unfold keys. induction d as [| [k0 v0] d IH]; simpl; [discriminate |].
  destruct (k0 =? k) eqn:E.
  - apply String.eqb_eq in E. auto.
  - auto.
Qed.

Lemma dict_get_not_In_keys (d : dict) (k : string) :
  ~ In k (keys d) -> dict_get d k = None.
Proof.
  intros H. destruct (dict_get d k) as [v |] eqn:E; [| reflexivity].
  elim H. eapply dict_get_In_keys. eassumption.
Qed.

Lemma is_subsequence_incl (master : list string) : forall l,
  is_subsequence master l = true -> incl l master.
Proof.
  induction master as [| y master IH]; intros l H.
  - destruct l; [intros x [] | discriminate].
  - destruct l as [| x l]; [intros z [] |].
    simpl in H. destruct (x =? y) eqn:E.
    + apply String.eqb_eq in E. subst y.
      intros z [<- | Hz]; [left; reflexivity | right; apply (IH _ H _ Hz)].
    + intros z Hz. right. apply (IH _ H _ Hz).
Qed.

Lemma no_duplicate_NoDup (l : list string) :
  no_duplicate l = true -> NoDup l.
Proof.
  induction l as [| x l IH]; simpl; intros H; constructor.
  - apply andb_prop in H as [H _]. intros Hin.
    apply negb_true_iff in H.
    assert (existsb (String.eqb x) l = true); [| congruence].
    apply existsb_exists. exists x. split; [assumption | apply String.eqb_refl].
  - apply andb_prop in H as [_ H]. auto.
Qed.

(** The keys that a building record dictates are columns of the fixed
    list, in the order of that list, each once. *)
Lemma expected_keys_ordered (building_record : Element) :
  is_subsequence output_fields (expected_keys building_record) = true
  /\ no_duplicate (expected_keys building_record) = true.
Proof.
  unfold expected_keys.
  destruct (present building_record ["StatusDetails"]);
  destruct (present building_record ["RecordDetails"]);
  destruct (present building_record ["WorkAddressDetails"; "WorkAddress"]);
  destruct (present building_record ["WorkAddressDetails"]);
  destruct (present building_record ["WorkDetails"]);
  destruct (present building_record ["ContactInformation"; "ContactDetails"]);
  split; reflexivity.
Qed.

(** X5.  The keys of every record that the extractor returns are fields
    of the fixed list of output fields, in the order of that list and
    without repetition: two records may differ in which fields they have,
    never in the order of the fields they share. *)
Theorem record_keys_ordered
        (fromstring : string -> outcome Element) (xml_content : string)
        (records : list dict) (log : list diagnostic) (r : dict) :
  parse_building_record_xml fromstring xml_content = (Return records, log) ->
  In r records ->
  is_subsequence output_fields (keys r) = true
  /\ NoDup (keys r)
  /\ incl (keys r) output_fields.
Proof.
  intros H Hr.
  destruct (returned_record_shape _ _ _ _ _ H Hr)
    as (root & g & br & _ & _ & _ & [Hk _ _ _ _ _]).
  rewrite Hk. destruct (expected_keys_ordered br) as [Hsub Hnd].
  repeat split; [assumption | | ].
  - apply no_duplicate_NoDup. assumption.
  - apply is_subsequence_incl. assumption.
Qed.

Lemma record_keys_ordered_witness :
  is_subsequence output_fields (keys doc_full_first_record) = true
  /\ NoDup (keys doc_full_first_record)
  /\ incl (keys doc_full_first_record) output_fields.
Proof.
  apply (record_keys_ordered sample_fromstring doc_full_text doc_full_records []).
  - reflexivity.
  - left. reflexivity.
Defined.

Lemma leaf_is_str_or_none (parent : Element) (name : string) :
  is_str_or_none (leaf parent name) = true.
Proof.
  unfold leaf, text_value.
  destruct (find parent name) as [e |]; [| reflexivity].
  destruct (text e); reflexivity.
Qed.

Lemma output_fields_kinds (k : string) :
  In k output_fields ->
  In k global_keys \/ In k (map (fun f => snd f) leaf_fields)
  \/ k = "county" \/ k = "work_address_uprn" \/ k = "work_description".
Proof.
  unfold output_fields, global_keys, leaf_fields. simpl.
  intros Hk.
  repeat (destruct Hk as [<- | Hk]; [auto 30 |]).
  contradiction.
Qed.

(** X6.  The types of the fields of a record that the extractor returns:
    [work_address_uprn] is an integer not below zero or [None]; every
    other field is a string or [None], never an integer; [county] and
    [work_description] are always strings. *)
Theorem record_field_types
        (fromstring : string -> outcome Element) (xml_content : string)
        (records : list dict) (log : list diagnostic) (r : dict)
        (k : string) (v : value) :
  parse_building_record_xml fromstring xml_content = (Return records, log) ->
  In r records ->
  dict_get r k = Some v ->
  (k = "work_address_uprn" -> integer_or_null v)
  /\ (k <> "work_address_uprn" -> is_str_or_none v = true)
  /\ (k = "county" \/ k = "work_description" -> is_str v = true).
Proof.
  intros H Hr Hv.
  destruct (returned_record_shape _ _ _ _ _ H Hr)
    as (root & g & br & _ & Hg & _ & [Hk Hglob Hleaves Hc Hu Hw]).
  destruct (read_global_details_inv _ _ Hg)
    as (gd & _ & E1 & E2 & E3 & E4 & E5).
  rewrite E1, E2, E3, E4, E5 in Hglob.
  destruct Hglob as (G1 & G2 & G3 & G4 & G5).
  assert (Hin : In k output_fields).
  { apply (is_subsequence_incl _ _ (proj1 (expected_keys_ordered br))).
    rewrite <- Hk. eapply dict_get_In_keys. eassumption. }
  destruct (output_fields_kinds k Hin)
    as [Hglobal | [Hleaf | [-> | [-> | ->]]]].
  - assert (is_str_or_none v = true /\ k <> "work_address_uprn"
            /\ k <> "county" /\ k <> "work_description") as (T & N1 & N2 & N3).
    { unfold global_keys in Hglobal. simpl in Hglobal.
      destruct Hglobal as [<- | [<- | [<- | [<- | [<- | []]]]]];
        (split; [| repeat split; discriminate]);
        [ rewrite G1 in Hv | rewrite G2 in Hv | rewrite G3 in Hv
        | rewrite G4 in Hv | rewrite G5 in Hv ];
        injection Hv as <-; apply leaf_is_str_or_none. }
    split; [intros E; contradiction |].
    split; [auto | intros [E | E]; contradiction].
  - apply in_map_iff in Hleaf as ([[path leaf_tag] key] & Hkey & Hf).
    simpl in Hkey. subst key.
    assert (T : is_str_or_none v = true).
    { rewrite Forall_forall in Hleaves. specialize (Hleaves _ Hf).
      simpl in Hleaves. destruct (descend br path) as [sub |].
      - destruct Hleaves as [Hget _]. rewrite Hget in Hv.
        injection Hv as <-. apply leaf_is_str_or_none.
      - congruence. }
    assert (N : k <> "work_address_uprn" /\ k <> "county"
                /\ k <> "work_description").
    { unfold leaf_fields in Hf. simpl in Hf.
      repeat (destruct Hf as [Hf | Hf];
              [injection Hf as _ _ <-; repeat split; discriminate |]).
      contradiction. }
    destruct N as (N1 & N2 & N3).
    split; [intros E; contradiction |].
    split; [auto | intros [E | E]; contradiction].
  - assert (T : is_str v = true).
    { destruct (descend br ["WorkAddressDetails"; "WorkAddress"]) as [wa |];
        [| congruence].
      rewrite Hc, county_value_spec in Hv. injection Hv as <-. reflexivity. }
    split; [discriminate |].
    split; [intros _; destruct v; [discriminate | reflexivity | discriminate]
           | auto].
  - assert (T : integer_or_null v).
    { destruct (find br "WorkAddressDetails") as [wad |]; [| congruence].
      destruct Hu as (v' & Hv' & Hget). rewrite Hget in Hv.
      injection Hv as <-. eapply uprn_value_integer_or_null. eassumption. }
    split; [auto |].
    split; [congruence | intros [E | E]; discriminate E].
  - rewrite Hw in Hv. injection Hv as <-.
    split; [discriminate |]. split; reflexivity.
Qed.

Lemma record_field_types_witness :
  (("work_address_uprn" : string) = "work_address_uprn"
   -> integer_or_null (VInt 12345))
  /\ (("work_address_uprn" : string) <> "work_address_uprn"
      -> is_str_or_none (VInt 12345) = true)
  /\ (("work_address_uprn" : string) = "county"
      \/ ("work_address_uprn" : string) = "work_description"
      -> is_str (VInt 12345) = true).
Proof.
  apply (record_field_types sample_fromstring doc_full_text doc_full_records []
           doc_full_first_record "work_address_uprn" (VInt 12345)).
  - reflexivity.
  - left. reflexivity.
  - reflexivity.
Defined.

(** *** The work description *)

Lemma kept_texts_not_empty (texts : list (option string)) :
  Forall (fun s => s <> "") (kept_texts texts).
Proof.
  induction texts as [| [s |] texts IH]; simpl; auto.
  destruct (s =? "") eqn:E; [assumption |].
  constructor; [| assumption]. intros ->. discriminate E.
Qed.

Lemma append_empty (s1 s2 : string) :
  (s1 ++ s2)%string = "" -> s1 = "".
Proof.
  destruct s1; [reflexivity | discriminate].
Qed.

Lemma str_join_empty (sep : string) (items : list string) :
  Forall (fun s => s <> "") items -> str_join sep items = "" -> items = [].
Proof.
  intros Hne H. destruct items as [| x [| y rest]]; [reflexivity | |].
  - simpl in H. inversion Hne. contradiction.
  - rewrite str_join_cons in H. apply append_empty in H.
    inversion Hne. contradiction.
Qed.

Lemma str_join_length (sep : string) (items : list string) :
  String.length (str_join sep items)
  = total_length items + String.length sep * (length items - 1).
Proof.
  induction items as [| x [| y rest] IH].
  - simpl. lia.
  - simpl. lia.
  - rewrite str_join_cons, !length_append, IH.
    cbn [total_length length]. lia.
Qed.

Lemma decoded_length (lo hi c : N) (rest : option (list N)) (cps : list N) :
  decoded lo hi c rest = Some cps ->
  exists cps', rest = Some cps' /\ length cps = S (length cps').
Proof.
  unfold decoded.
  destruct ((lo <=? c)%N && (c <=? hi)%N && negb ((55296 <=? c)%N && (c <=? 57343)%N));
    [| discriminate].
  destruct rest as [cps' |]; [| discriminate].
  intros H. injection H as <-. eauto.
Qed.

Lemma lead_byte_not_continuation (b : ascii) :
  (N_of_ascii b <? 128)%N = true \/ (N_of_ascii b <? 192)%N = false ->
  is_continuation b = false.
Proof.
  unfold is_continuation. intros [H | H].
  - apply N.ltb_lt in H. replace (128 <=? N_of_ascii b)%N with false; [reflexivity |].
    symmetry. apply N.leb_gt. assumption.
  - rewrite H. apply andb_false_r.
Qed.

Lemma str_len_decode (n : nat) : forall (s : string) (cps : list N),
  String.length s <= n ->
  utf8_decode s = Some cps -> str_len s = length cps.
Proof.
  induction n as [| n IH]; intros s cps Hn H.
  - destruct s; [| simpl in Hn; lia]. injection H as <-. reflexivity.
  - destruct s as [| b0 s1]; [injection H as <-; reflexivity |].
    cbn [utf8_decode] in H. cbn [String.length] in Hn.
    destruct (N_of_ascii b0 <? 128)%N eqn:E1.
    { apply decoded_length in H as (cps' & H & ->).
      cbn [str_len]. rewrite lead_byte_not_continuation by auto.
      f_equal. apply IH; [lia | assumption]. }
    destruct (N_of_ascii b0 <? 192)%N eqn:E2; [discriminate |].
    cbn [str_len]. rewrite (lead_byte_not_continuation b0) by auto.
    destruct (N_of_ascii b0 <? 224)%N.
    { destruct s1 as [| b1 s2]; [discriminate |].
      destruct (is_continuation b1) eqn:C1; [| discriminate].
      apply decoded_length in H as (cps' & H & ->).
      cbn [str_len String.length] in *. rewrite C1.
      f_equal. apply IH; [lia | assumption]. }
    destruct (N_of_ascii b0 <? 240)%N.
    { destruct s1 as [| b1 [| b2 s3]]; try discriminate.
      destruct (is_continuation b1) eqn:C1; [| discriminate].
      destruct (is_continuation b2) eqn:C2; [| discriminate].
      apply decoded_length in H as (cps' & H & ->).
      cbn [str_len String.length] in *. rewrite C1, C2.
      f_equal. apply IH; [lia | assumption]. }
    destruct (N_of_ascii b0 <? 248)%N; [| discriminate].
    destruct s1 as [| b1 [| b2 [| b3 s4]]]; try discriminate.
    destruct (is_continuation b1) eqn:C1; [| discriminate].
    destruct (is_continuation b2) eqn:C2; [| discriminate].
    destruct (is_continuation b3) eqn:C3; [| discriminate].
    apply decoded_length in H as (cps' & H & ->).
    cbn [str_len String.length] in *. rewrite C1, C2, C3.
    f_equal. apply IH; [lia | assumption].
Qed.

(** [str_len] counts the code points of a text. *)
Lemma str_len_code_points (s : string) (cps : list N) :
  utf8_decode s = Some cps -> str_len s = length cps.
Proof.
  apply (str_len_decode (String.length s)). lia.
Qed.

Lemma str_len_append (s1 s2 : string) :
  str_len (s1 ++ s2) = str_len s1 + str_len s2.
Proof.
  induction s1 as [| b s1 IH]; [reflexivity |].
  cbn [append str_len]. destruct (is_continuation b); lia.
Qed.

Lemma str_join_len (sep : string) (items : list string) :
  str_len (str_join sep items)
  = total_len items + str_len sep * (length items - 1).
Proof.
  induction items as [| x [| y rest] IH].
  - simpl. lia.
  - simpl. lia.
  - rewrite str_join_cons, !str_len_append, IH.
    cbn [total_len length]. lia.
Qed.

(** X7.  The work description of a record is the empty string exactly
    when no item text is kept, and its length is the sum of the lengths
    of the kept texts plus three for each separator, one separator less
    than there are kept texts; so for the length in bytes of UTF-8 and
    for the length in code points, which is [len] of Python. *)
Theorem work_description_empty_iff
        (fromstring : string -> outcome Element) (xml_content : string)
        (records : list dict) (log : list diagnostic) (r : dict) :
  parse_building_record_xml fromstring xml_content = (Return records, log) ->
  In r records ->
  exists root building_record description,
    fromstring xml_content = Return root
    /\ In building_record (findall root "BuildingRecord")
    /\ dict_get r "work_description" = Some (VStr description)
    /\ (description = ""
        <-> kept_texts (item_texts building_record) = [])
    /\ String.length description
       = total_length (kept_texts (item_texts building_record))
         + 3 * (length (kept_texts (item_texts building_record)) - 1)
    /\ str_len description
       = total_len (kept_texts (item_texts building_record))
         + 3 * (length (kept_texts (item_texts building_record)) - 1).
Proof.
  intros H Hr.
  destruct (returned_record_shape _ _ _ _ _ H Hr)
    as (root & g & br & Hroot & Hg & Hbr & [_ _ _ _ _ Hw]).
  rewrite work_items_kept in Hw.
  exists root, br, (str_join " | " (kept_texts (item_texts br))).
  repeat (split; [assumption |]). split; [split |]; [| | split].
  - apply str_join_empty. apply kept_texts_not_empty.
  - intros ->. reflexivity.
  - apply str_join_length.
  - apply str_join_len.
Qed.

Lemma work_description_empty_iff_witness :
  exists root building_record description,
    sample_fromstring doc_full_text = Return root
    /\ In building_record (findall root "BuildingRecord")
    /\ dict_get doc_full_first_record "work_description" = Some (VStr description)
    /\ (description = ""
        <-> kept_texts (item_texts building_record) = [])
    /\ String.length description
       = total_length (kept_texts (item_texts building_record))
         + 3 * (length (kept_texts (item_texts building_record)) - 1)
    /\ str_len description
       = total_len (kept_texts (item_texts building_record))
         + 3 * (length (kept_texts (item_texts building_record)) - 1).
Proof.
  apply (work_description_empty_iff
           sample_fromstring doc_full_text doc_full_records []).
  - reflexivity.
  - left. reflexivity.
Defined.

(** *** What the loop body reads of a building record *)

Lemma list_find_skip {A} (p : A -> bool) (l1 l2 : list A) (x : A) :
  p x = false \/ (exists y, In y l1 /\ p y = true) ->
  List.find p (l1 ++ x :: l2) = List.find p (l1 ++ l2).
Proof.
  induction l1 as [| z l1 IH]; simpl; intros H.
  - destruct H as [-> | (y & [] & _)]. reflexivity.
  - destruct (p z) eqn:Hz; [reflexivity |].
    apply IH. destruct H as [H | (y & [<- | Hy] & Hp)]; [auto | congruence |].
    right. eauto.
Qed.

(** The loop body reads a building record through six lookups only. *)
Lemma build_record_ext (g : global_fields) (br1 br2 : Element) :
  (forall t, In t subsection_tags -> find br1 t = find br2 t) ->
  build_record g br1 = build_record g br2.
Proof.
  intros H.
  unfold build_record, set_status_details, set_record_details,
    set_work_address_details, set_work_details, set_work_description,
    work_items, set_contact_information.
  rewrite !(H _) by (unfold subsection_tags; simpl; auto 10).
  reflexivity.
Qed.

(** X8.  A child of a building record that the loop body does not look
    up, because its tag is none of the six subsection tags or because a
    child with the same tag comes before it, changes nothing: the record
    is the one built without that child.  Nor do the tag and the text of
    the building-record element itself matter. *)
Theorem unread_child_changes_nothing
        (g : global_fields) (tag1 tag2 : string) (text1 text2 : option string)
        (l1 l2 : list Element) (x : Element) :
  (In (tag x) subsection_tags -> exists y, In y l1 /\ tag y = tag x) ->
  build_record g (Elem tag1 text1 (l1 ++ x :: l2))
  = build_record g (Elem tag2 text2 (l1 ++ l2)).
Proof.
  intros H. apply build_record_ext. intros t Ht.
  unfold find. simpl. apply list_find_skip.
  destruct (tag x =? t) eqn:E; [| auto].
  apply String.eqb_eq in E. subst t.
  destruct (H Ht) as (y & Hy & Hty).
  right. exists y. split; [assumption |]. rewrite Hty. apply String.eqb_refl.
Qed.

Lemma unread_child_changes_nothing_witness :
  build_record
    {| sender_code := VNone; local_authority_code := VNone;
       submission_date := VNone; sender_email := VNone; sender_phone := VNone |}
    (Elem "BuildingRecord" None
       ([Elem "WorkDescription" None
           [Elem "DescriptionOfWorkItem" (Some "Flue check") []]]
        ++ Elem "WorkDescription" None
             [Elem "DescriptionOfWorkItem" (Some "Boiler install") []]
        :: [Elem "Remarks" (Some "none") []]))
  = build_record
      {| sender_code := VNone; local_authority_code := VNone;
         submission_date := VNone; sender_email := VNone; sender_phone := VNone |}
      (Elem "BuildingRecord" None
         ([Elem "WorkDescription" None
             [Elem "DescriptionOfWorkItem" (Some "Flue check") []]]
          ++ [Elem "Remarks" (Some "none") []])).
Proof.
  apply (unread_child_changes_nothing _ "BuildingRecord" "BuildingRecord"
           None None).
  intros _. eexists. split; [left; reflexivity | reflexivity].
Defined.

(** ** Further properties of the aggregator *)

Section AggregatorProperties.

Variable fromstring : string -> outcome Element.
Variable open_zip : list Byte.byte -> outcome ZipFile.
Variable decode_utf8 : list Byte.byte -> outcome string.

(** X9.  A batch made of two batches gives the records of the first
    followed by the records of the second, and likewise the diagnostics:
    what a file contributes does not depend on the files around it. *)
Theorem aggregate_concatenates (batch1 batch2 : list UploadedFile) :
  process_uploaded_files fromstring open_zip decode_utf8 (batch1 ++ batch2)
  = (Return
       (returned (process_uploaded_files fromstring open_zip decode_utf8 batch1)
        ++ returned (process_uploaded_files fromstring open_zip decode_utf8
                       batch2)),
     snd (process_uploaded_files fromstring open_zip decode_utf8 batch1)
     ++ snd (process_uploaded_files fromstring open_zip decode_utf8 batch2)).
Proof.
  rewrite !process_uploaded_files_run. unfold returned. simpl.
  rewrite !flat_map_app. reflexivity.
Qed.

(** X10.  The body of the loop over the files, from any state of the two
    accumulators: it ends normally, keeps the records and the diagnostics
    accumulated so far and adds to them what the file gives when it is
    processed alone. *)
Theorem process_file_appends (uploaded_file : UploadedFile) (st : state) :
  process_file fromstring open_zip decode_utf8 uploaded_file st
  = (Return tt,
     {| all_records :=
          all_records st
          ++ returned (process_uploaded_files fromstring open_zip decode_utf8
                         [uploaded_file]);
        diagnostics :=
          diagnostics st
          ++ snd (process_uploaded_files fromstring open_zip decode_utf8
                    [uploaded_file]) |}).
Proof.
  rewrite process_file_run, process_uploaded_files_run.
  unfold add_to, returned. simpl. rewrite !app_nil_r. reflexivity.
Qed.

(** X11.  The loop over the uploaded files, lines 104 to 128, runs to
    its end, and every record that the list [all_records] then holds,
    the list that line 131 builds the frame from, is a record of the
    extractor with [source_file] added as its last key: its keys are
    those dictated by its building record followed by [source_file], and
    every other field is as the extractor returned it. *)
Theorem aggregated_record_fields (uploaded_files : list UploadedFile) (r : dict) :
  In r (all_records
          (snd (for_each (process_file fromstring open_zip decode_utf8)
                  uploaded_files
                  {| all_records := []; diagnostics := [] |}))) ->
  fst (for_each (process_file fromstring open_zip decode_utf8) uploaded_files
         {| all_records := []; diagnostics := [] |})
  = Return tt
  /\ exists file_name xml_content root building_record r0,
    fromstring xml_content = Return root
    /\ In building_record (findall root "BuildingRecord")
    /\ In r0 (returned (parse_building_record_xml fromstring xml_content))
    /\ keys r0 = expected_keys building_record
    /\ keys r = expected_keys building_record ++ ["source_file"]
    /\ dict_get r "source_file" = Some (VStr file_name)
    /\ (forall k, k <> "source_file" -> dict_get r k = dict_get r0 k).
Proof.
  intros Hr. rewrite process_files_run in *. split; [reflexivity |].
  unfold add_to in Hr. simpl in Hr.
  apply in_flat_map in Hr as (f & _ & Hr).
  apply source_record_origin in Hr as (n & xml & r0 & Hr0 & ->).
  pose proof Hr0 as Hr0'. unfold returned in Hr0'.
  destruct (parse_returns fromstring xml) as (records & log & E).
  rewrite E in Hr0'. simpl in Hr0'.
  destruct (returned_record_shape _ _ _ _ _ E Hr0')
    as (root & g & br & Hroot & _ & Hbr & [Hk _ _ _ _ _]).
  exists n, xml, root, br, r0. repeat (split; [assumption |]).
  assert (Hfresh : dict_get r0 "source_file" = None).
  { apply dict_get_not_In_keys. rewrite Hk. intros Hin.
    apply (is_subsequence_incl _ _ (proj1 (expected_keys_ordered br))) in Hin.
    unfold output_fields, global_keys in Hin. simpl in Hin.
    repeat (destruct Hin as [Hin | Hin]; [discriminate Hin |]).
    contradiction. }
  split; [| split].
  - rewrite keys_set_fresh by assumption. rewrite Hk. reflexivity.
  - apply dict_get_set_same.
  - intros k Hk'. apply dict_get_set_other.
    apply String.eqb_neq. congruence.
Qed.

Lemma processed_entries_names (zip_ref : ZipFile) (xml_names : list string) :
  incl (map fst (fst (processed_entries decode_utf8 zip_ref xml_names)))
       xml_names.
Proof.
  destruct (processed_entries decode_utf8 zip_ref xml_names)
    as [entries failure] eqn:E.
  destruct (processed_entries_spec _ _ _ _ _ E) as [_ H]. simpl.
  destruct failure as [e |].
  - destruct H as (n & rest & -> & _). apply incl_appl, incl_refl.
  - rewrite H. apply incl_refl.
Qed.

(** X12.  The records that an archive contributes carry the names of
    entries of the archive that have the suffix .xml, and of no other
    entry: an entry without that suffix is never read, and the name of
    the archive itself is no tag unless an entry bears it. *)
Theorem archive_tags_are_xml_entries
        (uploaded_file : UploadedFile) (zip_ref : ZipFile) (r : dict) :
  str_endswith (name uploaded_file) ".zip" = true ->
  open_zip (content uploaded_file) = Return zip_ref ->
  In r (returned (process_uploaded_files fromstring open_zip decode_utf8
                    [uploaded_file])) ->
  exists file_name xml_content,
    In file_name (namelist zip_ref)
    /\ str_endswith file_name ".xml" = true
    /\ read_entry decode_utf8 zip_ref file_name = Return xml_content
    /\ In r (tag_source file_name
               (returned (parse_building_record_xml fromstring xml_content)))
    /\ dict_get r "source_file" = Some (VStr file_name).
Proof.
  intros Hzip Hopen Hr.
  rewrite process_uploaded_files_run in Hr. unfold returned in Hr.
  simpl in Hr. rewrite app_nil_r in Hr.
  unfold source_contribution in Hr. rewrite Hzip, Hopen in Hr.
  destruct (processed_entries decode_utf8 zip_ref
              (filter is_xml (namelist zip_ref))) as [entries failure] eqn:E.
  simpl in Hr. apply in_flat_map in Hr as ([n xml] & Hentry & Hr).
  simpl in Hr.
  destruct (processed_entries_spec _ _ _ _ _ E) as [Hread _].
  pose proof (processed_entries_names zip_ref (filter is_xml (namelist zip_ref)))
    as Hnames.
  rewrite E in Hnames. simpl in Hnames.
  assert (Hn : In n (filter is_xml (namelist zip_ref))).
  { apply Hnames. apply in_map_iff. exists (n, xml). auto. }
  apply filter_In in Hn as [Hn Hxml].
  exists n, xml. repeat split; try assumption.
  - rewrite Forall_forall in Hread. apply (Hread _ Hentry).
  - apply (tag_source_source_file _ _ _ Hr).
Qed.

(** X13.  In an archive of which every .xml entry can be read and
    decoded, a document that cannot be parsed or traversed costs its own
    records only: every .xml entry is processed, the records are those of
    the entries in the order of the archive, and the diagnostics are
    those of the documents, none for the archive. *)
Theorem malformed_entry_does_not_stop_archive
        (uploaded_file : UploadedFile) (zip_ref : ZipFile) :
  str_endswith (name uploaded_file) ".zip" = true ->
  open_zip (content uploaded_file) = Return zip_ref ->
  (forall file_name,
      In file_name (namelist zip_ref) ->
      str_endswith file_name ".xml" = true ->
      exists xml_content, read_entry decode_utf8 zip_ref file_name
                          = Return xml_content) ->
  process_uploaded_files fromstring open_zip decode_utf8 [uploaded_file]
  = (Return
       (flat_map
          (fun file_name =>
             tag_source file_name
               (returned (parse_building_record_xml fromstring
                            (entry_text decode_utf8 zip_ref file_name))))
          (filter is_xml (namelist zip_ref))),
     flat_map
       (fun file_name =>
          snd (parse_building_record_xml fromstring
                 (entry_text decode_utf8 zip_ref file_name)))
       (filter is_xml (namelist zip_ref))).
Proof.
  intros Hzip Hopen Hall.
  rewrite process_uploaded_files_run. simpl. rewrite !app_nil_r.
  unfold source_contribution. rewrite Hzip, Hopen.
  rewrite processed_entries_all.
  - unfold entries_contribution, document_contribution. simpl.
    rewrite app_nil_r, !flat_map_concat_map, !map_map. reflexivity.
  - intros n Hn. apply filter_In in Hn as [Hn Hxml]. auto.
Qed.

(** X14.  A plain file is all or nothing: either its text is decoded and
    extracted without any diagnostic and its records are returned tagged
    with the name of the file, or it contributes no record and exactly
    one diagnostic. *)
Theorem plain_file_all_or_nothing (uploaded_file : UploadedFile) :
  str_endswith (name uploaded_file) ".zip" = false ->
  (exists xml_content records,
      decode_utf8 (content uploaded_file) = Return xml_content
      /\ parse_building_record_xml fromstring xml_content = (Return records, [])
      /\ process_uploaded_files fromstring open_zip decode_utf8 [uploaded_file]
         = (Return (tag_source (name uploaded_file) records), []))
  \/ (exists d,
        process_uploaded_files fromstring open_zip decode_utf8 [uploaded_file]
        = (Return [], [d])).
Proof.
  intros Hzip.
  rewrite process_uploaded_files_run. simpl. rewrite !app_nil_r.
  unfold source_contribution. rewrite Hzip.
  destruct (decode_utf8 (content uploaded_file)) as [xml | e] eqn:Hd;
    [| right; eexists; reflexivity].
  unfold document_contribution, returned.
  destruct (extraction_cases fromstring xml)
    as [(root & g & records & _ & _ & _ & Hparse) | [d Hparse]];
    rewrite Hparse; simpl.
  - left. exists xml, records. repeat split. assumption.
  - right. eexists. reflexivity.
Qed.

End AggregatorProperties.

Lemma archive_tags_are_xml_entries_witness :
  exists file_name xml_content,
    In file_name (namelist good_archive)
    /\ str_endswith file_name ".xml" = true
    /\ read_entry sample_decode_utf8 good_archive file_name = Return xml_content
    /\ In (hd [] (returned (sample_aggregate [good_zip])))
          (tag_source file_name
             (returned (parse_building_record_xml sample_fromstring xml_content)))
    /\ dict_get (hd [] (returned (sample_aggregate [good_zip]))) "source_file"
       = Some (VStr file_name).
Proof.
  apply (archive_tags_are_xml_entries
           sample_fromstring sample_open_zip sample_decode_utf8
           good_zip good_archive).
  - reflexivity.
  - reflexivity.
  - left. reflexivity.
Defined.

Lemma aggregated_record_fields_witness :
  let r :=
    hd [] (all_records
             (snd (for_each
                     (process_file sample_fromstring sample_open_zip
                        sample_decode_utf8)
                     [full_xml]
                     {| all_records := []; diagnostics := [] |}))) in
  fst (for_each
         (process_file sample_fromstring sample_open_zip sample_decode_utf8)
         [full_xml]
         {| all_records := []; diagnostics := [] |})
  = Return tt
  /\ exists file_name xml_content root building_record r0,
       sample_fromstring xml_content = Return root
       /\ In building_record (findall root "BuildingRecord")
       /\ In r0 (returned
                   (parse_building_record_xml sample_fromstring xml_content))
       /\ keys r0 = expected_keys building_record
       /\ keys r = expected_keys building_record ++ ["source_file"]
       /\ dict_get r "source_file" = Some (VStr file_name)
       /\ (forall k, k <> "source_file" -> dict_get r k = dict_get r0 k).
Proof.
  apply (aggregated_record_fields
           sample_fromstring sample_open_zip sample_decode_utf8 [full_xml]).
  left. reflexivity.
Defined.

Lemma malformed_entry_does_not_stop_archive_witness :
  sample_aggregate [good_zip]
  = (Return
       (flat_map
          (fun file_name =>
             tag_source file_name
               (returned (parse_building_record_xml sample_fromstring
                            (entry_text sample_decode_utf8 good_archive
                               file_name))))
          (filter is_xml (namelist good_archive))),
     flat_map
       (fun file_name =>
          snd (parse_building_record_xml sample_fromstring
                 (entry_text sample_decode_utf8 good_archive file_name)))
       (filter is_xml (namelist good_archive))).
Proof.
  apply (malformed_entry_does_not_stop_archive
           sample_fromstring sample_open_zip sample_decode_utf8
           good_zip good_archive).
  - reflexivity.
  - reflexivity.
  - intros file_name [<- | [<- | [<- | []]]] H;
      [eexists; reflexivity | discriminate H | eexists; reflexivity].
Defined.

Lemma plain_file_all_or_nothing_witness :
  (exists xml_content records,
      sample_decode_utf8 (content unclosed_xml) = Return xml_content
      /\ parse_building_record_xml sample_fromstring xml_content
         = (Return records, [])
      /\ sample_aggregate [unclosed_xml]
         = (Return (tag_source (name unclosed_xml) records), []))
  \/ (exists d, sample_aggregate [unclosed_xml] = (Return [], [d])).
Proof.
  apply (plain_file_all_or_nothing
           sample_fromstring sample_open_zip sample_decode_utf8 unclosed_xml).
  reflexivity.
Defined.

(** ** The page *)

Lemma existsb_eqb_In (c : string) (l : list string) :
  existsb (String.eqb c) l = true <-> In c l.
Proof.
  rewrite existsb_exists. split.
  - intros (x & Hx & E). apply String.eqb_eq in E. subst x. assumption.
  - intros H. exists c. split; [assumption | apply String.eqb_refl].
Qed.

Lemma add_keys_In (ks : list string) : forall cols c,
  In c (add_keys cols ks) <-> In c cols \/ In c ks.
Proof.
  induction ks as [| k ks IH]; intros cols c; simpl.
  - tauto.
  - rewrite IH. destruct (existsb (String.eqb k) cols) eqn:E.
    + apply existsb_eqb_In in E. split; [tauto |].
      intros [H | [<- | H]]; auto.
    + rewrite in_app_iff. simpl. tauto.
Qed.

Lemma columns_from_In (rows : list dict) : forall cols c,
  In c (columns_from cols rows)
  <-> In c cols \/ exists r, In r rows /\ In c (keys r).
Proof.
  induction rows as [| r rows IH]; intros cols c; simpl.
  - split; [auto | intros [H | (r & [] & _)]; assumption].
  - rewrite IH, add_keys_In. split.
    + intros [[H | H] | (r' & Hr' & H)]; eauto.
    + intros [H | (r' & [<- | Hr'] & H)]; eauto.
Qed.

(** The frame has a column exactly when some row has the key. *)
Lemma columns_In (rows : list dict) (c : string) :
  In c (columns rows) <-> exists r, In r rows /\ dict_get r c <> None.
Proof.
  unfold columns. rewrite columns_from_In. split.
  - intros [[] | (r & Hr & Hc)]. exists r. split; [assumption |].
    intros E. revert Hc. unfold keys.
    clear Hr. induction r as [| [k0 v0] r IH]; simpl in *; [auto |].
    destruct (k0 =? c) eqn:E0; [discriminate |].
    intros [-> | H]; [rewrite String.eqb_refl in E0; discriminate | auto].
  - intros (r & Hr & Hc). right. exists r. split; [assumption |].
    destruct (dict_get r c) as [v |] eqn:E; [| congruence].
    eapply dict_get_In_keys. eassumption.
Qed.

(** Where a record of the aggregator comes from. *)
Lemma aggregated_record_origin
      (fromstring : string -> outcome Element)
      (open_zip : list Byte.byte -> outcome ZipFile)
      (decode_utf8 : list Byte.byte -> outcome string)
      (uploaded_files : list UploadedFile) (r : dict) :
  In r (returned (process_uploaded_files fromstring open_zip decode_utf8
                    uploaded_files)) ->
  exists file_name g building_record r0,
    record_shape g building_record r0
    /\ r = dict_set r0 "source_file" (VStr file_name).
Proof.
  intros Hr.
  rewrite process_uploaded_files_run in Hr. unfold returned in Hr. simpl in Hr.
  apply in_flat_map in Hr as (f & _ & Hr).
  apply source_record_origin in Hr as (n & xml & r0 & Hr0 & ->).
  unfold returned in Hr0.
  destruct (parse_returns fromstring xml) as (records & log & E).
  rewrite E in Hr0. simpl in Hr0.
  destruct (returned_record_shape _ _ _ _ _ E Hr0)
    as (root & g & br & _ & _ & _ & Hshape).
  exists n, g, br, r0. auto.
Qed.

Lemma nunique_le (cells : list (option value)) :
  nunique cells <= length cells.
Proof.
  unfold nunique.
  transitivity (length (flat_map not_missing cells)).
  - apply NoDup_incl_length; [apply NoDup_nodup |].
    intros v Hv. apply nodup_In in Hv. assumption.
  - induction cells as [| [[| s | n] |] cells IH]; simpl; lia.
Qed.

Section PageProperties.

Variable fromstring : string -> outcome Element.
Variable open_zip : list Byte.byte -> outcome ZipFile.
Variable decode_utf8 : list Byte.byte -> outcome string.

(** A frame of records of the aggregator is empty only without rows, and
    has the column [sender_code] as soon as it has a row. *)
Lemma aggregated_frame (uploaded_files : list UploadedFile) r rows :
  returned (process_uploaded_files fromstring open_zip decode_utf8
              uploaded_files) = r :: rows ->
  frame_empty (r :: rows) = false
  /\ existsb (String.eqb "sender_code") (columns (r :: rows)) = true.
Proof.
  intros Hrows.
  assert (Hcol : In "sender_code" (columns (r :: rows))).
  { apply columns_In. exists r. split; [left; reflexivity |].
    destruct (aggregated_record_origin fromstring open_zip decode_utf8
                uploaded_files r) as (n & g & br & r0 & [_ Hg _ _ _ _] & ->).
    { rewrite Hrows. left. reflexivity. }
    rewrite dict_get_set_other by reflexivity.
    destruct Hg as (-> & _). discriminate. }
  split; [| apply existsb_eqb_In; assumption].
  unfold frame_empty. destruct (columns (r :: rows)); [contradiction | reflexivity].
Qed.

(** The lookup of a column that no record has. *)
Lemma main_key_error (uploaded_files : list UploadedFile) :
  uploaded_files <> [] ->
  returned (process_uploaded_files fromstring open_zip decode_utf8
              uploaded_files) <> [] ->
  (forall r,
      In r (returned (process_uploaded_files fromstring open_zip decode_utf8
                        uploaded_files)) ->
      dict_get r "installer_registered_name" = None) ->
  main fromstring open_zip decode_utf8 uploaded_files
  = (Raise (OtherError "KeyError" "'installer_registered_name'"),
     snd (process_uploaded_files fromstring open_zip decode_utf8
            uploaded_files)).
Proof.
  intros Hfiles. destruct uploaded_files as [| f files]; [congruence |].
  set (batch := f :: files) in *.
  unfold main. fold batch.
  pose proof (aggregated_frame batch) as Hframe.
  rewrite (process_uploaded_files_run fromstring open_zip decode_utf8 batch)
    in *.
  unfold returned in *. cbn [fst snd bind] in *.
  set (rows := flat_map (fun f0 => fst (source_contribution fromstring open_zip
                                          decode_utf8 f0)) batch) in *.
  intros Hne Hnone. destruct rows as [| r rows'] eqn:Erows; [congruence |].
  destruct (Hframe r rows' eq_refl) as [-> Hs].
  unfold column at 1. rewrite Hs. cbn [bind].
  unfold column.
  destruct (existsb (String.eqb "installer_registered_name")
              (columns (r :: rows'))) eqn:E; [| reflexivity].
  apply existsb_eqb_In, columns_In in E as (r1 & Hr1 & Hget).
  elim Hget. auto.
Qed.

(** X15.  How the page ends, up to line 172.  Without files it shows the
    upload prompt.  With files it reports what the aggregator reports;
    it shows the "no valid records" error when no record was collected;
    when records were collected and none of them has
    [installer_registered_name], the lookup of that column at line 172
    raises [KeyError], which nothing in [main] catches; otherwise the
    summary counts the records, all the uploaded files (the failed ones
    too) and at most as many distinct senders and installers as there
    are records. *)
Theorem page_outcomes (uploaded_files : list UploadedFile) :
  (uploaded_files = [] ->
   main fromstring open_zip decode_utf8 uploaded_files
   = (Return UploadPrompt, []))
  /\ (uploaded_files <> [] ->
      snd (main fromstring open_zip decode_utf8 uploaded_files)
      = snd (process_uploaded_files fromstring open_zip decode_utf8
               uploaded_files)
      /\ (returned (process_uploaded_files fromstring open_zip decode_utf8
                      uploaded_files) = [] ->
          fst (main fromstring open_zip decode_utf8 uploaded_files)
          = Return NoValidRecords)
      /\ (returned (process_uploaded_files fromstring open_zip decode_utf8
                      uploaded_files) <> [] ->
          (forall r,
              In r (returned (process_uploaded_files fromstring open_zip
                                decode_utf8 uploaded_files)) ->
              dict_get r "installer_registered_name" = None) ->
          fst (main fromstring open_zip decode_utf8 uploaded_files)
          = Raise (OtherError "KeyError" "'installer_registered_name'"))
      /\ ((exists r,
              In r (returned (process_uploaded_files fromstring open_zip
                                decode_utf8 uploaded_files))
              /\ dict_get r "installer_registered_name" <> None) ->
          exists senders installers,
            fst (main fromstring open_zip decode_utf8 uploaded_files)
            = Return (Summary
                        (length (returned (process_uploaded_files fromstring
                                             open_zip decode_utf8 uploaded_files)))
                        (length uploaded_files)
                        (length (returned (process_uploaded_files fromstring
                                             open_zip decode_utf8 uploaded_files)))
                        senders installers)
            /\ senders
               <= length (returned (process_uploaded_files fromstring open_zip
                                      decode_utf8 uploaded_files))
            /\ installers
               <= length (returned (process_uploaded_files fromstring open_zip
                                      decode_utf8 uploaded_files)))).
Proof.
  split; [intros ->; reflexivity |].
  intros Hfiles. destruct uploaded_files as [| f files]; [congruence |].
  set (batch := f :: files) in *.
  unfold main. fold batch.
  pose proof (aggregated_frame batch) as Hframe.
  rewrite (process_uploaded_files_run fromstring open_zip decode_utf8 batch)
    in *.
  unfold returned in *. cbn [fst snd bind] in *.
  set (rows := flat_map (fun f0 => fst (source_contribution fromstring open_zip
                                          decode_utf8 f0)) batch) in *.
  split; [reflexivity |]. split; [| split].
  - intros ->. reflexivity.
  - intros Hne Hnone. destruct rows as [| r rows'] eqn:Erows; [congruence |].
    destruct (Hframe r rows' eq_refl) as [-> Hs].
    unfold column at 1. rewrite Hs. cbn [bind].
    unfold column.
    destruct (existsb (String.eqb "installer_registered_name")
                (columns (r :: rows'))) eqn:E; [| reflexivity].
    apply existsb_eqb_In, columns_In in E as (r1 & Hr1 & Hget).
    elim Hget. auto.
  - intros (r1 & Hr1 & Hget).
    destruct rows as [| r rows'] eqn:Erows; [contradiction |].
    destruct (Hframe r rows' eq_refl) as [-> Hs].
    unfold column at 1. rewrite Hs. cbn [bind].
    unfold column.
    assert (E : existsb (String.eqb "installer_registered_name")
                  (columns (r :: rows')) = true).
    { apply existsb_eqb_In, columns_In. eauto. }
    rewrite E. cbn [bind].
    eexists _, _. split; [reflexivity |].
    split; (eapply Nat.le_trans; [apply nunique_le |]);
      rewrite length_map; apply Nat.le_refl.
Qed.

(** X16.  A plain file whose document parses, has its global details
    and at least one building record, with every UPRN accepted, but no
    building record with contact details (a [ContactDetails] under
    [ContactInformation]), makes the page raise [KeyError] at line 172:
    the extraction and the aggregation succeed without diagnostic, and
    the summary then looks up the column [installer_registered_name],
    which no record has. *)
Theorem no_contact_details_breaks_page
        (uploaded_file : UploadedFile) (xml_content : string)
        (root global_details : Element) :
  str_endswith (name uploaded_file) ".zip" = false ->
  decode_utf8 (content uploaded_file) = Return xml_content ->
  fromstring xml_content = Return root ->
  find root "GlobalDetails" = Some global_details ->
  findall root "BuildingRecord" <> [] ->
  forallb uprn_accepted (findall root "BuildingRecord") = true ->
  (forall building_record,
      In building_record (findall root "BuildingRecord") ->
      present building_record ["ContactInformation"; "ContactDetails"] = false) ->
  main fromstring open_zip decode_utf8 [uploaded_file]
  = (Raise (OtherError "KeyError" "'installer_registered_name'"), []).
Proof.
  intros Hzip Hdecode Hroot Hgd Hne Hacc Hcontact.
  destruct (read_global_details_present _ _ Hgd) as (g & Hg & _).
  destruct (mapM_returns (build_record g) (findall root "BuildingRecord"))
    as [records Hrecords].
  { intros br Hbr. apply build_record_returns.
    apply (proj1 (forallb_forall _ _) Hacc br Hbr). }
  assert (Hparse : parse_building_record_xml fromstring xml_content
                   = (Return records, [])).
  { apply (parse_success fromstring xml_content root); [assumption |].
    unfold extract_records. rewrite Hg. assumption. }
  assert (Hrun : process_uploaded_files fromstring open_zip decode_utf8
                   [uploaded_file]
                 = (Return (tag_source (name uploaded_file) records), [])).
  { rewrite process_uploaded_files_run. simpl. rewrite !app_nil_r.
    unfold source_contribution. rewrite Hzip, Hdecode.
    unfold document_contribution, returned. rewrite Hparse. reflexivity. }
  rewrite main_key_error.
  - rewrite Hrun. reflexivity.
  - discriminate.
  - rewrite Hrun. unfold returned. simpl.
    apply mapM_length in Hrecords.
    destruct records; [| discriminate].
    destruct (findall root "BuildingRecord"); [congruence | discriminate].
  - rewrite Hrun. unfold returned. simpl. intros r Hr.
    apply tag_source_source_file in Hr as (_ & r0 & Hr0 & ->).
    rewrite dict_get_set_other by reflexivity.
    destruct (mapM_In _ _ _ _ Hrecords Hr0) as (br & Hbr & Hbuild).
    apply build_record_shape in Hbuild as [_ _ Hleaves _ _ _].
    rewrite Forall_forall in Hleaves.
    specialize (Hleaves (["ContactInformation"; "ContactDetails"],
                         "InstallerRegisteredName",
                         "installer_registered_name")).
    specialize (Hcontact br Hbr). unfold present in Hcontact.
    unfold leaf_field_ok in Hleaves.
    destruct (descend br ["ContactInformation"; "ContactDetails"]);
      [discriminate |].
    apply Hleaves. unfold leaf_fields. simpl. auto 20.
Qed.

End PageProperties.

Lemma no_contact_details_breaks_page_witness :
  sample_main [bare_xml]
  = (Raise (OtherError "KeyError" "'installer_registered_name'"), []).
Proof.
  apply (no_contact_details_breaks_page
           sample_fromstring sample_open_zip sample_decode_utf8
           bare_xml doc_bare_text doc_bare (Elem "GlobalDetails" None []));
    try reflexivity.
  - discriminate.
  - intros building_record [<- | []]. reflexivity.
Defined.

Lemma page_outcomes_witness :
  fst (sample_main [bare_xml; unclosed_xml])
  = Raise (OtherError "KeyError" "'installer_registered_name'").
Proof.
  apply (proj1 (proj2 (proj2 (proj2 (page_outcomes
           sample_fromstring sample_open_zip sample_decode_utf8
           [bare_xml; unclosed_xml]) ltac:(discriminate))))).
  - discriminate.
  - intros r [<- | []]. reflexivity.
Defined.
